(* ===== verification/_CoqProject ===== *)
-Q . S2P
Prelude.v
PyValue.v
PyDict.v
Store.v
Lookup.v
Aggregate.v
SiteLoop.v
Paths.v
FileSys.v
SaveJson.v
JsonParse.v
Main.v
Witnesses.v
