(* ===== verification/Prelude.v ===== *)
(** * Feature-flag report scripts: a verification development

    ** The program

    The repository holds two copies of one Python script,
    src/PROD-WTFeaturesFlagsScript.py and src/PROD-CZFeaturesFlagsScript.py,
    that differ only in names (configuration collection [platform_server_api]
    / [server_env], flags field [WT_FEATURES_FLAGS] / [FEATURES_FLAGS],
    reference field, output path).  [main()] (lines 30-126):
    - step 1 connects with [MongoClient] and pings (lines 31-49);
    - step 2 fetches every configuration document and builds the dict
      [id_to_flags] from [_id] to its flags (lines 52-68), returning early
      when it is empty;
    - step 3 queries the [site] collection for sites whose reference is a
      key of the dict and whose [disabled] is [False], counts them in
      [disabled_false_count] and tallies the boolean flags of their
      configuration in the [defaultdict] [feature_counts] (lines 70-106);
    - steps 4-5 assemble the report and call [save_json] (lines 108-117,
      132-155), which creates the output directory, writes
      [json.dump(data, indent=4)] and swallows every exception;
    - handlers print and return (step 1) or print (steps 2-5); a [finally]
      closes the client after a successful ping.
    Data flows one way: store -> lookup -> aggregation -> report -> file.

    ** Files

    - [Prelude]: the [result] type of fallible code with its [x <- r ;; k]
      notation (scope [pipe_scope]), counting over lists ([count_where]),
      string append equations, the hint databases [pipe] (resolution
      lemmas: reading a string-keyed dict after an assignment, the last
      line printed, [mkdir]'s exceptions; filled in by [PyDict] and
      [FileSys]) and [pipe_rw] (counting, tally and string equations),
      and the tactics [by_decide] and [str_norm].
    - [PyValue]: decoded BSON values ([value]), the exceptions [exc] with
      the [OSError] subclasses ([os_error], [ENOSPC] included), the
      [isinstance] tests ([is_dict], [as_bool]), hash keys ([hkey],
      [hash_key]: [True] and [1] collide, lists and dicts are
      unhashable), and an induction principle for the nested type.
    - [PyDict]: Python's insertion-ordered dict ([get], [setitem], [len],
      [keys]) over a key projection, with its refinement of stdpp's
      [gmap] ([to_map]) and its order law.
    - [Store]: what the scripts need from pymongo/MongoDB, as the type class
      [Store] (connect, ping, find on a (database, collection)
      namespace) and its contract [StoreSpec]; MongoDB's
      equality and [$in] matching ([matches], [bson_eqb], proved to be
      structural equality) and projections; the in-memory instance [mem_db].
      The server is not repository code: this is the interface the program
      is proved against.
    - [Lookup]: lines 54-68 ([build_lookup]); its abstract specification
      [lookup_spec] (last write wins); C9-C11, C30.
    - [Aggregate]: lines 72-106 ([site_filter], [count_flags],
      [process_site], [process_sites], [aggregate]) and the join between
      MongoDB's matching and Python's lookup; C2-C8, C20, C25, C26, C28.
    - [SiteLoop]: the same loop as the interpreter runs it, one transition
      per [next()] on the cursor ([loop_step], decided by [loop_step_fn]):
      an invariant of every reachable state by rule induction (C34), and
      liveness (C35).
    - [Paths]: [os.path.split], [dirname] and [basename] for [posixpath]
      and [ntpath] (Python 3.11), with [ntpath.splitdrive]'s drive
      letters and UNC / device drives ([\\server\share],
      [\\?\UNC\server\share], found with [str.find] as stdpp's
      [list_find]).
    - [FileSys]: the file system [save_json] acts on ([fsys]:
      directories, files, directories that may not be created or
      written, and the space left on the device), [os.path.exists],
      [os.mkdir], [os.makedirs] as Python's [os.py] writes it (recursing
      on the head of [split], ignoring [FileExistsError] from the
      recursion, stopping at [os.curdir]) and [open(p, "w")] followed by
      the write of [json.dump] ([open_write]): the open truncates, and
      the write stores what fits and raises [ENOSPC] when the device is
      full.  Each raises the [OSError] subclass the operating system's
      error selects.  [makedirs_go_chain] shows [os.makedirs] creates
      the missing ancestors in turn up to the first that may not be
      created ([makedirs_outcome]).
    - [SaveJson]: lines 132-155: the JSON text ([dump], [report_json]),
      the console messages [msg] (a handler's line carries the exception
      it prints), the body of the [try] ([ensure_dir],
      [save_json_body]), its handler ([save_failed]) and [save_json];
      C16, C17, C21, C22, C29.
    - [JsonParse]: a reader for the JSON the scripts write (the consumer
      of the output file, written from the JSON grammar: no line of the
      scripts parses JSON), its fuel adequacy, the lemmas that reading
      [dump 0 j] gives [j] back, and the report's shape of spec section 4
      ([report_shape]).
    - [Main]: [script_config] with the two scripts' instances [wt_config]
      and [cz_config] ([DATABASE_NAME] included), the namespaces
      [client[DATABASE_NAME][...]] ([config_ns], [site_ns]), step 1
      ([connect]), [process] (the second [try]) and [main]; the CZ
      script's [main] ([cz_main]) and the entry point of lines 161-162
      ([run_module], [wt_script], [cz_script]); the end-to-end theorems
      C1, C12-C15, C18, C19, C23, C24, C27, C31-C33.
    - [Witnesses]: a [wt_config] database in [mem_db] and file systems
      (a full device among them) on which every property with
      hypotheses is applied.

    ** What the theorems show

    - Refinement: [main] hands [save_json] the report the abstract
      specification describes (C1); the lookup is [lookup_spec] (C9).
    - Functional behaviour: the site count (C3), the per-flag tallies as
      counts of sites whose resolved flags map the flag to
      [True]/[False] (C2), the warnings printed in order (C8), the
      lookup's size for distinct ids (C10) and, with repeated ids, as
      the number of distinct hash keys (C30), the file written by
      [save_json] (C16), the directories it creates and the line it
      prints for them (C22), the order of the features in the report as
      their first boolean occurrence (C28); running the script twice
      leaves the files of one run (C19).
    - Invariant: [true + false <= disabled_false_count] for every flag, on
      every prefix of the loop, exceptions included (C4); every loop
      body keeps [feature_counts] a dict whose keys are exactly the
      features some processed site carries as a boolean (C26); in every
      state the cursor-driven loop reaches, counted plus unfetched sites
      are the sites yielded (C34).
    - Liveness: every site yielded before the first unhashable
      reference is eventually counted (C35).
    - Safety of the composition: the WT script reads the store only
      through [controlPanel.platform_server_api] and [controlPanel.site],
      the CZ script through [controlPanel.server_env] and
      [controlPanel.site] (C33).
    - Round trip and type: the file [main] writes reads back as the
      report (C23) and has the report's fixed shape (C27).
    - Bounds: [1 <= total <= #configurations], [count <= #sites] and
      [true + false <= count] for the report [main] writes (C24).
    - Equivalence: for a hashable reference, the MongoDB query is exactly
      membership of the reference among the lookup's keys together with
      [disabled] being [False] or an array holding [False] (C25).
    - Errors: exactly when the lookup and the loop raise (C11, C5), that
      [save_json] never raises, reports only an [OSError], and leaves the
      file either as it was or holding a strict prefix of the dump
      (C17), that an empty configuration writes nothing (C14), and the
      lines printed when the site loop raises part way: the earlier
      sites' warnings, the handler's line, the close, and no file, for
      an unhashable reference (C31) and for a cursor failure after the
      yielded sites (C32).
    - Findings: an array-valued reference containing a key passes the
      query and crashes the run (C6), while a hashable matched reference
      is always in the lookup (C7); a failed ping leaves the client open
      (C12), although every later exit closes it (C13); a failed write
      is followed by "All results have been saved" (C15); a full device
      leaves a truncated, partial report in place of the previous one,
      which the spec's atomic write forbids (C18); a failed
      [os.makedirs] leaves the directories it created behind (C29); a
      disabled site is never matched (C20); under POSIX the scripts'
      Windows output path is written as one file name in the current
      directory (C21).

    ** Bounds, fuel and what is not modelled

    The program's recursion is structural (over cursors, dict entries
    and values): no fuel is needed, and every loop is total by
    construction.  Only the JSON reader of [JsonParse] takes fuel; each
    unit is spent on one nested value or member, which consumes at least
    one character, so [parse_json] gives it one more unit than the
    text's length, and [parse_value_fuel_ge] shows that any larger fuel
    gives the same result.  [os.makedirs] (library code the scripts
    call) recurses on a head strictly shorter than the name whenever it
    recurses ([makedirs_split_shorter]); [makedirs] gives its recursion
    one more unit than the name's length, and [makedirs_go_fuel] shows
    any larger bound gives the same run, so the bound is never reached;
    [missing_dirs] is bounded the same way.  Python integers are
    unbounded, so counters are [nat].  Characters are the code points
    0-255 a Rocq [ascii] holds; the device's free space ([fs_free],
    [None] for a device that never fills) is counted in characters,
    which is bytes for the ASCII text [json.dump] writes with its
    default [ensure_ascii].

    Not modelled: the connection string and [serverSelectionTimeoutMS]
    (lines 14 and 33: a credential and a driver setting; the [Store]
    instance stands for the server they select); the imports (lines
    1-6, names only); cursor batching ([batch_size(100)], line 78): the
    cursor is the sequence of documents the driver yields and the
    failure it raises after them, which covers a failure at any
    [getMore]; BSON floats and dates; path normalisation: the file
    system identifies a directory by its spelling, so [.] and [..]
    components and doubled separators are not resolved as an operating
    system would, and the claims on [os.makedirs] assume components
    other than [.]; write failures other than a full device (an I/O
    error would leave the file truncated at some point in the same
    way, but only [ENOSPC] is a case of [open_write]);
    the MongoDB server and the operating system themselves, which are
    not code of the repository.  The process's exit status is not
    modelled beyond [main] returning normally on every path. *)

From stdpp Require Export base list strings.
From Stdlib Require Export ZArith Lia.

(** ** Results of fallible code

    A Python statement either produces a value or raises; [result E A]
    is the value of a fallible computation, [Raise e] the exception it
    propagates to the nearest handler. *)

Inductive result (E A : Type) : Type :=
| Ok (a : A)
| Raise (e : E).
Arguments Ok {E A} a.
Arguments Raise {E A} e.

Definition result_bind {E A B} (r : result E A) (k : A -> result E B) : result E B :=
  match r with
  | Ok a => k a
  | Raise e => Raise e
  end.

Declare Scope pipe_scope.
Delimit Scope pipe_scope with pipe.
Notation "x <- r ;; k" := (result_bind r (fun x => k))
  (at level 60, r at next level, right associativity) : pipe_scope.
Open Scope pipe_scope.

Lemma result_bind_Ok {E A B} (r : result E A) (k : A -> result E B) b :
  result_bind r k = Ok b <-> exists a, r = Ok a /\ k a = Ok b.
Proof.
  destruct r as [a|e]; simpl; split.
  - intros Hk. by exists a.
  - by intros (a' & [= ->] & Hk).
  - discriminate.
  - by intros (a' & ? & _).
Qed.

Lemma result_bind_Raise {E A B} (r : result E A) (k : A -> result E B) e :
  result_bind r k = Raise e <-> r = Raise e \/ exists a, r = Ok a /\ k a = Raise e.
Proof.
  destruct r as [a|e']; simpl; split.
  - intros Hk. right. by exists a.
  - by intros [? | (a' & [= ->] & Hk)].
  - intros [= ->]. by left.
  - by intros [[= ->] | (a' & ? & _)].
Qed.

(** ** Counting over lists *)

Definition count_where {A} (p : A -> bool) (l : list A) : nat :=
  length (List.filter p l).

Lemma count_where_app {A} (p : A -> bool) l1 l2 :
  count_where p (l1 ++ l2) = count_where p l1 + count_where p l2.
Proof. unfold count_where. by rewrite List.filter_app, length_app. Qed.

Lemma count_where_cons {A} (p : A -> bool) x l :
  count_where p (x :: l) = (if p x then 1 else 0) + count_where p l.
Proof. unfold count_where. simpl. by destruct (p x). Qed.

Lemma count_where_le {A} (p : A -> bool) l : count_where p l <= length l.
Proof.
  induction l as [|x l IH]; [done|]. rewrite count_where_cons. simpl.
  destruct (p x); lia.
Qed.

Lemma count_where_pos {A} (p : A -> bool) l :
  0 < count_where p l <-> exists x, x ∈ l /\ p x = true.
Proof.
  induction l as [|x l IH].
  - split; [cbn; lia|]. intros (? & Hin & _). by apply elem_of_nil in Hin.
  - rewrite count_where_cons. setoid_rewrite elem_of_cons. destruct (p x) eqn:Hp.
    + split; [eauto|lia].
    + rewrite Nat.add_0_l, IH.
      split; [naive_solver|intros (y & [->|Hy] & Hpy); [congruence|eauto]].
Qed.

Lemma count_where_ext {A} (p q : A -> bool) l :
  (forall x, In x l -> p x = q x) -> count_where p l = count_where q l.
Proof.
  induction l as [|x l IH]; intros Hpq; [done|]. rewrite !count_where_cons.
  rewrite (Hpq x) by (left; done). rewrite IH; [done|]. intros y Hy. apply Hpq. by right.
Qed.

Lemma count_where_disjoint {A} (p q : A -> bool) l :
  (forall x, p x = true -> q x = false) ->
  count_where p l + count_where q l <= length l.
Proof.
  intros Hpq. induction l as [|x l IH]; [done|]. rewrite !count_where_cons. simpl.
  destruct (p x) eqn:Hp; [rewrite (Hpq x Hp)|destruct (q x)]; lia.
Qed.

Lemma Forall_filterb {A} (P : A -> Prop) (f : A -> bool) l :
  Forall P l -> Forall P (List.filter f l).
Proof.
  induction 1 as [|x l Hx Hl IH]; simpl; [constructor|].
  destruct (f x); [by constructor|done].
Qed.

(** ** Strings *)

(** stdpp makes [String.append] opaque to [simpl]; these equations
    replace it. *)
Lemma sapp_cons c (a b : string) : (String c a ++ b)%string = String c (a ++ b).
Proof. reflexivity. Qed.

Lemma sapp_nil_l (a : string) : (EmptyString ++ a)%string = a.
Proof. reflexivity. Qed.

Lemma sapp_assoc (a b c : string) : ((a ++ b) ++ c)%string = (a ++ (b ++ c))%string.
Proof. induction a as [|x a IH]; [done|]. by rewrite !sapp_cons, IH. Qed.

Lemma sapp_nil_r (a : string) : (a ++ EmptyString)%string = a.
Proof. induction a as [|x a IH]; [done|]. by rewrite sapp_cons, IH. Qed.


(** ** Automation shared by the component files *)

Create HintDb pipe discriminated.
Create Rewrite HintDb pipe_rw.
#[export] Hint Rewrite @count_where_app @count_where_cons : pipe_rw.
#[export] Hint Rewrite sapp_cons sapp_nil_l sapp_assoc sapp_nil_r : pipe_rw.

(** [by_decide] proves a decidable proposition about concrete data by
    evaluating its decision procedure. *)
Ltac by_decide := apply (bool_decide_unpack _); vm_compute; reflexivity.

(** [str_norm] right-nests string appends and pushes them under
    [String] cells. *)
Ltac str_norm := autorewrite with pipe_rw.
