(* ===== verification/PyValue.v ===== *)
(** * Python values as the scripts see them

    The documents pymongo hands to the scripts are Python dicts whose
    values are decoded BSON: [None], [bool], [int], [str], [ObjectId],
    lists and nested dicts.  This file holds that value type, the
    exceptions the scripts catch, the two [isinstance] tests the loop in
    [main] performs (src/PROD-WTFeaturesFlagsScript.py lines 93 and 99),
    and the hash-key abstraction under which Python dicts compare keys. *)

From S2P Require Import Prelude.
From stdpp Require Import countable.

(** ** Exceptions

    The classes named by the [except] clauses of [main] ([ConnectionFailure],
    [OperationFailure]) and the ones the code can raise otherwise
    ([TypeError] for an unhashable dict key, [OSError] for the file
    system, [OtherError] for any other [Exception]).  An [OSError]
    carries the subclass the operating system's error number selects,
    since [os.makedirs] catches [FileExistsError] alone. *)

Inductive os_error : Type :=
| FileExistsError       (** [EEXIST] *)
| FileNotFoundError     (** [ENOENT] *)
| PermissionError       (** [EACCES] *)
| IsADirectoryError     (** [EISDIR] *)
| NotADirectoryError    (** [ENOTDIR] *)
| NoSpaceLeft.          (** [ENOSPC], a plain [OSError] *)

Inductive exc : Type :=
| ConnectionFailure
| OperationFailure
| TypeError
| OSError (k : os_error)
| OtherError.

#[export] Instance os_error_eq_dec : EqDecision os_error.
Proof. solve_decision. Defined.

#[export] Instance exc_eq_dec : EqDecision exc.
Proof. solve_decision. Defined.

(** A Python statement that may raise. *)
Abbreviation py := (result exc).

(** ** Decoded BSON values *)

Inductive value : Type :=
| VNone
| VBool (b : bool)
| VInt (z : Z)
| VStr (s : string)
| VOid (o : N)
| VList (l : list value)
| VDict (d : list (string * value)).

(** A MongoDB document as a Python dict: field names to values, in the
    order the server returns them. *)
Definition document := list (string * value).

(** [isinstance(v, dict)] *)
Definition is_dict (v : value) : bool :=
  match v with VDict _ => true | _ => false end.

(** [isinstance(v, bool)], returning the boolean when it is one. *)
Definition as_bool (v : value) : option bool :=
  match v with VBool b => Some b | _ => None end.

(** ** Hash keys

    A Python dict finds a key by its hash and [==].  On the hashable
    values above, [==] identifies [True] with [1] and [False] with [0]
    and is otherwise structural; lists and dicts are unhashable and make
    [d.get(k)] or [d[k] = v] raise [TypeError].  [hash_key] sends a
    value to the class of values [==] identifies it with, or to [None]
    when it is unhashable. *)

Inductive hkey : Type :=
| HNone
| HInt (z : Z)
| HStr (s : string)
| HOid (o : N).

#[export] Instance hkey_eq_dec : EqDecision hkey.
Proof. solve_decision. Defined.

Definition hkey_encode (h : hkey) : (unit + Z) + (string + N) :=
  match h with
  | HNone => inl (inl ())
  | HInt z => inl (inr z)
  | HStr s => inr (inl s)
  | HOid o => inr (inr o)
  end.

Definition hkey_decode (x : (unit + Z) + (string + N)) : hkey :=
  match x with
  | inl (inl _) => HNone
  | inl (inr z) => HInt z
  | inr (inl s) => HStr s
  | inr (inr o) => HOid o
  end.

#[export] Program Instance hkey_countable : Countable hkey :=
  inj_countable' hkey_encode hkey_decode _.
Next Obligation. by intros []. Qed.

Definition hash_key (v : value) : option hkey :=
  match v with
  | VNone => Some HNone
  | VBool b => Some (HInt (Z.b2z b))
  | VInt z => Some (HInt z)
  | VStr s => Some (HStr s)
  | VOid o => Some (HOid o)
  | VList _ | VDict _ => None
  end.

(** The value a hash key stands for when no original key object is at
    hand (bool keys are shown as ints, as Python's [==] allows). *)
Definition value_of_hkey (h : hkey) : value :=
  match h with
  | HNone => VNone
  | HInt z => VInt z
  | HStr s => VStr s
  | HOid o => VOid o
  end.

Lemma hash_key_value_of_hkey h : hash_key (value_of_hkey h) = Some h.
Proof. by destruct h. Qed.

Lemma hash_key_None v : hash_key v = None <-> (exists l, v = VList l) \/ (exists d, v = VDict d).
Proof. destruct v; simpl; split; naive_solver. Qed.

(** ** Induction on nested values *)

Section value_ind_nested.
Variable P : value -> Prop.
Hypothesis HNone : P VNone.
Hypothesis HBool : forall b, P (VBool b).
Hypothesis HInt : forall z, P (VInt z).
Hypothesis HStr : forall s, P (VStr s).
Hypothesis HOid : forall o, P (VOid o).
Hypothesis HList : forall l, Forall P l -> P (VList l).
Hypothesis HDict : forall d, Forall (fun kv => P kv.2) d -> P (VDict d).

Fixpoint value_ind_nested (v : value) : P v :=
  match v with
  | VNone => HNone
  | VBool b => HBool b
  | VInt z => HInt z
  | VStr s => HStr s
  | VOid o => HOid o
  | VList l =>
      HList l ((fix go (l : list value) : Forall P l :=
                  match l with
                  | [] => Forall_nil_2 P
                  | x :: r => Forall_cons_2 P x r (value_ind_nested x) (go r)
                  end) l)
  | VDict d =>
      HDict d ((fix go (d : list (string * value)) : Forall (fun kv => P kv.2) d :=
                  match d with
                  | [] => Forall_nil_2 _
                  | kv :: r => Forall_cons_2 _ kv r (value_ind_nested kv.2) (go r)
                  end) d)
  end.
End value_ind_nested.
