(* ===== verification/PyDict.v ===== *)
(** * Python dicts

    The scripts use three dicts: the lookup [<coll>_id_to_flags]
    (src/PROD-WTFeaturesFlagsScript.py lines 57-61), the [defaultdict]
    [feature_counts] (lines 82, 98-103) and the documents themselves
    ([doc.get], [site.get]).  A Python dict is a list of entries in
    insertion order; a key is found by its hash key (an [hkey] or the
    string itself); assigning to a present key replaces the value in
    place and keeps the original key object and position, assigning to
    an absent key appends.  [len], [keys()] and [items()] follow that
    order, which is the order [json.dump] writes.

    The abstract specification is stdpp's [gmap]: [to_map] forgets the
    order, and [get], [setitem] and [len] refine [lookup], [insert] and
    [size]. *)

From S2P Require Import Prelude.
From stdpp Require Import gmap.

Section PyDict.
Context {K H V : Type} `{EqDecision H} (hk : K -> H).

(** [d.get(k)] on a key of hash key [h]. *)
Fixpoint get (d : list (K * V)) (h : H) : option V :=
  match d with
  | [] => None
  | (k, v) :: d' => if decide (hk k = h) then Some v else get d' h
  end.

(** [d.get(k, default)] *)
Definition get_default (d : list (K * V)) (h : H) (dflt : V) : V :=
  default dflt (get d h).

(** [d[k] = v] *)
Fixpoint setitem (d : list (K * V)) (k : K) (v : V) : list (K * V) :=
  match d with
  | [] => [(k, v)]
  | (k', v') :: d' =>
      if decide (hk k' = hk k) then (k', v) :: d' else (k', v') :: setitem d' k v
  end.

(** [len(d)] and [d.keys()] *)
Definition len (d : list (K * V)) : nat := length d.
Definition keys (d : list (K * V)) : list K := map fst d.

(** Every dict the program builds has pairwise distinct hash keys. *)
Definition wf (d : list (K * V)) : Prop := NoDup (map (hk ∘ fst) d).

Lemma get_cons_hit k v d h : hk k = h -> get ((k, v) :: d) h = Some v.
Proof. intros E. simpl. by rewrite decide_True. Qed.

Lemma get_cons_miss k v d h : hk k <> h -> get ((k, v) :: d) h = get d h.
Proof. intros E. simpl. by rewrite decide_False. Qed.

Lemma get_setitem_eq d k v : get (setitem d k v) (hk k) = Some v.
Proof.
  induction d as [|[k' v'] d IH]; simpl; [by rewrite decide_True|].
  case_decide as E; simpl; [by rewrite decide_True|].
  by rewrite decide_False.
Qed.

Lemma get_setitem_ne d k v h : hk k <> h -> get (setitem d k v) h = get d h.
Proof.
  intros Hne. induction d as [|[k' v'] d IH]; simpl.
  - by rewrite decide_False.
  - case_decide as E; simpl.
    + rewrite E. by rewrite !decide_False.
    + case_decide; done.
Qed.

Lemma keys_setitem_present d k v :
  is_Some (get d (hk k)) -> keys (setitem d k v) = keys d.
Proof.
  induction d as [|[k' v'] d IH]; simpl; [by intros []|].
  case_decide; simpl; [done|]. intros Hs. by rewrite IH.
Qed.

Lemma keys_setitem_absent d k v :
  get d (hk k) = None -> keys (setitem d k v) = keys d ++ [k].
Proof.
  induction d as [|[k' v'] d IH]; simpl; [done|].
  case_decide; simpl; [done|]. intros Hn. by rewrite IH.
Qed.

Lemma get_Some_in d h v : get d h = Some v -> h ∈ map (hk ∘ fst) d.
Proof.
  induction d as [|[k' v'] d IH]; simpl; [done|].
  case_decide; [intros _; subst; left|intros Hg; right; by apply IH].
Qed.

Lemma get_None_notin d h : get d h = None <-> h ∉ map (hk ∘ fst) d.
Proof.
  induction d as [|[k' v'] d IH]; simpl; [split; [intros _; inversion 1|done]|].
  rewrite elem_of_cons. case_decide; [naive_solver|]. rewrite IH. naive_solver.
Qed.

Lemma map_hk_setitem_absent d k v :
  get d (hk k) = None -> map (hk ∘ fst) (setitem d k v) = map (hk ∘ fst) d ++ [hk k].
Proof.
  induction d as [|[k' v'] d IH]; simpl; [done|].
  case_decide; simpl; [done|]. intros Hn. by rewrite IH.
Qed.

Lemma map_hk_setitem_present d k v :
  is_Some (get d (hk k)) -> map (hk ∘ fst) (setitem d k v) = map (hk ∘ fst) d.
Proof.
  induction d as [|[k' v'] d IH]; simpl; [by intros []|].
  case_decide; simpl; [done|]. intros Hs. by rewrite IH.
Qed.

Lemma get_Forall (P : V -> Prop) d h v :
  Forall (P ∘ snd) d -> get d h = Some v -> P v.
Proof.
  induction d as [|[k' v'] d IH]; simpl; [done|].
  intros [Hp Hd]%Forall_cons. case_decide; [by intros [= <-]|auto].
Qed.

Lemma elem_keys_get d h : h ∈ map (hk ∘ fst) d <-> is_Some (get d h).
Proof.
  destruct (get d h) eqn:Hg; [split; [eauto|intros _; by eapply get_Some_in]|].
  apply get_None_notin in Hg. split; [done|]. by intros [? ?].
Qed.

Lemma get_elem d k v : (k, v) ∈ d -> is_Some (get d (hk k)).
Proof.
  induction d as [|[k' v'] d IH]; simpl; [by intros ?%elem_of_nil|].
  intros [[= -> ->]|Hin]%elem_of_cons; case_decide; eauto; done.
Qed.

Lemma setitem_Forall (P : K -> Prop) d k v :
  Forall (P ∘ fst) d -> P k -> Forall (P ∘ fst) (setitem d k v).
Proof.
  induction d as [|[k' v'] d IH]; simpl; intros Hd Hk; [by constructor|].
  apply Forall_cons in Hd as [Hk' Hd]. case_decide; constructor; auto.
Qed.

Lemma setitem_Forall_snd (P : V -> Prop) d k v :
  Forall (P ∘ snd) d -> P v -> Forall (P ∘ snd) (setitem d k v).
Proof.
  induction d as [|[k' v'] d IH]; simpl; intros Hd Hv; [by constructor|].
  apply Forall_cons in Hd as [Hv' Hd]. case_decide; constructor; auto.
Qed.

Lemma len_setitem_pos d k v : len (setitem d k v) <> 0.
Proof. destruct d as [|[k' v'] d]; simpl; [done|]. by case_decide. Qed.

Lemma wf_setitem d k v : wf d -> wf (setitem d k v).
Proof.
  unfold wf. intros Hwf. destruct (get d (hk k)) eqn:Hg.
  - by rewrite map_hk_setitem_present by eauto.
  - rewrite map_hk_setitem_absent by done. apply NoDup_app. split; [done|].
    split; [|apply NoDup_singleton]. intros x Hx ->%list_elem_of_singleton.
    by apply get_None_notin in Hg.
Qed.

Lemma len_setitem d k v :
  len (setitem d k v) = match get d (hk k) with Some _ => len d | None => S (len d) end.
Proof.
  unfold len. rewrite <- (length_map fst (setitem d k v)), <- (length_map fst d).
  change (map fst ?l) with (keys l).
  destruct (get d (hk k)) eqn:Hg.
  - by rewrite keys_setitem_present by eauto.
  - rewrite keys_setitem_absent by done. rewrite length_app. simpl. lia.
Qed.

Lemma len_setitem_ge d k v : len d <= len (setitem d k v).
Proof. rewrite len_setitem. destruct (get d (hk k)); lia. Qed.

Lemma len_setitem_le d k v : len (setitem d k v) <= S (len d).
Proof. rewrite len_setitem. destruct (get d (hk k)); lia. Qed.

(** ** Refinement of stdpp's finite maps *)

Context `{!Countable H}.

(** The map a dict stands for; the first entry of a hash key wins,
    as in [get]. *)
Fixpoint to_map (d : list (K * V)) : gmap H V :=
  match d with
  | [] => ∅
  | (k, v) :: d' => <[hk k := v]> (to_map d')
  end.

Lemma get_to_map d h : get d h = to_map d !! h.
Proof.
  induction d as [|[k v] d IH]; simpl; [done|].
  case_decide as E; [subst; by rewrite lookup_insert_eq|].
  by rewrite lookup_insert_ne.
Qed.

Lemma to_map_setitem d k v : to_map (setitem d k v) = <[hk k := v]> (to_map d).
Proof.
  apply map_eq. intros h. rewrite <- !get_to_map.
  destruct (decide (hk k = h)) as [<-|Hne].
  - by rewrite get_setitem_eq, lookup_insert_eq.
  - rewrite get_setitem_ne, lookup_insert_ne by done. apply get_to_map.
Qed.

Lemma len_to_map d : wf d -> len d = size (to_map d).
Proof.
  unfold wf, len. induction d as [|[k v] d IH]; simpl; [by rewrite map_size_empty|].
  intros [Hn Hnd]%NoDup_cons. rewrite map_size_insert_None; [by rewrite IH|].
  rewrite <- get_to_map. by apply get_None_notin.
Qed.

(** On a well-formed dict, [d[k] = v] keeps the keys distinct, and
    commutes with [to_map]: the map of the new dict is the old map with
    [k] bound to [v], and [len] is its size. *)
Lemma setitem_refines (d : list (K * V)) (k : K) (v : V) :
  wf d ->
  wf (setitem d k v) /\
  to_map (setitem d k v) = <[hk k := v]> (to_map d) /\
  len (setitem d k v) = size (<[hk k := v]> (to_map d)).
Proof.
  intros Hwf. pose proof (wf_setitem d k v Hwf) as Hwf'.
  split; [done|]. rewrite <- to_map_setitem. split; [done|]. by apply len_to_map.
Qed.

(** [d[k] = v] keeps the insertion order: a present key stays where it
    is, an absent key goes last. *)
Lemma setitem_keys_order (d : list (K * V)) (k : K) (v : V) :
  keys (setitem d k v) = match get d (hk k) with Some _ => keys d | None => keys d ++ [k] end.
Proof.
  destruct (get d (hk k)) eqn:Hg; [apply keys_setitem_present; by eexists|].
  by apply keys_setitem_absent.
Qed.
(** Assigning the same value twice is assigning it once. *)
Lemma setitem_setitem_same (d : list (K * V)) (k : K) (v : V) :
  setitem (setitem d k v) k v = setitem d k v.
Proof.
  induction d as [|[k' v'] d IH]; simpl; [by rewrite decide_True|].
  case_decide; simpl; [by rewrite decide_True|]. rewrite decide_False by done. by rewrite IH.
Qed.
End PyDict.

Arguments get {K H V _} hk d h.
Arguments get_default {K H V _} hk d h dflt.
Arguments setitem {K H V _} hk d k v.
Arguments wf {K H V} hk d.
Arguments to_map {K H V _} hk {_} d.

(** String-keyed dicts (document fields, feature names) compare keys
    by the string itself. *)
Definition sget {V} (d : list (string * V)) (k : string) : option V := get id d k.

(** A string-keyed dict reads back what was just assigned, and other
    keys are unaffected: hints of [pipe] for the file-system proofs. *)
Lemma sget_setitem_eq {V} (d : list (string * V)) k v : sget (setitem id d k v) k = Some v.
Proof. apply (get_setitem_eq id). Qed.

Lemma sget_setitem_ne {V} (d : list (string * V)) k v q : q <> k -> sget (setitem id d k v) q = sget d q.
Proof. intros Hq. by apply (get_setitem_ne id). Qed.

#[export] Hint Resolve sget_setitem_eq sget_setitem_ne last_snoc : pipe.
