(* ===== verification/Store.v ===== *)
(** * The document store (pymongo / MongoDB)

    The scripts reach MongoDB through [MongoClient], [client.admin.command
    ('ping')] and [client[database][collection].find(filter, projection)]
    (src/PROD-WTFeaturesFlagsScript.py lines 33-39, 54, 72-78): a find
    addresses a namespace, a database and a collection.  The
    server is not code of the repository: this file states what the
    scripts rely on as an interface, the type class [Store] with its
    contract [StoreSpec], and gives one implementation, the in-memory
    database [mem_db], on which concrete runs are evaluated.

    The matching rules are MongoDB's documented ones for the two
    operators the scripts use: an equality [{f: x}] matches when the
    field equals [x], when the field is an array one of whose elements
    equals [x], or when the field is missing and [x] is [null]; [{f:
    {$in: xs}}] matches when [{f: x}] matches for some [x] in [xs].
    BSON equality is structural and does not identify [true] with [1]. *)

From S2P Require Import Prelude PyValue PyDict.

(** ** BSON equality *)

Fixpoint bson_eqb (v w : value) {struct v} : bool :=
  match v, w with
  | VNone, VNone => true
  | VBool a, VBool b => Bool.eqb a b
  | VInt a, VInt b => Z.eqb a b
  | VStr a, VStr b => String.eqb a b
  | VOid a, VOid b => N.eqb a b
  | VList l1, VList l2 =>
      (fix go (l1 l2 : list value) : bool :=
         match l1, l2 with
         | [], [] => true
         | x :: r1, y :: r2 => bson_eqb x y && go r1 r2
         | _, _ => false
         end) l1 l2
  | VDict d1, VDict d2 =>
      (fix go (d1 d2 : list (string * value)) : bool :=
         match d1, d2 with
         | [], [] => true
         | (k1, x) :: r1, (k2, y) :: r2 => String.eqb k1 k2 && bson_eqb x y && go r1 r2
         | _, _ => false
         end) d1 d2
  | _, _ => false
  end.

(** BSON equality is structural equality. *)
Lemma bson_eqb_eq v w : bson_eqb v w = true <-> v = w.
Proof.
  revert w. induction v as [|b|z|str|o|l IH|d IH] using value_ind_nested;
    intros [|b'|z'|str'|o'|l'|d']; simpl; try (split; [discriminate|intros [=]]).
  - done.
  - rewrite Bool.eqb_true_iff. split; [by intros ->|by intros [= ->]].
  - rewrite Z.eqb_eq. split; [by intros ->|by intros [= ->]].
  - rewrite String.eqb_eq. split; [by intros ->|by intros [= ->]].
  - rewrite N.eqb_eq. split; [by intros ->|by intros [= ->]].
  - revert l'. induction IH as [|x l Hx Hl IHl]; intros [|y l'];
      try (split; [discriminate|intros [=]]); [done|].
    rewrite andb_true_iff, Hx, IHl. split; [by intros [-> [= ->]]|by intros [= -> ->]].
  - revert d'. induction IH as [|[k x] d Hx Hd IHd]; intros [|[k' y] d'];
      try (split; [discriminate|intros [=]]); [done|].
    simpl in Hx. rewrite !andb_true_iff, String.eqb_eq, Hx, IHd.
    split; [by intros [[-> ->] [= ->]]|by intros [= -> -> ->]].
Qed.

#[export] Instance value_eq_dec : EqDecision value.
Proof.
  intros v w. destruct (bson_eqb v w) eqn:E.
  - left. by apply bson_eqb_eq.
  - right. intros Hvw. apply bson_eqb_eq in Hvw. congruence.
Defined.

(** Some element of [l] equals [x] in BSON. *)
Lemma existsb_bson_eqb l x : existsb (fun c => bson_eqb c x) l = true <-> x ∈ l.
Proof.
  rewrite existsb_exists. setoid_rewrite bson_eqb_eq. rewrite list_elem_of_In. naive_solver.
Qed.

(** ** Query filters and projections *)

Inductive cond : Type :=
| CEq (f : string) (x : value)          (** [{f: x}] *)
| CIn (f : string) (xs : list value).   (** [{f: {"$in": xs}}] *)

(** A filter document is the conjunction of its conditions; [{}] is [[]]. *)
Definition filter := list cond.

(** The values of a field an equality is tested against. *)
Definition field_candidates (fv : option value) : list value :=
  match fv with
  | None => [VNone]
  | Some (VList l) => VList l :: l
  | Some v => [v]
  end.

Definition eq_matches (doc : document) (f : string) (x : value) : bool :=
  existsb (fun c => bson_eqb c x) (field_candidates (sget doc f)).

Definition cond_matches (doc : document) (c : cond) : bool :=
  match c with
  | CEq f x => eq_matches doc f x
  | CIn f xs => existsb (eq_matches doc f) xs
  end.

Definition matches (flt : filter) (doc : document) : bool :=
  forallb (cond_matches doc) flt.

(** MongoDB's equality on a field holds when the value is one of the
    field's candidates: the missing field stands for [null], an array
    for itself and each of its elements. *)
Lemma eq_matches_iff doc f x : eq_matches doc f x = true <-> x ∈ field_candidates (sget doc f).
Proof. apply existsb_bson_eqb. Qed.

(** An inclusion projection keeps [_id] and the listed top-level
    fields, in the stored order. *)
Definition project (fields : list string) (doc : document) : document :=
  List.filter (fun kv => bool_decide (kv.1 = "_id"%string \/ kv.1 ∈ fields)) doc.

(** ** Cursors

    A cursor yields documents in order and may raise part way (a network
    or server error while fetching a batch): [yielded] are the documents
    delivered before [failure] is raised, if it is. *)

Record cursor : Type := mk_cursor {
  yielded : list document;
  failure : option exc
}.

(** ** The client interface *)

(** A collection is addressed by its namespace: the database
    [client[name]] and the collection [db[name]] of lines 34-36. *)
Abbreviation namespace := (string * string)%type.

Class Store (S : Type) : Type := {
  (** [MongoClient(connection_string, ...)]: [Some e] when it raises. *)
  st_connect : S -> option exc;
  (** [client.admin.command('ping')]: [Some e] when it raises. *)
  st_ping : S -> option exc;
  (** [client[database][coll].find(filter, projection)] *)
  st_find : S -> namespace -> filter -> list string -> cursor
}.

(** What a find promises: the matching documents of the collection,
    projected, in collection order; all of them when it does not raise,
    a prefix of them when it does. *)
Class StoreSpec (S : Type) `{Store S} : Type := {
  st_contents : S -> namespace -> list document;
  st_find_prefix s c flt p :
    exists rest, map (project p) (List.filter (matches flt) (st_contents s c))
                 = yielded (st_find s c flt p) ++ rest;
  st_find_complete s c flt p :
    failure (st_find s c flt p) = None ->
    yielded (st_find s c flt p) = map (project p) (List.filter (matches flt) (st_contents s c))
}.

(** ** An in-memory database *)

Record mem_db : Type := mk_mem_db {
  db_collections : list (namespace * list document);
  db_connect : option exc;
  db_ping : option exc;
  (** collections whose cursor raises [e] after [n] documents *)
  db_faults : list (namespace * (nat * exc))
}.

Definition mem_contents (db : mem_db) (c : namespace) : list document :=
  default [] (get id (db_collections db) c).

Definition mem_find (db : mem_db) (c : namespace) (flt : filter) (p : list string) : cursor :=
  let all := map (project p) (List.filter (matches flt) (mem_contents db c)) in
  match get id (db_faults db) c with
  | Some (n, e) => if decide (n < length all) then mk_cursor (take n all) (Some e)
                   else mk_cursor all None
  | None => mk_cursor all None
  end.

#[export] Instance mem_store : Store mem_db := {
  st_connect := db_connect;
  st_ping := db_ping;
  st_find := mem_find
}.

#[export] Program Instance mem_store_spec : StoreSpec mem_db := {
  st_contents := mem_contents
}.
Next Obligation.
  intros db c flt p. simpl. unfold mem_find.
  destruct (get id _ c) as [[n e]|]; [case_decide|]; simpl.
  - eexists. symmetry. apply take_drop.
  - exists []. by rewrite app_nil_r.
  - exists []. by rewrite app_nil_r.
Qed.
Next Obligation.
  intros db c flt p. simpl. unfold mem_find.
  destruct (get id _ c) as [[n e]|]; [case_decide|]; simpl; done.
Qed.
