(* ===== verification/Lookup.v ===== *)
(** * The lookup builder

    Step 2 of [main] (src/PROD-WTFeaturesFlagsScript.py lines 54-68,
    the same lines of src/PROD-CZFeaturesFlagsScript.py with [server_env]
    and [FEATURES_FLAGS]): fetch every configuration document with the
    projection [{"_id": 1, <flags>: 1}] and build the dict
    [id_to_flags[doc.get('_id')] = doc.get(<flags>, {})].

    The dict is a [PyDict] whose entries keep the [_id] object together
    with its hash key.  Its abstract specification [lookup_spec] is the
    [gmap] obtained by inserting the documents in cursor order, the last
    document of an id winning. *)

From S2P Require Import Prelude PyValue PyDict Store.
From stdpp Require Import gmap.

(** A key as CPython stores it: the hash key and the original object. *)
Abbreviation lkey := (hkey * value)%type.
Abbreviation lookup_dict := (list (lkey * value)).

Section Lookup.
(** The field holding the flags: ["WT_FEATURES_FLAGS"] or ["FEATURES_FLAGS"]. *)
Variable flags_field : string.

(** The projection [{"_id": 1, <flags>: 1}] of line 54. *)
Definition config_projection : list string := [flags_field].

(** [doc.get('_id')] and [doc.get(<flags>, {})], lines 59-60. *)
Definition config_id (doc : document) : value := default VNone (sget doc "_id").
Definition config_flags (doc : document) : value := default (VDict []) (sget doc flags_field).

(** The body of the loop, lines 59-61: hashing an unhashable [_id]
    (an embedded document) raises [TypeError]. *)
Definition add_config (d : lookup_dict) (doc : document) : py lookup_dict :=
  match hash_key (config_id doc) with
  | Some h => Ok (setitem fst d (h, config_id doc) (config_flags doc))
  | None => Raise TypeError
  end.

(** The loop of lines 58-61 over the yielded documents. *)
Fixpoint add_configs (d : lookup_dict) (docs : list document) : py lookup_dict :=
  match docs with
  | [] => Ok d
  | doc :: docs' => d' <- add_config d doc ;; add_configs d' docs'
  end.

(** The whole loop: the cursor raises its failure once its yielded
    documents are consumed. *)
Definition build_lookup (cur : cursor) : py lookup_dict :=
  d <- add_configs [] (yielded cur) ;;
  match failure cur with
  | Some e => Raise e
  | None => Ok d
  end.

(** ** Abstract specification *)

Definition spec_step (m : gmap hkey value) (doc : document) : gmap hkey value :=
  match hash_key (config_id doc) with
  | Some h => <[h := config_flags doc]> m
  | None => m
  end.

Definition lookup_spec (docs : list document) : gmap hkey value :=
  foldl spec_step ∅ docs.

Definition id_hashable (doc : document) : Prop := is_Some (hash_key (config_id doc)).

(** ** Lemmas *)

Lemma add_configs_ok d0 docs :
  Forall id_hashable docs ->
  exists d, add_configs d0 docs = Ok d /\
            to_map fst d = foldl spec_step (to_map fst d0) docs /\
            (wf fst d0 -> wf fst d).
Proof.
  revert d0. induction docs as [|doc docs IH]; intros d0 Hh; simpl.
  - by exists d0.
  - apply Forall_cons in Hh as [[h Hd] Hh].
    unfold add_config, spec_step at 2. rewrite Hd. simpl.
    destruct (IH (setitem fst d0 (h, config_id doc) (config_flags doc)) Hh)
      as (d & Hok & Hmap & Hwf).
    exists d. split; [done|]. split.
    + rewrite Hmap. f_equal. apply to_map_setitem.
    + intros Hw0. apply Hwf. by apply wf_setitem.
Qed.

Lemma add_configs_raise d0 docs :
  Exists (fun doc => hash_key (config_id doc) = None) docs ->
  add_configs d0 docs = Raise TypeError.
Proof.
  revert d0. induction docs as [|doc docs IH]; intros d0 Hx; [by inversion Hx|].
  simpl. unfold add_config. destruct (hash_key (config_id doc)) eqn:Hd; simpl.
  - apply IH. apply Exists_cons in Hx as [Hx|Hx]; [congruence|done].
  - done.
Qed.

Definition id_key (doc : document) : option hkey := hash_key (config_id doc).

Lemma add_configs_keys d0 docs hs :
  Forall2 (fun doc h => id_key doc = Some h) docs hs ->
  NoDup (map (fst ∘ fst) d0 ++ hs) ->
  exists d, add_configs d0 docs = Ok d /\ map (fst ∘ fst) d = map (fst ∘ fst) d0 ++ hs.
Proof.
  intros Hf. revert d0. induction Hf as [|doc h docs hs Hh Hf IH]; intros d0 Hnd; simpl.
  - exists d0. by rewrite app_nil_r.
  - unfold add_config. unfold id_key in Hh. rewrite Hh. simpl.
    assert (Hget : get fst d0 h = None).
    { apply get_None_notin. intros Hin. apply NoDup_app in Hnd as (_ & Hdis & _).
      apply (Hdis h Hin). by left. }
    destruct (IH (setitem fst d0 (h, config_id doc) (config_flags doc))) as (d & Hok & Hk).
    + rewrite (map_hk_setitem_absent fst d0 (h, config_id doc)) by done.
      by rewrite <- app_assoc.
    + exists d. split; [done|]. rewrite Hk.
      rewrite (map_hk_setitem_absent fst d0 (h, config_id doc)) by done.
      by rewrite <- app_assoc.
Qed.

#[global] Instance id_hashable_decision doc : Decision (id_hashable doc).
Proof. unfold id_hashable. apply _. Defined.

Definition id_hashable_dec (doc : document) : {id_hashable doc} + {id_key doc = None}.
Proof.
  unfold id_hashable, id_key. destruct (hash_key (config_id doc)); [left; eauto|by right].
Defined.

(** ** Properties *)

(** C9 ([build_lookup_refines]): when every configuration [_id] is
    hashable and the cursor does not fail, [build_lookup] returns a
    well-formed dict whose map is [lookup_spec]: each id is bound to
    the flags of the last document carrying it. *)
Theorem build_lookup_refines (cur : cursor) :
  Forall id_hashable (yielded cur) -> failure cur = None ->
  exists d, build_lookup cur = Ok d /\ wf fst d /\ to_map fst d = lookup_spec (yielded cur).
Proof.
  intros Hh Hf. destruct (add_configs_ok [] _ Hh) as (d & Hok & Hmap & Hwf).
  exists d. unfold build_lookup. rewrite Hok, Hf. simpl.
  split; [done|]. split; [apply Hwf; constructor|done].
Qed.

(** C11 ([build_lookup_error]): the lookup builder raises exactly when
    a yielded document has an unhashable [_id] ([TypeError], raised at
    that document) or, all ids being hashable, when the cursor fails. *)
Theorem build_lookup_error (cur : cursor) (e : exc) :
  build_lookup cur = Raise e <->
    (Exists (fun doc => id_key doc = None) (yielded cur) /\ e = TypeError) \/
    (Forall id_hashable (yielded cur) /\ failure cur = Some e).
Proof.
  unfold build_lookup, id_key.
  destruct (Forall_Exists_dec id_hashable (fun doc => hash_key (config_id doc) = None)
              id_hashable_dec (yielded cur)) as [Hh|Hx].
  - destruct (add_configs_ok [] _ Hh) as (d & -> & _). simpl.
    split.
    + intros He. right. split; [done|]. by destruct (failure cur) as [e'|]; simplify_eq.
    + intros [[Hx _]|[_ ->]]; [|done]. exfalso.
      apply Exists_exists in Hx as (doc & Hin & Hn).
      rewrite Forall_forall in Hh. destruct (Hh doc Hin). congruence.
  - rewrite add_configs_raise by done. simpl. split.
    + intros [= <-]. by left.
    + intros [[_ ->]|[Hh _]]; [done|]. exfalso.
      apply Exists_exists in Hx as (doc & Hin & Hn).
      rewrite Forall_forall in Hh. destruct (Hh doc Hin). congruence.
Qed.

(** C10 ([build_lookup_len]): for configuration documents with pairwise
    distinct ids (spec, section 8), [len(id_to_flags)], the value of
    [total_identical_ids], is the number of documents, and the keys
    are the ids in cursor order. *)
Theorem build_lookup_len (cur : cursor) (hs : list hkey) :
  failure cur = None ->
  Forall2 (fun doc h => id_key doc = Some h) (yielded cur) hs -> NoDup hs ->
  exists d, build_lookup cur = Ok d /\ len d = length (yielded cur) /\ map (fst ∘ fst) d = hs.
Proof.
  intros Hf Hhs Hnd. destruct (add_configs_keys [] _ hs Hhs Hnd) as (d & Hok & Hk).
  exists d. unfold build_lookup. rewrite Hok, Hf. split; [done|]. split; [|done].
  unfold len. rewrite <- (length_map (fst ∘ fst) d), Hk. simpl. symmetry. by eapply Forall2_length.
Qed.

(** The ids of the abstract lookup are the hashable ids, each once. *)
Lemma dom_foldl_spec_step m docs :
  dom (foldl spec_step m docs) = dom m ∪ list_to_set (omap id_key docs).
Proof.
  revert m. induction docs as [|doc docs IH]; intros m; simpl; [set_solver|].
  rewrite IH. unfold spec_step, id_key.
  destruct (hash_key (config_id doc)); simpl; [rewrite dom_insert_L|]; set_solver.
Qed.

(** C30 ([build_lookup_len_distinct]): with hashable ids and a complete
    cursor, [len(id_to_flags)], the report's [total_identical_ids], is
    the number of distinct ids as Python hashes them: a repeated id is
    counted once, and [True] and [1] are one id. *)
Theorem build_lookup_len_distinct (cur : cursor) :
  Forall id_hashable (yielded cur) -> failure cur = None ->
  exists d, build_lookup cur = Ok d /\
    len d = size (list_to_set (omap id_key (yielded cur)) : gset hkey).
Proof.
  intros Hh Hf. destruct (add_configs_ok [] _ Hh) as (d & Hok & Hmap & Hwf).
  exists d. unfold build_lookup. rewrite Hok, Hf. split; [done|].
  rewrite (len_to_map fst) by (apply Hwf; constructor).
  rewrite Hmap, <- size_dom, dom_foldl_spec_step. simpl. rewrite dom_empty_L. f_equal. set_solver.
Qed.

(** Every entry of the lookup stores the hash key of its key object. *)
Definition keys_hashed (d : lookup_dict) : Prop :=
  Forall (fun e : lkey * value => hash_key e.1.2 = Some e.1.1) d.

#[global] Instance keys_hashed_dec d : Decision (keys_hashed d).
Proof. unfold keys_hashed. apply _. Defined.

Lemma add_configs_keys_hashed d0 docs d :
  keys_hashed d0 -> add_configs d0 docs = Ok d -> keys_hashed d.
Proof.
  revert d0. induction docs as [|doc docs IH]; intros d0 H0 Hok; simpl in Hok; [by simplify_eq|].
  unfold add_config in Hok. destruct (hash_key (config_id doc)) eqn:Hh; simpl in Hok; [|done].
  eapply IH; [|exact Hok].
  apply (setitem_Forall fst (fun k : lkey => hash_key k.2 = Some k.1)); done.
Qed.

Lemma build_lookup_keys_hashed cur d : build_lookup cur = Ok d -> keys_hashed d.
Proof.
  unfold build_lookup. destruct (add_configs [] (yielded cur)) as [d'|] eqn:Hok; simpl; [|done].
  destruct (failure cur); [done|]. intros [= <-].
  eapply add_configs_keys_hashed; [constructor|exact Hok].
Qed.
End Lookup.
