(* ===== verification/Aggregate.v ===== *)
(** * The join-and-aggregate loop

    Step 3 of [main] (src/PROD-WTFeaturesFlagsScript.py lines 72-106):
    query the [site] collection for the documents whose reference field
    is one of the lookup's keys and whose [disabled] field is [False],
    then for each site increment [disabled_false_count], resolve its
    flags through the lookup and count every boolean flag in the
    [defaultdict] [feature_counts]; a non-dict flag set and a
    non-boolean flag value are skipped with a warning.

    [process_site] is the body of the [for site in matching_sites_cursor]
    loop, [count_flags] its inner loop, [process_sites] and [aggregate]
    the loop itself.  The printed warnings are kept, in order, in the
    state, because [main] prints them to the console as it goes; an
    exception ends the loop with the state reached and the exception.
    The last part relates MongoDB's matching to Python's lookup. *)

From S2P Require Import Prelude PyValue PyDict Store Lookup.

(** ** The query of lines 72-78 *)

Section Query.
(** ["platform_server_api_id"] or ["server_env_id"] *)
Variable ref_field : string.

(** [{ref: {"$in": list(id_to_flags.keys())}, "disabled": False}] *)
Definition site_filter (lk : lookup_dict) : filter :=
  [CIn ref_field (map (fun e : lkey * value => e.1.2) lk); CEq "disabled" (VBool false)].

(** [{ref: 1, "FEATURES_FLAGS": 1}] *)
Definition site_projection : list string := [ref_field; "FEATURES_FLAGS"%string].
End Query.

(** ** State of the loop *)

(** The value [{"true": n, "false": m}] of [feature_counts]. *)
Record counts : Type := mk_counts {
  n_true : nat;
  n_false : nat
}.

(** The [defaultdict] factory [lambda: {"true": 0, "false": 0}]. *)
Definition zero_counts : counts := mk_counts 0 0.

Abbreviation tally := (list (string * counts)).

(** The two warnings of lines 94 and 106. *)
Inductive warning : Type :=
| WarnNotDict (id : value)
| WarnNotBool (feature : string) (id : value).

Record agg_state : Type := mk_agg {
  disabled_false_count : nat;
  feature_counts : tally;
  warnings : list warning
}.

Definition agg_init : agg_state := mk_agg 0 [] [].

Definition incr (c : counts) (b : bool) : counts :=
  if b then mk_counts (S (n_true c)) (n_false c) else mk_counts (n_true c) (S (n_false c)).

(** [feature_counts[feature]["true" if b else "false"] += 1]: the
    [defaultdict] inserts a fresh zero record at the end when the
    feature is new, and the increment mutates the record in place. *)
Definition bump (fc : tally) (feature : string) (b : bool) : tally :=
  setitem id fc feature (incr (get_default id fc feature zero_counts) b).

Definition add_warning (st : agg_state) (w : warning) : agg_state :=
  mk_agg (disabled_false_count st) (feature_counts st) (warnings st ++ [w]).

(** Lines 98-106: [for feature, value in features_flags.items()]. *)
Fixpoint count_flags (sid : value) (items : list (string * value)) (st : agg_state) : agg_state :=
  match items with
  | [] => st
  | (feature, v) :: items' =>
      let st' :=
        match as_bool v with
        | Some b => mk_agg (disabled_false_count st) (bump (feature_counts st) feature b) (warnings st)
        | None => add_warning st (WarnNotBool feature sid)
        end in
      count_flags sid items' st'
  end.

Section Loop.
Variable ref_field : string.
Variable lk : lookup_dict.

(** [site.get(ref)] *)
Definition site_ref (site : document) : value := default VNone (sget site ref_field).

(** Lines 86-106, one iteration.  [id_to_flags.get(sid, {})] raises
    [TypeError] when [sid] is unhashable. *)
Definition process_site (st : agg_state) (site : document) : agg_state * option exc :=
  let st1 := mk_agg (S (disabled_false_count st)) (feature_counts st) (warnings st) in
  let sid := site_ref site in
  match hash_key sid with
  | None => (st1, Some TypeError)
  | Some h =>
      match get_default fst lk h (VDict []) with
      | VDict items => (count_flags sid items st1, None)
      | _ => (add_warning st1 (WarnNotDict sid), None)
      end
  end.

(** Line 85, [for site in matching_sites_cursor], over the yielded documents. *)
Fixpoint process_sites (st : agg_state) (sites : list document) : agg_state * option exc :=
  match sites with
  | [] => (st, None)
  | site :: sites' =>
      match process_site st site with
      | (st', None) => process_sites st' sites'
      | (st', Some e) => (st', Some e)
      end
  end.

(** The whole loop: once the yielded documents are consumed, the
    cursor raises its failure, if it has one. *)
Definition aggregate (cur : cursor) : agg_state * option exc :=
  match process_sites agg_init (yielded cur) with
  | (st, None) => (st, failure cur)
  | (st, Some e) => (st, Some e)
  end.
End Loop.

(** ** Counting algebra *)

(** The entry of a feature after [t] more true and [f] more false
    values: a [defaultdict] entry appears on the first boolean value. *)
Definition add_counts (o : option counts) (t f : nat) : option counts :=
  match o with
  | Some c => Some (mk_counts (n_true c + t) (n_false c + f))
  | None => if decide (t + f = 0) then None else Some (mk_counts t f)
  end.

Lemma add_counts_0 o : add_counts o 0 0 = o.
Proof. destruct o as [[t f]|]; simpl; [do 2 f_equal; lia|done]. Qed.

Lemma add_counts_add o a b c d :
  add_counts (add_counts o a b) c d = add_counts o (a + c) (b + d).
Proof.
  destruct o as [[t f]|]; simpl; [do 2 f_equal; lia|].
  destruct (decide (a + b = 0)) as [Hab|Hab].
  - assert (a = 0) as -> by lia. by assert (b = 0) as -> by lia.
  - simpl. by rewrite decide_False by lia.
Qed.

Definition tcount (ob : option bool) : nat := match ob with Some true => 1 | _ => 0 end.
Definition fcount (ob : option bool) : nat := match ob with Some false => 1 | _ => 0 end.

#[export] Hint Rewrite add_counts_0 add_counts_add : pipe_rw.

Lemma get_bump_eq fc feature b :
  get id (bump fc feature b) feature
  = add_counts (get id fc feature) (tcount (Some b)) (fcount (Some b)).
Proof.
  unfold bump, get_default. rewrite (get_setitem_eq id).
  destruct (get id fc feature) as [[t f]|], b; simpl; do 2 f_equal; lia.
Qed.

Lemma get_bump_ne fc feature feature' b :
  feature <> feature' -> get id (bump fc feature b) feature' = get id fc feature'.
Proof. intros Hne. by apply get_setitem_ne. Qed.

(** ** The inner loop *)

Definition item_warnings (sid : value) (items : list (string * value)) : list warning :=
  map (fun kv => WarnNotBool kv.1 sid)
      (List.filter (fun kv => match as_bool kv.2 with Some _ => false | None => true end) items).

(** The boolean value of a feature in a flags dict, if it has one. *)
Definition flag_of (items : list (string * value)) (feature : string) : option bool :=
  sget items feature ≫= as_bool.

(** The features of a flags dict whose value is a boolean, in the
    dict's order: those [count_flags] counts. *)
Definition bool_features (items : list (string * value)) : list string :=
  map fst (List.filter (fun kv => match as_bool kv.2 with Some _ => true | None => false end) items).

(** The keys after [feature_counts[f]] is touched: a new key goes last. *)
Definition add_key (ks : list string) (f : string) : list string :=
  if decide (f ∈ ks) then ks else ks ++ [f].

Lemma keys_bump fc feature b : map fst (bump fc feature b) = add_key (map fst fc) feature.
Proof.
  unfold bump, add_key. change (map fst ?d) with (keys d). case_decide as Hin.
  - apply keys_setitem_present. by apply (elem_keys_get id).
  - apply keys_setitem_absent. apply (get_None_notin id). exact Hin.
Qed.

Lemma count_flags_keys sid items st :
  map fst (feature_counts (count_flags sid items st))
  = fold_left add_key (bool_features items) (map fst (feature_counts st)).
Proof.
  revert st. induction items as [|[f v] items IH]; intros st; simpl; [done|].
  unfold bool_features in *. simpl. rewrite IH.
  destruct (as_bool v); simpl; [by rewrite keys_bump|done].
Qed.

Lemma count_flags_count sid items st :
  disabled_false_count (count_flags sid items st) = disabled_false_count st.
Proof.
  revert st. induction items as [|[f v] items IH]; intros st; simpl; [done|].
  rewrite IH. by destruct (as_bool v).
Qed.

Lemma count_flags_warnings sid items st :
  warnings (count_flags sid items st) = warnings st ++ item_warnings sid items.
Proof.
  revert st. induction items as [|[f v] items IH]; intros st; simpl; [by rewrite app_nil_r|].
  rewrite IH. unfold item_warnings. simpl. destruct (as_bool v); simpl; [done|].
  by rewrite <- app_assoc.
Qed.

Lemma count_flags_notin sid items st feature :
  feature ∉ map fst items ->
  get id (feature_counts (count_flags sid items st)) feature = get id (feature_counts st) feature.
Proof.
  revert st. induction items as [|[f v] items IH]; intros st Hn; simpl; [done|].
  apply not_elem_of_cons in Hn as [Hne Hn]. rewrite IH by done.
  destruct (as_bool v); simpl; [by apply get_bump_ne|done].
Qed.

Lemma count_flags_get sid items st feature :
  NoDup (map fst items) ->
  get id (feature_counts (count_flags sid items st)) feature
  = add_counts (get id (feature_counts st) feature)
               (tcount (flag_of items feature)) (fcount (flag_of items feature)).
Proof.
  revert st. induction items as [|[f v] items IH]; intros st Hnd; cbn [count_flags].
  - by rewrite add_counts_0.
  - apply NoDup_cons in Hnd as [Hn Hnd]. unfold flag_of, sget.
    destruct (decide (f = feature)) as [<-|Hne].
    + rewrite (get_cons_hit id) by done. rewrite count_flags_notin by done. simpl.
      destruct (as_bool v); simpl; [apply get_bump_eq|by rewrite add_counts_0].
    + rewrite (get_cons_miss id) by done. rewrite IH by done. simpl.
      destruct (as_bool v); simpl; [by rewrite get_bump_ne|done].
Qed.

(** ** Per-site behaviour *)

Section Props.
Variable ref_field : string.
Variable lk : lookup_dict.

(** Every flags dict of the lookup is a Python dict: its feature names
    are pairwise distinct (a non-dict value has nothing to check). *)
Definition flags_wf (v : value) : Prop :=
  match v with VDict items => NoDup (map fst items) | _ => True end.
Definition lookup_wf : Prop := Forall (flags_wf ∘ snd) lk.

Definition ref_hashable (site : document) : Prop :=
  is_Some (hash_key (site_ref ref_field site)).

#[global] Instance flags_wf_dec v : Decision (flags_wf v).
Proof. destruct v; simpl; apply _. Defined.
#[global] Instance lookup_wf_dec : Decision lookup_wf.
Proof. apply Forall_dec. intros e. apply flags_wf_dec. Defined.
#[global] Instance ref_hashable_dec site : Decision (ref_hashable site).
Proof. unfold ref_hashable. apply _. Defined.

(** [id_to_flags.get(sid, {})] *)
Definition resolved (h : hkey) : value := get_default fst lk h (VDict []).

(** The flags dict a site's features are counted from, if it is one. *)
Definition site_flags (site : document) : option (list (string * value)) :=
  match hash_key (site_ref ref_field site) with
  | Some h => match resolved h with VDict items => Some items | _ => None end
  | None => None
  end.

Definition site_flag (site : document) (feature : string) : option bool :=
  site_flags site ≫= fun items => flag_of items feature.

(** The warnings a site prints, in order. *)
Definition site_warnings (site : document) : list warning :=
  match hash_key (site_ref ref_field site) with
  | Some h =>
      match resolved h with
      | VDict items => item_warnings (site_ref ref_field site) items
      | _ => [WarnNotDict (site_ref ref_field site)]
      end
  | None => []
  end.

Lemma resolved_wf h : lookup_wf -> flags_wf (resolved h).
Proof.
  intros Hwf. unfold resolved, get_default.
  destruct (get fst lk h) as [v|] eqn:Hg; simpl; [|constructor].
  by apply (get_Forall fst flags_wf lk h v).
Qed.

Lemma process_site_ok st site :
  ref_hashable site ->
  exists st', process_site ref_field lk st site = (st', None) /\
    disabled_false_count st' = S (disabled_false_count st) /\
    warnings st' = warnings st ++ site_warnings site /\
    (lookup_wf -> forall feature, get id (feature_counts st') feature
      = add_counts (get id (feature_counts st) feature)
                   (tcount (site_flag site feature)) (fcount (site_flag site feature))).
Proof.
  intros [h Hh]. unfold process_site, site_warnings, site_flag, site_flags.
  rewrite Hh. pose proof (resolved_wf h) as Hr. unfold resolved in *.
  destruct (get_default fst lk h (VDict [])) as [| | | | | |items] eqn:Hv;
    eexists; (split; [done|]); simpl;
    rewrite ?count_flags_count, ?count_flags_warnings;
    (split; [done|]); (split; [done|]); intros Hwf feature;
    rewrite ?count_flags_get by (by apply Hr); by rewrite ?add_counts_0.
Qed.

Lemma process_site_raise st site :
  hash_key (site_ref ref_field site) = None ->
  snd (process_site ref_field lk st site) = Some TypeError.
Proof. intros Hn. unfold process_site. by rewrite Hn. Qed.

Lemma process_site_result st site e :
  snd (process_site ref_field lk st site) = Some e ->
  e = TypeError /\ hash_key (site_ref ref_field site) = None.
Proof.
  unfold process_site. destruct (hash_key _); [|by intros [= <-]].
  by destruct (get_default _ _ _ _).
Qed.
(** The features a site's flags carry as booleans. *)
Definition site_bool_features (site : document) : list string :=
  match site_flags site with Some items => bool_features items | None => [] end.

Lemma process_site_keys st site :
  ref_hashable site ->
  map fst (feature_counts (process_site ref_field lk st site).1)
  = fold_left add_key (site_bool_features site) (map fst (feature_counts st)).
Proof.
  intros [h Hh]. unfold process_site, site_bool_features, site_flags, resolved.
  rewrite Hh. destruct (get_default fst lk h (VDict [])); simpl; try done.
  by rewrite count_flags_keys.
Qed.

(** A site whose reference is unhashable adds no key: the loop raises
    before touching [feature_counts], and the site has no flags. *)
Lemma process_site_keys_any st site :
  map fst (feature_counts (process_site ref_field lk st site).1)
  = fold_left add_key (site_bool_features site) (map fst (feature_counts st)).
Proof.
  destruct (hash_key (site_ref ref_field site)) as [h|] eqn:Hh; [by apply process_site_keys; exists h|].
  unfold process_site, site_bool_features, site_flags. by rewrite Hh.
Qed.

Lemma elem_of_fold_add_key fs ks x : x ∈ fold_left add_key fs ks <-> x ∈ ks \/ x ∈ fs.
Proof.
  revert ks. induction fs as [|f fs IH]; intros ks; simpl; [rewrite elem_of_nil; tauto|].
  rewrite IH, elem_of_cons. unfold add_key.
  case_decide; [|rewrite elem_of_app, list_elem_of_singleton]; naive_solver.
Qed.

End Props.

(** ** The loop *)

Section LoopProps.
Variable ref_field : string.
Variable lk : lookup_dict.

(** The abstract tally: how many sites carry the feature with value
    [True], resp. [False], in the flags their lookup entry gives. *)
Definition count_true (feature : string) (sites : list document) : nat :=
  count_where (fun s => bool_decide (site_flag ref_field lk s feature = Some true)) sites.
Definition count_false (feature : string) (sites : list document) : nat :=
  count_where (fun s => bool_decide (site_flag ref_field lk s feature = Some false)) sites.

Lemma tcount_decide ob : tcount ob = if bool_decide (ob = Some true) then 1 else 0.
Proof. by destruct ob as [[]|]. Qed.
Lemma fcount_decide ob : fcount ob = if bool_decide (ob = Some false) then 1 else 0.
Proof. by destruct ob as [[]|]. Qed.

(** A site carries a feature as [True] or as [False], not both. *)
Lemma count_true_false_le feature sites :
  count_true feature sites + count_false feature sites <= length sites.
Proof.
  apply count_where_disjoint. intros site Ht%bool_decide_eq_true.
  apply bool_decide_eq_false. by rewrite Ht.
Qed.

(** Some site carries a feature as a boolean exactly when it is
    counted once. *)
Lemma count_true_false_pos feature sites :
  count_true feature sites + count_false feature sites <> 0 <->
  exists site, site ∈ sites /\ is_Some (site_flag ref_field lk site feature).
Proof.
  unfold count_true, count_false. split.
  - intros Hne.
    destruct (decide (0 < count_where (fun s => bool_decide (site_flag ref_field lk s feature = Some true)) sites))
      as [(site & Hin & Hb%bool_decide_eq_true)%count_where_pos|Hp]; [eauto|].
    assert (Hf : 0 < count_where (fun s => bool_decide (site_flag ref_field lk s feature = Some false)) sites)
      by lia.
    apply count_where_pos in Hf as (site & Hin & Hb%bool_decide_eq_true). eauto.
  - intros (site & Hin & [[] Hb]);
      match goal with
      | |- ?t + ?f <> 0 =>
          assert (0 < t \/ 0 < f); [|lia]
      end;
      [left|right]; apply count_where_pos; exists site; split; [done| |done|];
      by apply bool_decide_eq_true_2.
Qed.

Lemma process_sites_ok st sites :
  Forall (ref_hashable ref_field) sites ->
  exists st', process_sites ref_field lk st sites = (st', None) /\
    disabled_false_count st' = disabled_false_count st + length sites /\
    warnings st' = warnings st ++ flat_map (site_warnings ref_field lk) sites /\
    (lookup_wf lk -> forall feature, get id (feature_counts st') feature
      = add_counts (get id (feature_counts st) feature)
                   (count_true feature sites) (count_false feature sites)).
Proof.
  revert st. induction sites as [|site sites IH]; intros st Hh; simpl.
  - exists st. rewrite Nat.add_0_r, app_nil_r. repeat split; [].
    intros _ feature. by autorewrite with pipe_rw.
  - apply Forall_cons in Hh as [Hs Hh].
    destruct (process_site_ok ref_field lk st site Hs) as (st1 & -> & Hc1 & Hw1 & Hg1).
    destruct (IH st1 Hh) as (st2 & Hp & Hc2 & Hw2 & Hg2).
    exists st2. split; [done|]. split; [lia|]. split; [by rewrite Hw2, Hw1, app_assoc|].
    intros Hwf feature. rewrite Hg2, Hg1 by done.
    unfold count_true, count_false. autorewrite with pipe_rw.
    by rewrite tcount_decide, fcount_decide.
Qed.

Lemma process_sites_none st sites st' :
  process_sites ref_field lk st sites = (st', None) -> Forall (ref_hashable ref_field) sites.
Proof.
  revert st. induction sites as [|site sites IH]; intros st Hp; [constructor|].
  simpl in Hp. destruct (hash_key (site_ref ref_field site)) eqn:Hh.
  - destruct (process_site_ok ref_field lk st site) as (st1 & Hs & _); [by eexists|].
    rewrite Hs in Hp. constructor; [by eexists|eauto].
  - pose proof (process_site_raise ref_field lk st site Hh) as Hr.
    destruct (process_site ref_field lk st site) as [st1 [e|]]; simpl in Hr; congruence.
Qed.

Lemma process_sites_raise st sites e :
  snd (process_sites ref_field lk st sites) = Some e <->
    e = TypeError /\ Exists (fun s => hash_key (site_ref ref_field s) = None) sites.
Proof.
  revert st. induction sites as [|site sites IH]; intros st; simpl.
  - split; [done|]. intros [_ Hx]. inversion Hx.
  - destruct (hash_key (site_ref ref_field site)) eqn:Hh.
    + destruct (process_site_ok ref_field lk st site) as (st1 & -> & _); [by eexists|].
      rewrite IH, Exists_cons. split; [naive_solver|]. intros [-> [Hx|Hx]]; [congruence|done].
    + pose proof (process_site_raise ref_field lk st site Hh) as Hr.
      destruct (process_site ref_field lk st site) as [st1 [e'|]]; simpl in Hr; [|done].
      simpl. rewrite Hr. split; [intros [= <-]; split; [done|by left]|by intros [-> _]].
Qed.
Lemma process_sites_keys st sites :
  Forall (ref_hashable ref_field) sites ->
  map fst (feature_counts (process_sites ref_field lk st sites).1)
  = fold_left add_key (flat_map (site_bool_features ref_field lk) sites) (map fst (feature_counts st)).
Proof.
  revert st. induction sites as [|site sites IH]; intros st Hh; simpl; [done|].
  apply Forall_cons in Hh as [Hs Hh]. pose proof (process_site_keys ref_field lk st site Hs) as Hk.
  destruct (process_site_ok ref_field lk st site Hs) as (st1 & Hp & _).
  rewrite Hp in Hk |- *. rewrite fold_left_app, <- Hk. by apply IH.
Qed.

End LoopProps.

(** ** Properties of the aggregation *)

Lemma tcount_fcount_le ob : tcount ob + fcount ob <= 1.
Proof. destruct ob as [[]|]; simpl; lia. Qed.

Lemma add_counts_bound o t f c n :
  (forall c0, o = Some c0 -> n_true c0 + n_false c0 <= n) -> t + f <= 1 ->
  add_counts o t f = Some c -> n_true c + n_false c <= S n.
Proof.
  destruct o as [c0|]; simpl.
  - intros Ho Htf [= <-]. simpl. specialize (Ho c0 eq_refl). lia.
  - case_decide; [done|]. intros _ Htf [= <-]. simpl. lia.
Qed.

Lemma add_counts_None_is_Some t f : is_Some (add_counts None t f) <-> t + f <> 0.
Proof. simpl. case_decide; [split; [by intros [? ?]|lia]|split; eauto]. Qed.

Lemma add_counts_None_sum t f c :
  add_counts None t f = Some c -> n_true c + n_false c = t + f.
Proof. simpl. case_decide; [done|]. by intros [= <-]. Qed.

(** [feature_counts] stays a dict: its keys are distinct. *)
Lemma bump_wf fc feature b : wf id fc -> wf id (bump fc feature b).
Proof. apply wf_setitem. Qed.

Lemma count_flags_wf sid items st :
  wf id (feature_counts st) -> wf id (feature_counts (count_flags sid items st)).
Proof.
  revert st. induction items as [|[feature v] items IH]; intros st Hst; simpl; [done|].
  apply IH. destruct (as_bool v); simpl; [by apply bump_wf|done].
Qed.

Section AggregateTheorems.
Variable ref_field : string.
Variable lk : lookup_dict.

Lemma process_site_wf st site :
  wf id (feature_counts st) -> wf id (feature_counts (process_site ref_field lk st site).1).
Proof.
  intros Hst. unfold process_site. destruct (hash_key _); [|done].
  destruct (get_default _ _ _ _); simpl; try done. by apply count_flags_wf.
Qed.

Lemma process_sites_wf st sites :
  wf id (feature_counts st) -> wf id (feature_counts (process_sites ref_field lk st sites).1).
Proof.
  revert st. induction sites as [|site sites IH]; intros st Hst; simpl; [done|].
  pose proof (process_site_wf st site Hst).
  destruct (process_site ref_field lk st site) as [st1 [e|]]; simpl in *; [done|]. by apply IH.
Qed.

Lemma aggregate_process cur :
  fst (aggregate ref_field lk cur) = fst (process_sites ref_field lk agg_init (yielded cur)).
Proof. unfold aggregate. by destruct (process_sites _ _ _ _) as [st [e|]]. Qed.

Lemma aggregate_ok cur :
  Forall (ref_hashable ref_field) (yielded cur) -> failure cur = None ->
  exists st, aggregate ref_field lk cur = (st, None) /\
    disabled_false_count st = length (yielded cur) /\
    warnings st = flat_map (site_warnings ref_field lk) (yielded cur) /\
    (lookup_wf lk -> forall feature, get id (feature_counts st) feature
       = add_counts None (count_true ref_field lk feature (yielded cur))
                         (count_false ref_field lk feature (yielded cur))).
Proof.
  intros Hh Hf. destruct (process_sites_ok ref_field lk agg_init _ Hh) as (st & Hp & Hc & Hw & Hg).
  exists st. unfold aggregate. rewrite Hp, Hf. done.
Qed.

Lemma aggregate_wf cur : wf id (feature_counts (aggregate ref_field lk cur).1).
Proof. rewrite aggregate_process. apply process_sites_wf, NoDup_nil_2. Qed.

Lemma process_sites_app st l1 l2 :
  process_sites ref_field lk st (l1 ++ l2) =
  match process_sites ref_field lk st l1 with
  | (st', None) => process_sites ref_field lk st' l2
  | r => r
  end.
Proof.
  revert st. induction l1 as [|site l1 IH]; intros st; simpl; [done|].
  destruct (process_site ref_field lk st site) as [st1 [e|]]; [done|]. apply IH.
Qed.

(** A site with an unhashable reference after hashable ones stops the
    loop with [TypeError], once the earlier sites' warnings are out. *)
Lemma aggregate_type_error_at cur pre bad post :
  yielded cur = pre ++ bad :: post ->
  Forall (ref_hashable ref_field) pre -> hash_key (site_ref ref_field bad) = None ->
  exists st, aggregate ref_field lk cur = (st, Some TypeError) /\
    warnings st = flat_map (site_warnings ref_field lk) pre.
Proof.
  intros Hy Hpre Hbad. unfold aggregate. rewrite Hy, process_sites_app.
  destruct (process_sites_ok ref_field lk agg_init pre Hpre) as (st1 & -> & _ & Hw & _).
  simpl. unfold process_site at 1. rewrite Hbad. by eexists.
Qed.

(** The state of [feature_counts] once the sites [seen] went through
    the loop body: a dict (distinct keys) whose keys are exactly the
    features some site of [seen] carries as a boolean in the flags its
    lookup entry gives. *)
Definition keys_inv (seen : list document) (st : agg_state) : Prop :=
  NoDup (map fst (feature_counts st)) /\
  forall feature, feature ∈ map fst (feature_counts st) <->
    exists site, site ∈ seen /\ feature ∈ site_bool_features ref_field lk site.

(** C26 ([aggregate_feature_keys]): an inductive invariant of the site
    loop: it holds of the initial state, and every execution of the loop
    body keeps it, the one that raises [TypeError] on an unhashable
    reference included: [feature_counts] stays a dict whose keys are
    exactly the features some processed site carries as a boolean. *)
Theorem aggregate_feature_keys :
  keys_inv [] agg_init /\
  (forall seen st site, keys_inv seen st ->
     keys_inv (seen ++ [site]) (process_site ref_field lk st site).1).
Proof.
  split.
  - split; [apply NoDup_nil_2|]. simpl. intros feature. rewrite elem_of_nil.
    split; [done|]. intros (? & ?%elem_of_nil & _). done.
  - intros seen st site [Hnd Hk]. split; [by apply process_site_wf|].
    intros feature. rewrite process_site_keys_any, elem_of_fold_add_key, Hk.
    setoid_rewrite elem_of_app. setoid_rewrite list_elem_of_singleton. naive_solver.
Qed.

(** C28 ([aggregate_feature_order]): a completed loop leaves the
    features in [feature_counts], hence in the report's
    [feature_flags_counts], in the order of their first boolean
    occurrence: sites in cursor order and, within a site, its flags in
    dict order. *)
Theorem aggregate_feature_order (cur : cursor) :
  Forall (ref_hashable ref_field) (yielded cur) -> failure cur = None ->
  exists st, aggregate ref_field lk cur = (st, None) /\
    map fst (feature_counts st)
    = fold_left add_key (flat_map (site_bool_features ref_field lk) (yielded cur)) [].
Proof.
  intros Hh Hf. destruct (aggregate_ok cur Hh Hf) as (st & Hagg & _).
  exists st. split; [done|].
  pose proof (process_sites_keys ref_field lk agg_init _ Hh) as Hk.
  rewrite <- aggregate_process, Hagg in Hk. exact Hk.
Qed.

(** C3 ([aggregate_count]): when every matching site has a hashable
    reference and the cursor does not fail, the loop completes and
    [disabled_false_count] is the number of sites the query yielded. *)
Theorem aggregate_count (cur : cursor) :
  Forall (ref_hashable ref_field) (yielded cur) -> failure cur = None ->
  exists st, aggregate ref_field lk cur = (st, None) /\
             disabled_false_count st = length (yielded cur).
Proof.
  intros Hh Hf. destruct (aggregate_ok cur Hh Hf) as (st & ? & ? & _). by exists st.
Qed.

(** C2 ([aggregate_tally]): when the lookup's flag sets are Python
    dicts, every reference is hashable and the cursor does not fail,
    [feature_counts[F]] is absent when no site has a boolean [F], and
    otherwise is [{"true": t, "false": f}] with [t] ([f]) the number
    of sites whose resolved flags map [F] to [True] ([False]). *)
Theorem aggregate_tally (cur : cursor) :
  lookup_wf lk -> Forall (ref_hashable ref_field) (yielded cur) -> failure cur = None ->
  exists st, aggregate ref_field lk cur = (st, None) /\
    forall feature,
      get id (feature_counts st) feature
      = add_counts None (count_true ref_field lk feature (yielded cur))
                        (count_false ref_field lk feature (yielded cur)).
Proof.
  intros Hwf Hh Hf. destruct (aggregate_ok cur Hh Hf) as (st & ? & _ & _ & Hg).
  exists st. split; [done|]. by apply Hg.
Qed.

(** C8 ([aggregate_warnings]): a completed loop prints exactly one
    warning per skipped unit, in cursor order: one per site whose
    resolved flags are not a dict, and one per non-boolean flag value
    of the others. *)
Theorem aggregate_warnings (cur : cursor) :
  Forall (ref_hashable ref_field) (yielded cur) -> failure cur = None ->
  exists st, aggregate ref_field lk cur = (st, None) /\
             warnings st = flat_map (site_warnings ref_field lk) (yielded cur).
Proof.
  intros Hh Hf. destruct (aggregate_ok cur Hh Hf) as (st & ? & _ & ? & _). by exists st.
Qed.

(** C5 ([aggregate_error]): the loop raises exactly when a yielded
    site has an unhashable reference ([TypeError] from
    [id_to_flags.get]) or, all being hashable, when the cursor fails. *)
Theorem aggregate_error (cur : cursor) (e : exc) :
  snd (aggregate ref_field lk cur) = Some e <->
    (e = TypeError /\ Exists (fun s => hash_key (site_ref ref_field s) = None) (yielded cur)) \/
    (Forall (ref_hashable ref_field) (yielded cur) /\ failure cur = Some e).
Proof.
  unfold aggregate. pose proof (process_sites_raise ref_field lk agg_init (yielded cur) e) as Hr.
  destruct (process_sites ref_field lk agg_init (yielded cur)) as [st [e'|]] eqn:Hp; simpl in *.
  - rewrite Hr. split; [by left|]. intros [H|[Hh _]]; [done|].
    exfalso. destruct (proj1 (process_sites_raise ref_field lk agg_init (yielded cur) e'))
      as [_ Hx]; [by rewrite Hp|].
    apply Exists_exists in Hx as (s & Hin & Hn). rewrite Forall_forall in Hh.
    destruct (Hh s Hin). congruence.
  - pose proof (process_sites_none ref_field lk _ _ _ Hp) as Hh.
    split; [intros Hf; by right|]. intros [[-> Hx]|[_ Hf]]; [|done].
    exfalso. apply Exists_exists in Hx as (s & Hin & Hn). rewrite Forall_forall in Hh.
    destruct (Hh s Hin). congruence.
Qed.

(** Every feature entry counts at most one value per counted site. *)
Definition tally_bounded (st : agg_state) : Prop :=
  forall feature c, get id (feature_counts st) feature = Some c ->
    n_true c + n_false c <= disabled_false_count st.

Lemma process_site_bounded st site :
  lookup_wf lk -> tally_bounded st -> tally_bounded (fst (process_site ref_field lk st site)).
Proof.
  intros Hwf Hb. destruct (hash_key (site_ref ref_field site)) eqn:Hh.
  - destruct (process_site_ok ref_field lk st site) as (st' & -> & Hc & _ & Hg); [by eexists|].
    intros feature c Hget. simpl. rewrite Hc. rewrite Hg in Hget by done.
    eapply add_counts_bound; [|apply tcount_fcount_le|exact Hget]. intros c0. apply Hb.
  - unfold process_site. rewrite Hh. intros feature c Hget. simpl in *.
    specialize (Hb feature c Hget). lia.
Qed.

(** C4 ([process_sites_bounded]): for every feature, [true + false]
    never exceeds [disabled_false_count] (spec, section 8): the loop
    preserves the bound, whether it completes or raises part way. *)
Theorem process_sites_bounded (st : agg_state) (sites : list document) :
  lookup_wf lk -> tally_bounded st ->
  tally_bounded (fst (process_sites ref_field lk st sites)).
Proof.
  intros Hwf. revert st. induction sites as [|site sites IH]; intros st Hb; [done|].
  simpl. pose proof (process_site_bounded st site Hwf Hb) as Hb1.
  destruct (process_site ref_field lk st site) as [st1 [e|]]; simpl in *; [done|].
  by apply IH.
Qed.
End AggregateTheorems.

(** ** The join between the site query and the lookup

    MongoDB decides which sites [site_filter] returns, Python decides
    what [id_to_flags.get(site.get(ref), {})] finds for them. *)

Section Join.
Variable ref_field : string.
Variable lk : lookup_dict.

(** For a hashable field value, the equality test of MongoDB compares
    that value alone. *)
Lemma eq_matches_hashable site x h :
  hash_key (site_ref ref_field site) = Some h ->
  eq_matches site ref_field x = bson_eqb (site_ref ref_field site) x.
Proof.
  unfold eq_matches, site_ref. destruct (sget site ref_field) as [[]|]; simpl;
    try discriminate; intros _; by rewrite orb_false_r.
Qed.

(** For a hashable reference, the [$in] condition is membership of the
    reference among the lookup's key values. *)
Lemma in_cond_hashable site h xs :
  hash_key (site_ref ref_field site) = Some h ->
  existsb (eq_matches site ref_field) xs = true <-> site_ref ref_field site ∈ xs.
Proof.
  intros Hh. rewrite existsb_exists, list_elem_of_In.
  setoid_rewrite (eq_matches_hashable site _ h Hh). setoid_rewrite bson_eqb_eq. naive_solver.
Qed.

Lemma false_candidate o :
  VBool false ∈ field_candidates o <->
  o = Some (VBool false) \/ exists l, o = Some (VList l) /\ VBool false ∈ l.
Proof.
  destruct o as [[]|]; simpl; rewrite ?elem_of_cons, ?list_elem_of_singleton, ?elem_of_nil;
    naive_solver.
Qed.

Lemma site_filter_ref site :
  matches (site_filter ref_field lk) site = true ->
  existsb (eq_matches site ref_field) (map (fun e : lkey * value => e.1.2) lk) = true.
Proof. unfold matches, site_filter. simpl. by intros [? _]%andb_prop. Qed.

(** C7 ([matched_ref_in_lookup]): every site the query returns and
    whose reference is hashable has its reference among the lookup's
    keys, so [id_to_flags.get(ref, {})] never falls back on [{}]. *)
Theorem matched_ref_in_lookup (site : document) (h : hkey) :
  keys_hashed lk ->
  matches (site_filter ref_field lk) site = true ->
  hash_key (site_ref ref_field site) = Some h ->
  is_Some (get fst lk h).
Proof.
  intros Hk Hm Hh. apply site_filter_ref, existsb_exists in Hm as (x & Hx & Hmx).
  apply in_map_iff in Hx as ([[h' x'] v] & <- & Hin%list_elem_of_In). simpl in *.
  rewrite (eq_matches_hashable _ _ h) in Hmx by done.
  unfold keys_hashed in Hk. rewrite Forall_forall in Hk.
  pose proof (Hk _ Hin) as Hx'. simpl in Hx'.
  apply bson_eqb_eq in Hmx. rewrite Hmx, Hx' in Hh. injection Hh as <-.
  exact (get_elem fst lk (h', x') v Hin).
Qed.

(** C6 ([array_ref_raises]): a site whose reference field is an array
    containing (anywhere) a key of the lookup, and whose [disabled] is
    [False], is returned by the query ([$in] matches an array holding
    one of the values), and processing it raises [TypeError]:
    [site.get(ref)] is a list, which is unhashable. *)
Theorem array_ref_raises (site : document) (x : value) (l : list value) (st : agg_state) :
  x ∈ map (fun e : lkey * value => e.1.2) lk -> x ∈ l ->
  sget site ref_field = Some (VList l) ->
  sget site "disabled" = Some (VBool false) ->
  matches (site_filter ref_field lk) site = true /\
  snd (process_site ref_field lk st site) = Some TypeError.
Proof.
  intros Hx Hxl Href Hdis. split.
  - unfold matches, site_filter. simpl. apply andb_true_intro. split.
    + apply existsb_exists. exists x. split; [by apply list_elem_of_In|].
      apply eq_matches_iff. rewrite Href. simpl. by right.
    + unfold eq_matches. rewrite Hdis. done.
  - apply process_site_raise. unfold site_ref. by rewrite Href.
Qed.

(** C25 ([site_filter_iff]): for a site whose reference is hashable,
    the site query returns it exactly when the reference equals (as a
    BSON value) one of the lookup's keys and its [disabled] field is
    [False] or an array holding [False] (spec, section 8: the count is
    that of the sites with [disabled == false] and a reference among the
    lookup's keys). *)
Theorem site_filter_iff (site : document) (h : hkey) :
  hash_key (site_ref ref_field site) = Some h ->
  matches (site_filter ref_field lk) site = true <->
  site_ref ref_field site ∈ map (fun e : lkey * value => e.1.2) lk /\
  (sget site "disabled" = Some (VBool false) \/
   exists l, sget site "disabled" = Some (VList l) /\ VBool false ∈ l).
Proof.
  intros Hh. unfold matches, site_filter. cbn [forallb cond_matches].
  rewrite andb_true_r, andb_true_iff, (in_cond_hashable site h _ Hh), eq_matches_iff.
  by rewrite false_candidate.
Qed.

End Join.

(** C20 ([disabled_site_not_matched]): a site whose [disabled] field is
    [True] is never returned by the query of lines 72-78, whatever the
    lookup (spec, scenario B). *)
Theorem disabled_site_not_matched (ref_field : string) (lk : lookup_dict) (site : document) :
  sget site "disabled" = Some (VBool true) ->
  matches (site_filter ref_field lk) site = false.
Proof.
  intros Hdis. unfold matches, site_filter. simpl.
  unfold eq_matches. rewrite Hdis. simpl. by rewrite andb_false_r.
Qed.
