(* ===== verification/SiteLoop.v ===== *)
(** * The site loop as a cursor-driven machine

    [for site in matching_sites_cursor:] (line 85 of both scripts)
    calls [next()] on the pymongo cursor until it stops: each call
    returns the next document, raises the cursor's error, or ends the
    loop.  [Aggregate.process_sites] and [Aggregate.aggregate] read the
    loop as a recursion over the yielded documents.  This file states it
    the way the interpreter runs it: a state of the loop ([loop_state])
    and one transition per call of [next()] ([loop_step]), with an
    executable step function ([loop_step_fn]) that decides it.

    Its theorems: any reachable state keeps the count of the sites
    fetched and the tally bound ([loop_reachable_inv], by rule
    induction), and every fetched site before the first unhashable
    reference is eventually counted ([loop_site_eventually_counted]). *)

From S2P Require Import Prelude PyValue PyDict Store Lookup Aggregate.
From stdpp Require Import relations.

(** ** [next()] on a cursor *)

Inductive next_result : Type :=
| NextDoc (site : document) (rest : cursor)
| NextRaise (e : exc)
| NextStop.

(** The next yielded document; once they are consumed, the cursor's
    failure if it has one, else [StopIteration]. *)
Definition cursor_next (cur : cursor) : next_result :=
  match yielded cur with
  | site :: rest => NextDoc site (mk_cursor rest (failure cur))
  | [] => match failure cur with Some e => NextRaise e | None => NextStop end
  end.

(** ** The machine *)

(** The loop's variables ([disabled_false_count], [feature_counts] and
    the lines printed, in [agg_state]) and the cursor; or the loop has
    ended normally, or with an exception. *)
Inductive loop_state : Type :=
| Iterating (st : agg_state) (cur : cursor)
| Finished (st : agg_state)
| Raised (st : agg_state) (e : exc).

Section SiteLoop.
Variable ref_field : string.
Variable lk : lookup_dict.

(** One call of [next()] and, for a document, the loop body
    (lines 86-106). *)
Inductive loop_step : loop_state -> loop_state -> Prop :=
| step_site st cur site rest st' :
    cursor_next cur = NextDoc site rest ->
    process_site ref_field lk st site = (st', None) ->
    loop_step (Iterating st cur) (Iterating st' rest)
| step_site_raise st cur site rest st' e :
    cursor_next cur = NextDoc site rest ->
    process_site ref_field lk st site = (st', Some e) ->
    loop_step (Iterating st cur) (Raised st' e)
| step_cursor_raise st cur e :
    cursor_next cur = NextRaise e ->
    loop_step (Iterating st cur) (Raised st e)
| step_stop st cur :
    cursor_next cur = NextStop ->
    loop_step (Iterating st cur) (Finished st).

Definition loop_step_fn (s : loop_state) : option loop_state :=
  match s with
  | Iterating st cur =>
      match cursor_next cur with
      | NextDoc site rest =>
          match process_site ref_field lk st site with
          | (st', None) => Some (Iterating st' rest)
          | (st', Some e) => Some (Raised st' e)
          end
      | NextRaise e => Some (Raised st e)
      | NextStop => Some (Finished st)
      end
  | _ => None
  end.

(** The count of sites the loop has fetched. *)
Definition count_of (s : loop_state) : nat :=
  match s with Iterating st _ | Finished st | Raised st _ => disabled_false_count st end.

Lemma loop_step_fn_spec s s' : loop_step s s' <-> loop_step_fn s = Some s'.
Proof.
  split.
  - destruct 1 as [? ? ? ? ? Hn Hp|? ? ? ? ? ? Hn Hp|? ? ? Hn|? ? Hn]; simpl; rewrite Hn;
      rewrite ?Hp; done.
  - destruct s as [st cur| |]; simpl; try done.
    destruct (cursor_next cur) as [site rest|e|] eqn:Hn; intros Hs.
    + destruct (process_site ref_field lk st site) as [st' [e|]] eqn:Hp; simplify_eq.
      * by eapply step_site_raise.
      * by eapply step_site.
    + simplify_eq. by apply step_cursor_raise.
    + simplify_eq. by apply step_stop.
Qed.

Lemma loop_step_deterministic s s1 s2 : loop_step s s1 -> loop_step s s2 -> s1 = s2.
Proof. rewrite !loop_step_fn_spec. congruence. Qed.

(** ** Runs *)

(** The state a result of [aggregate] stands for. *)
Definition to_state (r : agg_state * option exc) : loop_state :=
  match r with (st, None) => Finished st | (st, Some e) => Raised st e end.

(** The state the loop is in, whatever its phase. *)
Definition agg_of (s : loop_state) : agg_state :=
  match s with Iterating st _ | Finished st | Raised st _ => st end.

Definition remaining (s : loop_state) : nat :=
  match s with Iterating _ cur => length (yielded cur) | _ => 0 end.

(** A property holds now, or the loop can step and it eventually holds
    after every step. *)
Inductive loop_eventually (P : loop_state -> Prop) : loop_state -> Prop :=
| ev_now s : P s -> loop_eventually P s
| ev_later s : red loop_step s -> (forall s', loop_step s s' -> loop_eventually P s') -> loop_eventually P s.

Lemma process_site_count st site :
  disabled_false_count (process_site ref_field lk st site).1 = S (disabled_false_count st).
Proof.
  unfold process_site. destruct (hash_key _); [|done].
  destruct (get_default _ _ _ _); simpl; try done. by rewrite count_flags_count.
Qed.

(** The run from [Iterating st cur] reaches the result of the recursive
    reading of the loop. *)
Lemma loop_run st cur :
  rtc loop_step (Iterating st cur)
    (to_state match process_sites ref_field lk st (yielded cur) with
              | (st', None) => (st', failure cur)
              | r => r
              end).
Proof.
  destruct cur as [l f]. simpl. revert st. induction l as [|site l IH]; intros st; simpl.
  - apply rtc_once. destruct f as [e|]; simpl; [by apply step_cursor_raise|by apply step_stop].
  - destruct (process_site ref_field lk st site) as [st' [e|]] eqn:Hp.
    + apply rtc_once. by eapply step_site_raise.
    + eapply rtc_l; [by eapply step_site|]. apply (IH st').
Qed.

Lemma eventually_weaken (P Q : loop_state -> Prop) s :
  loop_eventually P s -> (forall s', P s' -> Q s') -> loop_eventually Q s.
Proof. intros Hev HPQ. induction Hev; [by apply ev_now, HPQ|by apply ev_later]. Qed.

Lemma eventually_step P s s' : loop_step s s' -> loop_eventually P s' -> loop_eventually P s.
Proof.
  intros Hs Hev. apply ev_later; [by exists s'|]. intros s'' Hs''.
  by rewrite (loop_step_deterministic _ _ _ Hs'' Hs).
Qed.

(** The invariant of [loop_reachable_inv]. *)
Definition loop_inv (cur : cursor) (s : loop_state) : Prop :=
  match s with
  | Raised st _ => disabled_false_count st <= length (yielded cur)
  | _ => count_of s + remaining s = length (yielded cur)
  end /\ tally_bounded (agg_of s).

(** C34 ([loop_reachable_inv]): in every state the loop reaches from
    its start, the sites counted and the sites still to fetch add up to
    the sites the cursor yields (the count is at most that once the loop
    has raised), and for every feature [true + false] is at most the
    count. *)
Theorem loop_reachable_inv (cur : cursor) (s : loop_state) :
  lookup_wf lk -> rtc loop_step (Iterating agg_init cur) s ->
  match s with
  | Raised st _ => disabled_false_count st <= length (yielded cur)
  | _ => count_of s + remaining s = length (yielded cur)
  end /\ tally_bounded (agg_of s).
Proof.
  intros Hwf. revert s. apply (rtc_ind_r (loop_inv cur)).
  { split; [done|]. intros ? ? Hg. discriminate Hg. }
  intros y z _ Hyz [Hc Hb].
  destruct Hyz as [st cur' site rest st' Hn Hp|st cur' site rest st' e Hn Hp|st cur' e Hn|st cur' Hn];
    simpl in *; unfold cursor_next in Hn.
  1,2: pose proof (process_site_count st site) as Hcnt;
       pose proof (process_site_bounded ref_field lk st site Hwf Hb) as Hb';
       rewrite Hp in Hcnt, Hb'; simpl in *;
       destruct (yielded cur') as [|x l] eqn:Hy; [by destruct (failure cur')|];
       simplify_eq/=; unfold loop_inv; simpl; split; [lia|done].
  all: destruct (yielded cur') as [|x l]; [|discriminate]; unfold loop_inv; simpl in *;
       split; [lia|done].
Qed.

(** C35 ([loop_site_eventually_counted]): every site the cursor yields
    is eventually fetched and counted, unless a site before it has an
    unhashable reference: from the start, the loop eventually reaches a
    state whose count includes it. *)
Theorem loop_site_eventually_counted (cur : cursor) (i : nat) :
  i < length (yielded cur) ->
  Forall (ref_hashable ref_field) (take i (yielded cur)) ->
  loop_eventually (fun s => S i <= count_of s) (Iterating agg_init cur).
Proof.
  destruct cur as [l f]. simpl.
  cut (forall st, i < length l -> Forall (ref_hashable ref_field) (take i l) ->
         loop_eventually (fun s => disabled_false_count st + S i <= count_of s) (Iterating st (mk_cursor l f))).
  { intros H Hi Hh. exact (H agg_init Hi Hh). }
  revert i. induction l as [|site l IH]; intros i st Hi Hh; simpl in Hi; [lia|].
  pose proof (process_site_count st site) as Hcnt.
  destruct (process_site ref_field lk st site) as [st' oe] eqn:Hp. simpl in Hcnt.
  destruct i as [|i].
  - apply ev_later.
    + destruct oe; eexists; [by eapply step_site_raise|by eapply step_site].
    + intros s' Hs'. apply ev_now. apply loop_step_fn_spec in Hs'. simpl in Hs'.
      rewrite Hp in Hs'. destruct oe; simplify_eq/=; lia.
  - simpl in Hh. apply Forall_cons in Hh as [Hs Hh].
    destruct (process_site_ok ref_field lk st site Hs) as (st'' & Hp'' & _).
    rewrite Hp in Hp''. injection Hp'' as <- ->.
    eapply eventually_step; [by eapply step_site|].
    eapply eventually_weaken; [apply (IH i st'); [lia|done]|]. intros s Hle. simpl in *. lia.
Qed.

End SiteLoop.
