(* ===== verification/Paths.v ===== *)
(** * Paths: [os.path.split], [dirname] and [basename]

    [save_json] (src/PROD-WTFeaturesFlagsScript.py line 142) takes
    [os.path.dirname(filepath)], and [os.makedirs] splits the directory
    it creates with [os.path.split].  This file models both flavours of
    [os.path]: [posixpath] and [ntpath] (Python 3.11), with
    [ntpath.splitdrive]'s drive letters and UNC / device drives
    ([\\server\share], [\\?\UNC\server\share]).  A path is a string of
    the code points 0-255 a Rocq [ascii] holds, handled as a list of
    characters ([to_chars], [of_chars]).

    Its lemmas are the ones the file-system model uses: a drive and
    the rest make up the path ([splitdrive_cat]), and the head of
    [split] is shorter than a path with a last component
    ([dirname_shorter]), the measure of [os.makedirs]' recursion. *)

From S2P Require Import Prelude.
From Stdlib Require Import Ascii.

Definition bs : ascii := "092"%char.

Inductive path_flavor : Type := Posix | Windows.

#[export] Instance path_flavor_eq_dec : EqDecision path_flavor.
Proof. solve_decision. Defined.

Fixpoint to_chars (s : string) : list ascii :=
  match s with EmptyString => [] | String c s' => c :: to_chars s' end.
Fixpoint of_chars (l : list ascii) : string :=
  match l with [] => EmptyString | c :: l' => String c (of_chars l') end.

Fixpoint drop_while {A} (p : A -> bool) (l : list A) : list A :=
  match l with [] => [] | x :: l' => if p x then drop_while p l' else l end.

Definition is_sep (fl : path_flavor) (c : ascii) : bool :=
  match fl with
  | Posix => bool_decide (c = "/"%char)
  | Windows => bool_decide (c = "/"%char) || bool_decide (c = bs)
  end.

(** [p[:i]] with [i] just after the last separator *)
Definition head_part (fl : path_flavor) (l : list ascii) : list ascii :=
  rev (drop_while (fun c => negb (is_sep fl c)) (rev l)).

Definition rstrip_seps (fl : path_flavor) (l : list ascii) : list ascii :=
  rev (drop_while (is_sep fl) (rev l)).

(** [p.replace(altsep, sep)]: ['/'] read as ['\\']. *)
Definition norm_sep (c : ascii) : ascii := if bool_decide (c = "/"%char) then bs else c.

(** [str.upper] on one character.  Among the code points 0-255 only
    ['a'..'z'] become ASCII letters; the others never compare equal to
    the ASCII prefix below, before or after [upper]. *)
Definition ascii_upper (c : ascii) : ascii :=
  let n := nat_of_ascii c in if decide (97 <= n <= 122) then ascii_of_nat (n - 32) else c.

(** [s.find(c, start)]: the first index at or after [start] holding [c]. *)
Definition find_from (c : ascii) (start : nat) (l : list ascii) : option nat :=
  (fun r : nat * ascii => start + r.1) <$> list_find (c =.) (drop start l).

(** ['\\\\?\\UNC\\'] *)
Definition unc_prefix : list ascii := to_chars "\\?\UNC\".

(** [ntpath.splitdrive] (Python 3.11): a UNC or device drive
    ([\\server\share], [\\?\UNC\server\share]) ends before the
    separator after the share; a drive letter is [p[:2]] when
    [p[1] == ':']; [posixpath.splitdrive] finds no drive. *)
Definition splitdrive (fl : path_flavor) (p : list ascii) : list ascii * list ascii :=
  match fl with
  | Posix => ([], p)
  | Windows =>
      if decide (2 <= length p) then
        let normp := norm_sep <$> p in
        if decide (take 2 normp = [bs; bs]) then
          let start := if decide (ascii_upper <$> take 8 normp = unc_prefix) then 8 else 2 in
          match find_from bs start normp with
          | None => (p, [])
          | Some index =>
              match find_from bs (S index) normp with
              | None => (p, [])
              | Some index2 => (take index2 p, drop index2 p)
              end
          end
        else if decide (take 1 (drop 1 normp) = [":"%char]) then (take 2 p, drop 2 p)
        else ([], p)
      else ([], p)
  end.

(** [os.path.split]: after the drive, the head up to the last separator,
    stripped of trailing separators unless it consists of separators
    only, and the tail after it. *)
Definition split_path (fl : path_flavor) (p : string) : string * string :=
  let '(drive, rest) := splitdrive fl (to_chars p) in
  let head := head_part fl rest in
  (of_chars (drive ++ match rstrip_seps fl head with [] => head | h => h end),
   of_chars (drop (length head) rest)).

(** [os.path.dirname]: the head of [split]. *)
Definition dirname (fl : path_flavor) (p : string) : string := (split_path fl p).1.

(** [os.path.basename]: the tail of [split]. *)
Definition basename (fl : path_flavor) (p : string) : string := (split_path fl p).2.
(** ** Characters and lists *)

Lemma to_chars_app a b : to_chars (a ++ b) = to_chars a ++ to_chars b.
Proof. induction a as [|c a IH]; [done|]. rewrite sapp_cons. simpl. by rewrite IH. Qed.

Lemma of_chars_to_chars s : of_chars (to_chars s) = s.
Proof. induction s as [|c s IH]; simpl; [done|by rewrite IH]. Qed.

Lemma to_chars_of_chars l : to_chars (of_chars l) = l.
Proof. induction l as [|c l IH]; simpl; [done|by rewrite IH]. Qed.

Lemma drop_while_length {A} (p : A -> bool) l : length (drop_while p l) <= length l.
Proof. induction l as [|x l IH]; simpl; [done|]. destruct (p x); simpl; lia. Qed.

(** [p[:i] + p[i:]]: the head and the tail after it make up the path. *)
Lemma head_part_app fl l : head_part fl l ++ drop (length (head_part fl l)) l = l.
Proof.
  unfold head_part. rewrite <- (rev_involutive l) at 3 4. generalize (rev l) as r.
  induction r as [|x r IH]; [done|]. simpl. destruct (negb (is_sep fl x)).
  - pose proof (drop_while_length (fun c => negb (is_sep fl c)) r).
    rewrite drop_app_le by (rewrite !length_rev; lia). by rewrite app_assoc, IH.
  - by rewrite drop_all, app_nil_r.
Qed.

Lemma head_part_no_sep fl (l : list ascii) :
  Forall (fun c => is_sep fl c = false) l -> head_part fl l = [].
Proof.
  intros Hl. unfold head_part. apply Forall_rev in Hl.
  induction (rev l) as [|c r IH]; simpl; [done|].
  apply Forall_cons in Hl as [Hc Hr]. rewrite Hc. simpl. by apply IH.
Qed.

Lemma rstrip_seps_length fl l : length (rstrip_seps fl l) <= length l.
Proof. unfold rstrip_seps. rewrite length_rev, <- (length_rev l). apply drop_while_length. Qed.

(** ** The drive *)

(** The drive and the rest of a path make up the path. *)
Lemma splitdrive_cat fl l : (splitdrive fl l).1 ++ (splitdrive fl l).2 = l.
Proof.
  destruct fl; [done|]. unfold splitdrive.
  repeat (case_decide || case_match); simpl; rewrite ?take_drop, ?app_nil_r; done.
Qed.

(** ** [os.path.split] *)

Lemma to_chars_nil s : to_chars s = [] <-> s = "".
Proof. destruct s; simpl; split; congruence. Qed.

(** The head and the tail of [split] are no longer than the path
    together. *)
Lemma split_path_length fl p :
  length (to_chars (split_path fl p).1) + length (to_chars (split_path fl p).2)
  <= length (to_chars p).
Proof.
  unfold split_path. pose proof (splitdrive_cat fl (to_chars p)) as Hcat.
  destruct (splitdrive fl (to_chars p)) as [drive rest]. simpl in *.
  rewrite !to_chars_of_chars, <- Hcat, !length_app.
  pose proof (f_equal length (head_part_app fl rest)) as Hh. rewrite length_app in Hh.
  pose proof (rstrip_seps_length fl (head_part fl rest)).
  destruct (rstrip_seps fl (head_part fl rest)); simpl in *; lia.
Qed.

(** A path with a last component has a strictly shorter head: the
    measure of [os.makedirs]' recursion. *)
Lemma dirname_shorter fl p :
  basename fl p <> "" -> length (to_chars (dirname fl p)) < length (to_chars p).
Proof.
  unfold basename, dirname. intros Hb. pose proof (split_path_length fl p).
  destruct (to_chars (split_path fl p).2) eqn:Ht; [by apply to_chars_nil in Ht|]. simpl in *. lia.
Qed.

