(* ===== verification/FileSys.v ===== *)
(** * The file system [save_json] acts on

    [save_json] (src/PROD-WTFeaturesFlagsScript.py lines 141-153) tests
    [os.path.exists(output_dir)], calls [os.makedirs(output_dir)] and
    opens the output file for writing.  This file models a file system
    with the operations the function uses ([path_exists], [mkdir],
    [makedirs], [open_write]), raising the [OSError] subclass the
    operating system's error selects.  Directories are identified by
    their spelling: [.] and [..] components and doubled separators are
    not resolved as the operating system would.

    [os.makedirs] is modelled from Python's [os.py]: it recurses on the
    head of [os.path.split] while it is missing, so it creates every
    missing ancestor, outermost first, and keeps those already created
    when a later [mkdir] fails.  Its recursion is bounded by the name's
    length ([makedirs_go_fuel]); [makedirs_go_chain] shows that it
    creates each missing ancestor in turn up to the first that may not
    be created ([makedirs_outcome]), the lemma [SaveJson]'s theorems on
    the output directory rest on.  [open_write] is [open(p, "w")]
    followed by the write of [json.dump]: the open truncates, and the
    write may then run out of space ([fs_free]). *)

From S2P Require Import Prelude PyValue PyDict Paths.

Record fsys : Type := mk_fs {
  fs_dirs : list string;
  fs_files : list (string * string);
  (** directories where creating or writing fails ([PermissionError]) *)
  fs_denied : list string;
  (** characters the device can still store; [None] when unbounded *)
  fs_free : option nat
}.

(** [os.path.exists]: a directory or a file. *)
Definition path_exists (fs : fsys) (p : string) : bool :=
  bool_decide (p ∈ fs_dirs fs) || bool_decide (p ∈ map fst (fs_files fs)).

(** The error for a path component that is a file: [ENOTDIR] on POSIX,
    [ERROR_PATH_NOT_FOUND] on Windows. *)
Definition not_dir_error (fl : path_flavor) : os_error :=
  match fl with Posix => NotADirectoryError | Windows => FileNotFoundError end.

(** [os.mkdir(d)]: [d] must not exist and may be created, and its parent
    must be a directory (or the current one). *)
Definition mkdir (fl : path_flavor) (fs : fsys) (d : string) : py fsys :=
  let parent := dirname fl d in
  if bool_decide (d = "") then Raise (OSError FileNotFoundError)
  else if path_exists fs d then Raise (OSError FileExistsError)
  else if bool_decide (d ∈ fs_denied fs) then Raise (OSError PermissionError)
  else if bool_decide (parent = "" \/ parent ∈ fs_dirs fs)
  then Ok (mk_fs (d :: fs_dirs fs) (fs_files fs) (fs_denied fs) (fs_free fs))
  else if bool_decide (parent ∈ map fst (fs_files fs)) then Raise (OSError (not_dir_error fl))
  else Raise (OSError FileNotFoundError).

(** [head, tail = path.split(name)]; [if not tail: head, tail =
    path.split(head)]: the first lines of [os.makedirs]. *)
Definition makedirs_split (fl : path_flavor) (name : string) : string * string :=
  let '(h, t) := split_path fl name in
  if bool_decide (t = "") then split_path fl h else (h, t).

(** [os.makedirs(name)] with [exist_ok=False]: when the head of
    [os.path.split] (of the head, for a name ending with a separator) is
    missing, create it first, ignoring [FileExistsError], and stop there
    when the tail is [os.curdir]; then [mkdir(name)], whose errors
    propagate.  The file system keeps what was created before an
    exception.  [n] bounds the depth of the recursion; [makedirs] gives
    one more than the name's length, which the head's length is below
    at every call ([makedirs_go_fuel]), so the value [n = 0] is never
    used. *)
Fixpoint makedirs_go (fl : path_flavor) (n : nat) (fs : fsys) (name : string) : fsys * option exc :=
  match n with
  | 0 => (fs, Some OtherError)
  | S n' =>
      let '(head, tail) := makedirs_split fl name in
      let mk (fs1 : fsys) :=
        match mkdir fl fs1 name with Ok fs2 => (fs2, None) | Raise e => (fs1, Some e) end in
      if bool_decide (head <> "") && bool_decide (tail <> "") && negb (path_exists fs head) then
        let '(fs1, oe) := makedirs_go fl n' fs head in
        match oe with
        | Some e => if decide (e = OSError FileExistsError) then
                      (if bool_decide (tail = ".") then (fs1, None) else mk fs1)
                    else (fs1, Some e)
        | None => if bool_decide (tail = ".") then (fs1, None) else mk fs1
        end
      else mk fs
  end.

Definition makedirs (fl : path_flavor) (fs : fsys) (name : string) : fsys * option exc :=
  makedirs_go fl (S (length (to_chars name))) fs name.

(** The size of the file at [p], 0 when there is none. *)
Definition file_size (fs : fsys) (p : string) : nat :=
  from_option (fun s => length (to_chars s)) 0 (sget (fs_files fs) p).

(** [with open(p, "w") as f: json.dump(..., f)], writing [contents].
    The open needs the parent to be a directory (or the current one),
    writable, and [p] not a directory ([IsADirectoryError] on POSIX,
    [PermissionError] on Windows); it then truncates (or creates) [p],
    which frees the old contents' space.  The write stores [contents]
    when the device has room for them; otherwise it stores the [n]
    characters there is room for and raises [OSError] ([ENOSPC]): the
    file is left truncated, and the state reached is kept. *)
Definition open_write (fl : path_flavor) (fs : fsys) (p contents : string) : fsys * option exc :=
  let d := dirname fl p in
  if negb (bool_decide (d = "" \/ d ∈ fs_dirs fs)) then
    (fs, Some (OSError (if bool_decide (d ∈ map fst (fs_files fs)) then not_dir_error fl
                        else FileNotFoundError)))
  else if bool_decide (p ∈ fs_dirs fs) then
    (fs, Some (OSError (match fl with Posix => IsADirectoryError | Windows => PermissionError end)))
  else if bool_decide (d ∈ fs_denied fs) then (fs, Some (OSError PermissionError))
  else
    let write (s : string) (free : option nat) :=
      mk_fs (fs_dirs fs) (setitem id (fs_files fs) p s) (fs_denied fs) free in
    match fs_free fs with
    | None => (write contents None, None)
    | Some n =>
        let room := n + file_size fs p in
        if decide (length (to_chars contents) <= room)
        then (write contents (Some (room - length (to_chars contents))), None)
        else (write (of_chars (take room (to_chars contents))) (Some 0), Some (OSError NoSpaceLeft))
    end.

(** The device has room for [contents] once [p] is truncated. *)
Definition has_room (fs : fsys) (p contents : string) : Prop :=
  match fs_free fs with
  | None => True
  | Some n => length (to_chars contents) <= n + file_size fs p
  end.

#[export] Instance has_room_dec fs p contents : Decision (has_room fs p contents).
Proof. unfold has_room. destruct (fs_free fs); apply _. Defined.

(** ** What [os.makedirs] promises *)

(** The directories [os.makedirs(d)] has to create, outermost first:
    [d] and its missing ancestors, following [dirname] up to the first
    one that exists or the current directory. *)
Fixpoint missing_go (fl : path_flavor) (n : nat) (fs : fsys) (d : string) : list string :=
  match n with
  | 0 => []
  | S n' => if bool_decide (d = "") || path_exists fs d then []
            else missing_go fl n' fs (dirname fl d) ++ [d]
  end.

Definition missing_dirs (fl : path_flavor) (fs : fsys) (d : string) : list string :=
  missing_go fl (S (length (to_chars d))) fs d.

(** A directory [mkdir] can create once its parent exists, permission
    aside: it has a last component that is not [.], and its parent is
    not a file. *)
Definition mkdir_shape (fl : path_flavor) (fs : fsys) (x : string) : Prop :=
  basename fl x <> "" /\ basename fl x <> "." /\ (dirname fl x ∉ map fst (fs_files fs)).

Definition creatable (fl : path_flavor) (fs : fsys) (x : string) : Prop :=
  (x ∉ fs_denied fs) /\ mkdir_shape fl fs x.

#[export] Instance mkdir_shape_dec fl fs x : Decision (mkdir_shape fl fs x).
Proof. unfold mkdir_shape. apply _. Defined.

#[export] Instance creatable_dec fl fs x : Decision (creatable fl fs x).
Proof. unfold creatable. apply _. Defined.

(** How many directories of [c], from the first, may be created: the
    index of the first one that may not. *)
Definition first_denied (fs : fsys) (c : list string) : nat :=
  match list_find (fun x => x ∈ fs_denied fs) c with Some (i, _) => i | None => length c end.

(** What [os.makedirs] promises: the directories of the chain [c]
    created in turn, outermost first, up to the first that may not be
    created, where it raises [PermissionError]; those created before
    stay. *)
Definition makedirs_outcome (fs : fsys) (c : list string) : fsys * option exc :=
  let k := first_denied fs c in
  (mk_fs (rev (take k c) ++ fs_dirs fs) (fs_files fs) (fs_denied fs) (fs_free fs),
   if decide (k = length c) then None else Some (OSError PermissionError)).

(** ** Lemmas *)

(** With a last component, [makedirs] splits once: the head is the
    [dirname] and the tail the [basename]. *)
Lemma makedirs_split_basename fl name :
  basename fl name <> "" -> makedirs_split fl name = (dirname fl name, basename fl name).
Proof.
  unfold makedirs_split, basename, dirname. destruct (split_path fl name) as [h t]. simpl.
  intros Ht. by rewrite bool_decide_eq_false_2.
Qed.

Lemma makedirs_split_shorter fl name :
  (makedirs_split fl name).2 <> "" ->
  length (to_chars (makedirs_split fl name).1) < length (to_chars name).
Proof.
  unfold makedirs_split. pose proof (split_path_length fl name) as Hn.
  destruct (split_path fl name) as [h t] eqn:Hs. simpl in *. case_bool_decide as Ht.
  - intros Hb. pose proof (dirname_shorter fl h Hb). unfold dirname in *. lia.
  - intros _. pose proof (dirname_shorter fl name) as Hd. unfold dirname, basename in Hd.
    rewrite Hs in Hd. simpl in Hd. by apply Hd.
Qed.

(** Enough fuel: any bound above the name's length gives the same run,
    so the bound [makedirs] gives is never reached. *)
Lemma makedirs_go_fuel fl n m fs name :
  length (to_chars name) < n -> length (to_chars name) < m ->
  makedirs_go fl n fs name = makedirs_go fl m fs name.
Proof.
  revert m fs name. induction n as [|n IH]; intros [|m] fs name Hn Hm; try lia. simpl.
  pose proof (makedirs_split_shorter fl name) as Hlt.
  destruct (makedirs_split fl name) as [head tail]. simpl in Hlt.
  destruct (bool_decide (head <> "") && bool_decide (tail <> "") && _) eqn:Hc; [|done].
  apply andb_true_iff in Hc as [[_ Ht%bool_decide_eq_true]%andb_true_iff _].
  specialize (Hlt Ht). by rewrite (IH m) by lia.
Qed.

Lemma missing_go_nil fl n fs d : d = "" \/ path_exists fs d = true -> missing_go fl n fs d = [].
Proof.
  destruct n; simpl; [done|]. intros [-> | Hd]; [done|]. rewrite Hd. by rewrite orb_true_r.
Qed.

Lemma missing_go_shorter fl n fs d x :
  x ∈ missing_go fl n fs d -> length (to_chars x) <= length (to_chars d).
Proof.
  revert d. induction n as [|n IH]; intros d; simpl; [by intros ?%elem_of_nil|].
  destruct (_ || _); [by intros ?%elem_of_nil|].
  intros [Hx%IH|Hx%list_elem_of_singleton]%elem_of_app; [|by subst].
  pose proof (split_path_length fl d). unfold dirname in Hx. lia.
Qed.

Lemma mkdir_ok fl fs d :
  d <> "" -> path_exists fs d = false -> d ∉ fs_denied fs ->
  dirname fl d = "" \/ dirname fl d ∈ fs_dirs fs ->
  mkdir fl fs d = Ok (mk_fs (d :: fs_dirs fs) (fs_files fs) (fs_denied fs) (fs_free fs)).
Proof.
  intros Hd He Hden Hp. unfold mkdir. rewrite He.
  rewrite bool_decide_eq_false_2, bool_decide_eq_false_2, bool_decide_eq_true_2 by done. done.
Qed.

Lemma path_exists_false fs d :
  path_exists fs d = false <-> (d ∉ fs_dirs fs) /\ (d ∉ map fst (fs_files fs)).
Proof. unfold path_exists. rewrite orb_false_iff, !bool_decide_eq_false. done. Qed.

Lemma path_exists_true fs d : path_exists fs d = true <-> d ∈ fs_dirs fs \/ d ∈ map fst (fs_files fs).
Proof. unfold path_exists. by rewrite orb_true_iff, !bool_decide_eq_true. Qed.

Lemma elem_of_rev {A} (x : A) l : x ∈ rev l <-> x ∈ l.
Proof. rewrite !list_elem_of_In. symmetry. apply in_rev. Qed.

(** A missing directory other than [""] is the last of its own chain. *)
Lemma missing_go_last fl n fs d :
  length (to_chars d) < n -> d <> "" -> path_exists fs d = false -> d ∈ missing_go fl n fs d.
Proof.
  destruct n as [|n]; [lia|]. intros _ Hd He. simpl. rewrite bool_decide_eq_false_2, He by done.
  apply elem_of_app. right. by apply list_elem_of_singleton.
Qed.

Lemma first_denied_le fs c : first_denied fs c <= length c.
Proof.
  unfold first_denied. destruct (list_find _ c) as [[i x]|] eqn:Hf; [|done].
  apply list_find_Some in Hf as (Hl & _). apply lookup_lt_Some in Hl. lia.
Qed.

Lemma first_denied_snoc fs c d :
  first_denied fs (c ++ [d])
  = if decide (first_denied fs c < length c) then first_denied fs c
    else length c + (if decide (d ∈ fs_denied fs) then 0 else 1).
Proof.
  unfold first_denied. destruct (list_find _ c) as [[i x]|] eqn:Hf.
  - rewrite (list_find_app_l _ _ _ _ _ Hf). apply list_find_Some in Hf as (Hl & _).
    apply lookup_lt_Some in Hl. by rewrite decide_True.
  - rewrite list_find_app_r by done. rewrite decide_False by lia. simpl.
    case_decide; simpl; rewrite ?length_app; simpl; lia.
Qed.

Lemma first_denied_all fs c : Forall (fun x => x ∉ fs_denied fs) c -> first_denied fs c = length c.
Proof.
  unfold first_denied. intros Hc. rewrite (proj2 (list_find_None _ _)); [done|].
  eapply Forall_impl; [exact Hc|]. done.
Qed.

Lemma mkdir_denied fl fs d :
  d <> "" -> path_exists fs d = false -> d ∈ fs_denied fs -> mkdir fl fs d = Raise (OSError PermissionError).
Proof.
  intros Hd He Hden. unfold mkdir. rewrite He.
  by rewrite bool_decide_eq_false_2, bool_decide_eq_true_2.
Qed.

(** A directory of the chain that is not [d] is shorter than [d]. *)
Lemma missing_go_not_in fl n fs d k :
  basename fl d <> "" -> d ∉ take k (missing_go fl n fs (dirname fl d)).
Proof.
  intros Hb (i & Hi%list_elem_of_lookup_2%missing_go_shorter & _)%elem_of_take.
  pose proof (dirname_shorter fl d Hb). lia.
Qed.

Lemma makedirs_go_chain fl n fs d :
  length (to_chars d) < n -> d <> "" -> path_exists fs d = false ->
  Forall (mkdir_shape fl fs) (missing_go fl n fs d) ->
  makedirs_go fl n fs d = makedirs_outcome fs (missing_go fl n fs d).
Proof.
  revert d. induction n as [|n IH]; intros d Hn Hd He Hc; [lia|].
  assert (Hch : missing_go fl (S n) fs d = missing_go fl n fs (dirname fl d) ++ [d])
    by (simpl; by rewrite bool_decide_eq_false_2, He).
  rewrite Hch in Hc |- *. apply Forall_app in Hc as [Hc (Hb & Hdot & Hpf)%Forall_singleton].
  cbn [makedirs_go]. rewrite makedirs_split_basename by done. cbv beta iota zeta.
  rewrite (bool_decide_eq_true_2 (basename fl d <> "")), andb_true_r by done.
  rewrite (bool_decide_eq_false_2 (basename fl d = ".")) by done.
  pose proof (dirname_shorter fl d Hb) as Hlt.
  set (c := missing_go fl n fs (dirname fl d)) in *.
  destruct (proj1 (path_exists_false fs d) He) as [Hdir Hfile].
  assert (Hnot : forall k, path_exists (mk_fs (rev (take k c) ++ fs_dirs fs) (fs_files fs) (fs_denied fs) (fs_free fs)) d = false).
  { intros k. apply path_exists_false. split; [|done]. simpl.
    intros [Hin|]%elem_of_app; [|done]. rewrite elem_of_rev in Hin.
    by apply (missing_go_not_in fl n fs d k). }
  unfold makedirs_outcome. rewrite first_denied_snoc, length_app. simpl.
  destruct (bool_decide (dirname fl d <> "") && negb (path_exists fs (dirname fl d))) eqn:Hcase.
  - apply andb_true_iff in Hcase as [Hh%bool_decide_eq_true Hh'%negb_true_iff].
    rewrite IH by (done || lia). fold c. unfold makedirs_outcome.
    pose proof (first_denied_le fs c) as Hle.
    destruct (decide (first_denied fs c = length c)) as [Hk|Hk]; cbv iota.
    + rewrite (decide_False (P := first_denied fs c < length c)) by lia. rewrite Hk, take_ge by lia.
      destruct (decide (d ∈ fs_denied fs)) as [Hden|Hden].
      * rewrite mkdir_denied; [|done|by rewrite <- (take_ge c (length c)) by lia|done].
        rewrite (decide_False (P := length c + 0 = length c + 1)) by lia.
        by rewrite Nat.add_0_r, take_app_length.
      * rewrite mkdir_ok; [|done|by rewrite <- (take_ge c (length c)) by lia|done|].
        -- rewrite (decide_True (P := length c + 1 = length c + 1)) by lia.
           rewrite take_ge by (rewrite length_app; simpl; lia). by rewrite rev_app_distr.
        -- right. apply elem_of_app. left. apply elem_of_rev, missing_go_last; [lia|done|done].
    + rewrite (decide_True (P := first_denied fs c < length c)) by lia.
      rewrite (decide_False (P := OSError PermissionError = OSError FileExistsError)) by done.
      rewrite (decide_False (P := first_denied fs c = length c + 1)) by lia.
      by rewrite take_app_le by lia.
  - assert (Hc0 : c = []).
    { apply missing_go_nil. apply andb_false_iff in Hcase as [Hh%bool_decide_eq_false|Hh%negb_false_iff];
        [left; by apply dec_stable|by right]. }
    rewrite Hc0. simpl. destruct fs as [dirs files den]. simpl in *.
    destruct (decide (d ∈ den)) as [Hden|Hden].
    + by rewrite mkdir_denied.
    + rewrite mkdir_ok; [done|done|done|done|].
      apply andb_false_iff in Hcase as [Hh%bool_decide_eq_false|Hh%negb_false_iff].
      * left. by apply dec_stable.
      * right. apply path_exists_true in Hh as [|]; [done|contradiction].
Qed.

(** Every missing ancestor may be created: [os.makedirs] creates them
    all and returns normally. *)
Lemma makedirs_go_missing fl n fs d :
  length (to_chars d) < n -> d <> "" -> path_exists fs d = false ->
  Forall (creatable fl fs) (missing_go fl n fs d) ->
  makedirs_go fl n fs d
  = (mk_fs (rev (missing_go fl n fs d) ++ fs_dirs fs) (fs_files fs) (fs_denied fs) (fs_free fs), None).
Proof.
  intros Hn Hd He Hc. rewrite makedirs_go_chain by (try done; by eapply Forall_impl; [exact Hc|]; intros x [_ ?]).
  unfold makedirs_outcome. rewrite first_denied_all by (by eapply Forall_impl; [exact Hc|]; intros x [? _]).
  rewrite take_ge by lia. by rewrite decide_True.
Qed.

Lemma mkdir_frame fl fs d fs' :
  mkdir fl fs d = Ok fs' ->
  fs_files fs' = fs_files fs /\ fs_denied fs' = fs_denied fs /\ fs_free fs' = fs_free fs.
Proof. unfold mkdir. by repeat case_match; intros; simplify_eq/=. Qed.

Lemma mkdir_raise fl fs d e : mkdir fl fs d = Raise e -> exists k, e = OSError k.
Proof. unfold mkdir. repeat case_match; intros; simplify_eq/=; eauto. Qed.

#[export] Hint Resolve mkdir_raise : pipe.

(** [os.makedirs] writes no file and changes neither permissions nor
    free space, whatever it raises. *)
Lemma makedirs_go_frame fl n fs d :
  fs_files (makedirs_go fl n fs d).1 = fs_files fs /\ fs_denied (makedirs_go fl n fs d).1 = fs_denied fs /\
  fs_free (makedirs_go fl n fs d).1 = fs_free fs.
Proof.
  revert fs d. induction n as [|n IH]; intros fs d; simpl; [done|].
  destruct (makedirs_split fl d) as [head tail].
  destruct (_ && _ && _); [pose proof (IH fs head) as IHh;
    destruct (makedirs_go fl n fs head) as [fs1 oe]; simpl in IHh|].
  all: repeat case_match; simplify_eq/=; try naive_solver;
    match goal with H : mkdir _ _ _ = Ok _ |- _ => apply mkdir_frame in H as (-> & -> & ->) end; naive_solver.
Qed.

(** With the fuel [makedirs] gives, the only exceptions are [OSError]s
    (those of [mkdir]). *)
Lemma makedirs_go_raise fl n fs d e :
  length (to_chars d) < n -> (makedirs_go fl n fs d).2 = Some e -> exists k, e = OSError k.
Proof.
  revert fs d. induction n as [|n IH]; intros fs d Hn; simpl; [lia|].
  pose proof (makedirs_split_shorter fl d) as Hlt.
  destruct (makedirs_split fl d) as [head tail]. simpl in Hlt.
  destruct (bool_decide (head <> "") && bool_decide (tail <> "") && _) eqn:Hc.
  - apply andb_true_iff in Hc as [[_ Ht%bool_decide_eq_true]%andb_true_iff _].
    specialize (IH fs head ltac:(specialize (Hlt Ht); lia)).
    destruct (makedirs_go fl n fs head) as [fs1 oe]. simpl in IH.
    repeat case_match; intros; simplify_eq/=; eauto with pipe.
  - repeat case_match; intros; simplify_eq/=; eauto with pipe.
Qed.

(** Every directory of the chain other than [d] is shorter than [d]. *)
Lemma missing_dirs_elem fl fs d x :
  Forall (creatable fl fs) (missing_dirs fl fs d) -> x ∈ missing_dirs fl fs d ->
  x = d \/ length (to_chars x) < length (to_chars d).
Proof.
  unfold missing_dirs. simpl. destruct (_ || _); [by intros _ ?%elem_of_nil|].
  intros (_ & (_ & Hb & _)%Forall_singleton)%Forall_app.
  intros [Hx%missing_go_shorter|Hx%list_elem_of_singleton]%elem_of_app; [|by left].
  right. pose proof (dirname_shorter fl d Hb). lia.
Qed.

Lemma open_write_ok fl fs p contents :
  (dirname fl p = "" \/ dirname fl p ∈ fs_dirs fs) -> p ∉ fs_dirs fs -> dirname fl p ∉ fs_denied fs ->
  has_room fs p contents ->
  exists free, open_write fl fs p contents
    = (mk_fs (fs_dirs fs) (setitem id (fs_files fs) p contents) (fs_denied fs) free, None).
Proof.
  intros Hd Hp Hn Hr. unfold open_write, has_room in *.
  rewrite (bool_decide_eq_true_2 (_ \/ _)) by done. cbn [negb].
  rewrite bool_decide_eq_false_2 by done. rewrite bool_decide_eq_false_2 by done.
  destruct (fs_free fs); [rewrite decide_True by done|]; by eexists.
Qed.

(** A completed write stores [contents] at [p] and changes nothing else
    but the free space. *)
Lemma open_write_None fl fs p contents fs' :
  open_write fl fs p contents = (fs', None) ->
  (dirname fl p ∉ fs_denied fs) /\ fs_dirs fs' = fs_dirs fs /\ fs_denied fs' = fs_denied fs /\
  fs_files fs' = setitem id (fs_files fs) p contents.
Proof.
  unfold open_write. repeat case_match; intros; simplify_eq/=; (split; [by case_bool_decide|done]).
Qed.

(** A failed open changes nothing; a write that runs out of space leaves
    [p] holding a strict prefix of [contents]. *)
Lemma open_write_Some fl fs p contents fs' e :
  open_write fl fs p contents = (fs', Some e) ->
  (exists k, e = OSError k) /\ fs_dirs fs' = fs_dirs fs /\ fs_denied fs' = fs_denied fs /\
  (fs_files fs' = fs_files fs \/
   exists n, n < length (to_chars contents) /\
     fs_files fs' = setitem id (fs_files fs) p (of_chars (take n (to_chars contents)))).
Proof.
  unfold open_write. repeat case_match; intros; simplify_eq/=; split_and!; eauto.
  all: right; eexists; split; [|done]; lia.
Qed.

