(* ===== verification/SaveJson.v ===== *)
(** * The sink: [save_json] and the console

    [save_json(data, filepath)] (src/PROD-WTFeaturesFlagsScript.py lines
    132-155) creates the directory of the output path when it is missing,
    writes [json.dump(data, f, indent=4)] and prints the outcome; every
    exception is caught and printed, never propagated to [main].

    Modelled here: the JSON text [json.dump] produces for the report
    ([dump], with Python's [ensure_ascii] escapes; characters are the
    code points 0-255 a Rocq [ascii] holds), the console messages of the
    scripts ([msg], the handlers' lines carrying the exception they
    print), and [save_json] itself: the body of its [try]
    ([ensure_dir], [save_json_body]) over the paths of [Paths] and the
    file system of [FileSys], and its handler ([save_failed]).

    [open_write] truncates before it writes, so a write that runs out
    of space leaves a strict prefix of the dump ([save_json_no_room]).

    Its theorems: the file written on success (C16), the two ways
    [save_json] ends, the truncated file included (C17), the POSIX
    reading of the scripts' Windows path (C21), the directories created
    and the line printed for them (C22), and the directories a failed
    [os.makedirs] leaves behind (C29). *)

From S2P Require Import Prelude PyValue PyDict Aggregate Paths FileSys.
From stdpp Require Import pretty.
From Stdlib Require Import Ascii.

(** ** JSON text *)

Inductive json : Type :=
| JInt (n : nat)
| JStr (s : string)
| JObj (fields : list (string * json)).

(** Induction on [json] with a hypothesis for every field of an object. *)
Section json_ind_nested.
Variable P : json -> Prop.
Hypothesis HInt : forall n, P (JInt n).
Hypothesis HStr : forall s, P (JStr s).
Hypothesis HObj : forall fs, Forall (fun kv => P kv.2) fs -> P (JObj fs).

Fixpoint json_ind_nested (j : json) : P j :=
  match j with
  | JInt n => HInt n
  | JStr s => HStr s
  | JObj fs =>
      HObj fs ((fix go (l : list (string * json)) : Forall (fun kv => P kv.2) l :=
                  match l with
                  | [] => Forall_nil_2 _
                  | kv :: l' => Forall_cons_2 _ kv l' (json_ind_nested kv.2) (go l')
                  end) fs)
  end.
End json_ind_nested.

Definition dq : ascii := "034"%char.

Definition hex_digit (n : nat) : ascii :=
  match n with
  | 10 => "a" | 11 => "b" | 12 => "c" | 13 => "d" | 14 => "e" | 15 => "f"
  | _ => ascii_of_nat (48 + n)
  end%char.

(** [json.encoder.ESCAPE_ASCII] with [ESCAPE_DCT]: quote and backslash,
    the five named control escapes, [\u00xx] for the other characters
    outside [' '..'~']. *)
Definition escape_char (c : ascii) : string :=
  let n := nat_of_ascii c in
  if decide (c = dq) then String bs (String dq EmptyString)
  else if decide (c = bs) then String bs (String bs EmptyString)
  else if decide (n = 8) then String bs "b"
  else if decide (n = 12) then String bs "f"
  else if decide (n = 10) then String bs "n"
  else if decide (n = 13) then String bs "r"
  else if decide (n = 9) then String bs "t"
  else if decide (32 <= n <= 126) then String c EmptyString
  else String bs (String "u" (String "0" (String "0"
         (String (hex_digit (n / 16)) (String (hex_digit (n mod 16)) EmptyString)))))%char.

Fixpoint escape (s : string) : string :=
  match s with
  | EmptyString => EmptyString
  | String c s' => (escape_char c ++ escape s')%string
  end.

Definition quote (s : string) : string := String dq (escape s ++ String dq EmptyString)%string.

Definition newline : string := String "010"%char EmptyString.

(** ['\n' + ' ' * (4 * level)] *)
Definition nl_indent (level : nat) : string := (newline ++ String.concat "" (repeat "    " level))%string.

(** [json.dumps(j, indent=4)] at nesting depth [level]: an empty object
    is [{}], a non-empty one puts each ["key": value] on its own line,
    separated by [","]. *)
Fixpoint dump (level : nat) (j : json) : string :=
  match j with
  | JInt n => pretty n
  | JStr s => quote s
  | JObj [] => "{}"
  | JObj fields =>
      ("{" ++ nl_indent (S level)
       ++ String.concat ("," ++ nl_indent (S level))
            (map (fun kv : string * json => quote kv.1 ++ ": " ++ dump (S level) kv.2) fields)
       ++ nl_indent level ++ "}")%string
  end.

(** One ["key": value] line of an object at depth [l]. *)
Definition member_text (l : nat) (kv : string * json) : string :=
  (quote kv.1 ++ ": " ++ dump (S l) kv.2)%string.

Lemma dump_obj l kv fs :
  dump l (JObj (kv :: fs)) =
  ("{" ++ nl_indent (S l) ++ String.concat ("," ++ nl_indent (S l)) (map (member_text l) (kv :: fs))
   ++ nl_indent l ++ "}")%string.
Proof. reflexivity. Qed.

(** The [results] dict of lines 109-113, after the [defaultdict] is
    turned into a dict at lines 148-149 (same entries, same order). *)
Definition counts_json (c : counts) : json :=
  JObj [("true", JInt (n_true c)); ("false", JInt (n_false c))].

Definition report_json (total : nat) (count : nat) (fc : tally) : json :=
  JObj [("total_identical_ids", JInt total);
        ("disabled_false_sites_count", JInt count);
        ("feature_flags_counts", JObj (map (fun fcnt => (fcnt.1, counts_json fcnt.2)) fc))].

(** ** Console *)

(** The lines the scripts print, in order. *)
Inductive msg : Type :=
| MsgConnected                 (** line 40 *)
| MsgConnectFailed (e : exc)   (** line 42 *)
| MsgOpFailed (e : exc)        (** line 45 *)
| MsgUnexpected (e : exc)      (** line 48 *)
| MsgRetrieving                (** line 53 *)
| MsgTotal (n : nat)           (** line 64 *)
| MsgNoIds                     (** line 67 *)
| MsgQuerying                  (** line 71 *)
| MsgProcessing                (** line 84 *)
| MsgWarning (w : warning)     (** lines 94, 106 *)
| MsgCreatedDir (d : string)   (** line 145 *)
| MsgSavedTo (p : string)      (** line 153 *)
| MsgSaveFailed (p : string) (e : exc) (** line 155 *)
| MsgAllSaved (p : string)     (** line 117 *)
| MsgOpFailedProcessing (e : exc) (** line 120 *)
| MsgErrorProcessing (e : exc) (** line 122 *)
| MsgClosed.                   (** line 126 *)

(** ** [save_json] *)

(** Lines 142-145: create the directory when it is missing. *)
Definition ensure_dir (fl : path_flavor) (fs : fsys) (filepath : string) : fsys * list msg * option exc :=
  let d := dirname fl filepath in
  if bool_decide (d <> "") && negb (path_exists fs d) then
    match makedirs fl fs d with
    | (fs', None) => (fs', [MsgCreatedDir d], None)
    | (fs', Some e) => (fs', [], Some e)
    end
  else (fs, [], None).

(** Lines 141-153, the body of the [try]: the file system and the
    lines printed when it ends, and the exception it raised, if any.
    The conversion of the [defaultdict] (lines 147-149) keeps entries
    and order and is part of [report_json]. *)
Definition save_json_body (fl : path_flavor) (fs : fsys) (data : json) (filepath : string)
  : fsys * list msg * option exc :=
  match ensure_dir fl fs filepath with
  | (fs1, out1, Some e) => (fs1, out1, Some e)
  | (fs1, out1, None) =>
      match open_write fl fs1 filepath (dump 0 data) with
      | (fs2, None) => (fs2, out1 ++ [MsgSavedTo filepath], None)
      | (fs2, Some e) => (fs2, out1, Some e)
      end
  end.

(** Lines 154-155: [print(f"Failed to save JSON to {filepath}: {e}")]. *)
Definition save_failed (filepath : string) (oe : option exc) : list msg :=
  match oe with Some e => [MsgSaveFailed filepath e] | None => [] end.

(** Lines 132-155.  The handler prints the failure and returns
    normally, keeping what the body did before it raised. *)
Definition save_json (fl : path_flavor) (fs : fsys) (data : json) (filepath : string)
  : fsys * list msg :=
  let '(fs', out, oe) := save_json_body fl fs data filepath in
  (fs', out ++ save_failed filepath oe).

(** ** Properties of [save_json] *)

Lemma ensure_dir_frame fl fs p fs1 out oe :
  ensure_dir fl fs p = (fs1, out, oe) ->
  fs_files fs1 = fs_files fs /\ fs_denied fs1 = fs_denied fs /\ fs_free fs1 = fs_free fs /\
  (forall e, oe = Some e -> exists k, e = OSError k).
Proof.
  unfold ensure_dir. set (d := dirname fl p).
  destruct (_ && _); [|by intros [= <- <- <-]].
  pose proof (makedirs_go_frame fl (S (length (to_chars d))) fs d) as Hfr.
  pose proof (makedirs_go_raise fl (S (length (to_chars d))) fs d) as Hr.
  unfold makedirs. destruct (makedirs_go _ _ _ _) as [fs' [e|]]; simpl in *;
    intros [= <- <- <-]; split_and!; naive_solver.
Qed.

(** [save_json] ends in one of two ways: it wrote the file with the
    success line last; or its last line reports an [OSError], every
    other file is as it was, and the file at the path is either as it
    was or truncated to a strict prefix of the dump. *)
Lemma save_json_cases fl fs data p :
  (exists dirs free out, save_json fl fs data p
     = (mk_fs dirs (setitem id (fs_files fs) p (dump 0 data)) (fs_denied fs) free,
        out ++ [MsgSavedTo p])) \/
  ((exists out k, (save_json fl fs data p).2 = out ++ [MsgSaveFailed p (OSError k)]) /\
   (fs_files (save_json fl fs data p).1 = fs_files fs \/
    exists n, n < length (to_chars (dump 0 data)) /\
      fs_files (save_json fl fs data p).1
      = setitem id (fs_files fs) p (of_chars (take n (to_chars (dump 0 data)))))).
Proof.
  unfold save_json, save_json_body. destruct (ensure_dir fl fs p) as [[fs1 out1] oe] eqn:He.
  apply ensure_dir_frame in He as (Hf & Hd & _ & Hr).
  destruct oe as [e|].
  { destruct (Hr e) as [k ->]; [done|]. right. split; [by exists out1, k|by left]. }
  destruct (open_write fl fs1 p (dump 0 data)) as [fs2 [e|]] eqn:Ho.
  - apply open_write_Some in Ho as ([k ->] & _ & _ & Hw). right. rewrite Hf in Hw.
    split; [by exists out1, k|done].
  - apply open_write_None in Ho as (_ & _ & Hden & Hw). left.
    destruct fs2 as [dirs2 files2 den2 free2]; simpl in *.
    rewrite Hw, Hf, Hden, Hd, app_nil_r. by exists dirs2, free2, out1.
Qed.

(** The lines [ensure_dir] prints on success: the created directory,
    when it was missing. *)
Definition created_line (fl : path_flavor) (fs : fsys) (p : string) : list msg :=
  if bool_decide (dirname fl p <> "") && negb (path_exists fs (dirname fl p))
  then [MsgCreatedDir (dirname fl p)] else [].

(** When every missing ancestor of the output directory can be created,
    the directory is writable and not a file, the output path is not a
    directory, and the device has room for the dump, [save_json]
    creates the missing directories, stores the dump at the path and
    prints the created directory (if any) and the success line. *)
Lemma save_json_result (fl : path_flavor) (fs : fsys) (data : json) (p : string) :
  Forall (creatable fl fs) (missing_dirs fl fs (dirname fl p)) ->
  dirname fl p ∉ fs_denied fs -> dirname fl p ∉ map fst (fs_files fs) ->
  p ∉ fs_dirs fs -> p <> dirname fl p -> has_room fs p (dump 0 data) ->
  exists free, save_json fl fs data p
    = (mk_fs (rev (missing_dirs fl fs (dirname fl p)) ++ fs_dirs fs)
             (setitem id (fs_files fs) p (dump 0 data)) (fs_denied fs) free,
       created_line fl fs p ++ [MsgSavedTo p]).
Proof.
  intros Hc Hden Hfile Hdir Hself Hroom. unfold save_json, save_json_body, ensure_dir, created_line.
  set (d := dirname fl p) in *.
  destruct (bool_decide (d <> "") && negb (path_exists fs d)) eqn:Hcase; simpl.
  - apply andb_true_iff in Hcase as [Hd%bool_decide_eq_true He%negb_true_iff].
    unfold makedirs. rewrite makedirs_go_missing by (done || lia).
    fold (missing_dirs fl fs d). set (c := missing_dirs fl fs d) in *. simpl.
    destruct (open_write_ok fl (mk_fs (rev c ++ fs_dirs fs) (fs_files fs) (fs_denied fs) (fs_free fs))
                p (dump 0 data)) as [free ->]; simpl; [| |done|done|by exists free].
    + right. apply elem_of_app. left. apply elem_of_rev. subst c.
      apply missing_go_last; [lia|done|done].
    + intros [Hp|]%elem_of_app; [|done]. rewrite elem_of_rev in Hp.
      pose proof (split_path_length fl p). unfold d, dirname in *.
      destruct (missing_dirs_elem _ _ _ _ Hc Hp); [done|lia].
  - assert (Hd : d = "" \/ d ∈ fs_dirs fs).
    { apply andb_false_iff in Hcase as [Hcase|Hcase].
      + left. apply bool_decide_eq_false in Hcase. by apply dec_stable.
      + right. apply negb_false_iff, path_exists_true in Hcase as [|]; [done|contradiction]. }
    assert (Hm : missing_dirs fl fs d = []).
    { apply missing_go_nil. destruct Hd as [|Hd]; [by left|right; apply path_exists_true; by left]. }
    rewrite Hm.
    destruct (open_write_ok fl fs p (dump 0 data)) as [free ->]; [done|done|done|done|].
    by exists free.
Qed.

(** C16 ([save_json_writes]): when every missing ancestor of the output
    directory can be created (it may be, has a last component other
    than [.], and its parent is not a file), the output directory is
    writable and not a file, the output path is not a directory, and
    the device has room for the dump, [save_json] stores
    [json.dump(data, indent=4)] at the path, leaves every other file as
    it was, and its last line reports the save. *)
Theorem save_json_writes (fl : path_flavor) (fs : fsys) (data : json) (p : string) :
  Forall (creatable fl fs) (missing_dirs fl fs (dirname fl p)) ->
  dirname fl p ∉ fs_denied fs -> dirname fl p ∉ map fst (fs_files fs) ->
  p ∉ fs_dirs fs -> p <> dirname fl p -> has_room fs p (dump 0 data) ->
  sget (fs_files (save_json fl fs data p).1) p = Some (dump 0 data) /\
  (forall q, q <> p -> sget (fs_files (save_json fl fs data p).1) q = sget (fs_files fs) q) /\
  last (save_json fl fs data p).2 = Some (MsgSavedTo p).
Proof.
  intros Hc Hden Hfile Hdir Hself Hroom.
  destruct (save_json_result fl fs data p Hc Hden Hfile Hdir Hself Hroom) as [free ->]. simpl.
  split_and!; auto with pipe.
Qed.

(** C22 ([save_json_creates_output_dir]): under the hypotheses of C16,
    the only directories [save_json] creates are the missing ancestors
    of [os.path.dirname(filepath)] and that directory itself, outermost
    first, and it prints "Created directory" for it exactly when it was
    missing (an existing directory is no error, spec 4.5), then the
    success line. *)
Theorem save_json_creates_output_dir (fl : path_flavor) (fs : fsys) (data : json) (p : string) :
  Forall (creatable fl fs) (missing_dirs fl fs (dirname fl p)) ->
  dirname fl p ∉ fs_denied fs -> dirname fl p ∉ map fst (fs_files fs) ->
  p ∉ fs_dirs fs -> p <> dirname fl p -> has_room fs p (dump 0 data) ->
  fs_dirs (save_json fl fs data p).1 = rev (missing_dirs fl fs (dirname fl p)) ++ fs_dirs fs /\
  (save_json fl fs data p).2
    = (if path_exists fs (dirname fl p) || bool_decide (dirname fl p = "") then []
       else [MsgCreatedDir (dirname fl p)]) ++ [MsgSavedTo p].
Proof.
  intros Hc Hden Hfile Hdir Hself Hroom.
  destruct (save_json_result fl fs data p Hc Hden Hfile Hdir Hself Hroom) as [free ->].
  split; [done|]. unfold created_line. simpl. f_equal.
  destruct (path_exists fs _), (bool_decide (dirname fl p = "")) eqn:He; simpl;
    repeat (case_bool_decide; simpl); try done; apply bool_decide_eq_true in He || apply bool_decide_eq_false in He;
    naive_solver.
Qed.

(** C29 ([save_json_keeps_partial_dirs]): when the output directory is
    missing and one of the directories [os.makedirs] has to create may
    not be created, [save_json] writes no file and prints only the
    failure ([PermissionError]), not "Created directory"; the
    directories created before the denied one, outermost first, stay:
    nothing is rolled back. *)
Theorem save_json_keeps_partial_dirs (fl : path_flavor) (fs : fsys) (data : json) (p : string) :
  dirname fl p <> "" -> path_exists fs (dirname fl p) = false ->
  Forall (mkdir_shape fl fs) (missing_dirs fl fs (dirname fl p)) ->
  first_denied fs (missing_dirs fl fs (dirname fl p)) < length (missing_dirs fl fs (dirname fl p)) ->
  save_json fl fs data p
  = (mk_fs (rev (take (first_denied fs (missing_dirs fl fs (dirname fl p)))
                      (missing_dirs fl fs (dirname fl p))) ++ fs_dirs fs)
           (fs_files fs) (fs_denied fs) (fs_free fs),
     [MsgSaveFailed p (OSError PermissionError)]).
Proof.
  intros Hd He Hc Hk. unfold save_json, save_json_body, ensure_dir.
  rewrite bool_decide_eq_true_2, He by done. unfold makedirs.
  rewrite makedirs_go_chain by (done || lia). fold (missing_dirs fl fs (dirname fl p)).
  unfold makedirs_outcome. by rewrite decide_False by lia.
Qed.

(** When the output directory cannot be written, [save_json] writes no
    file (the open fails before truncating) and its last line reports
    an [OSError]. *)
Lemma save_json_denied (fl : path_flavor) (fs : fsys) (data : json) (p : string) :
  dirname fl p ∈ fs_denied fs ->
  fs_files (save_json fl fs data p).1 = fs_files fs /\
  exists out k, (save_json fl fs data p).2 = out ++ [MsgSaveFailed p (OSError k)].
Proof.
  intros Hden. unfold save_json, save_json_body.
  destruct (ensure_dir fl fs p) as [[fs1 out1] oe] eqn:He.
  apply ensure_dir_frame in He as (Hf & Hd & _ & Hr).
  destruct oe as [e|]; [destruct (Hr e) as [k ->]; [done|]; split; [done|by exists out1, k]|].
  destruct (open_write fl fs1 p (dump 0 data)) as [fs2 oe] eqn:Ho.
  revert Ho. unfold open_write. rewrite Hd in *.
  repeat case_bool_decide; try done; intros; simplify_eq/=; split; eauto.
Qed.

(** C17 ([save_json_outcome]): [save_json] always returns to its caller;
    either it stored [json.dump(data, indent=4)] at the path and its last
    line reports the save, or its last line reports the [OSError] raised,
    every other file is unchanged, and the file at the path is either
    unchanged or, when the write ran out of space after the truncating
    [open(filepath, "w")], a strict prefix of the dump: a partial report,
    which the spec (section 5) says must never be left. *)
Theorem save_json_outcome (fl : path_flavor) (fs : fsys) (data : json) (p : string) :
  (last (save_json fl fs data p).2 = Some (MsgSavedTo p) /\
   sget (fs_files (save_json fl fs data p).1) p = Some (dump 0 data)) \/
  ((exists k, last (save_json fl fs data p).2 = Some (MsgSaveFailed p (OSError k))) /\
   (forall q, q <> p -> sget (fs_files (save_json fl fs data p).1) q = sget (fs_files fs) q) /\
   (sget (fs_files (save_json fl fs data p).1) p = sget (fs_files fs) p \/
    exists n, n < length (to_chars (dump 0 data)) /\
      sget (fs_files (save_json fl fs data p).1) p = Some (of_chars (take n (to_chars (dump 0 data)))))).
Proof.
  destruct (save_json_cases fl fs data p) as [(dirs & free & out & ->)|((out & k & Ho) & Hf)].
  - left. simpl. auto with pipe.
  - right. split; [exists k; rewrite Ho; apply last_snoc|].
    destruct Hf as [-> | (n & Hn & ->)]; [by split; [|left]|].
    split; [auto with pipe|]. right. exists n. auto with pipe.
Qed.

(** When the output directory exists and is writable but the device
    cannot hold the dump, the truncating open succeeds and the write
    fails: the path is left holding a strict prefix of the dump, and
    the failure line reports [ENOSPC]. *)
Lemma save_json_no_room (fl : path_flavor) (fs : fsys) (data : json) (p : string) :
  dirname fl p = "" \/ dirname fl p ∈ fs_dirs fs -> dirname fl p ∉ fs_denied fs ->
  p ∉ fs_dirs fs -> ~ has_room fs p (dump 0 data) ->
  exists n, n < length (to_chars (dump 0 data)) /\
    sget (fs_files (save_json fl fs data p).1) p = Some (of_chars (take n (to_chars (dump 0 data)))) /\
    (save_json fl fs data p).2 = [MsgSaveFailed p (OSError NoSpaceLeft)].
Proof.
  intros Hd Hden Hdir Hroom. unfold save_json, save_json_body, ensure_dir.
  assert (Hskip : bool_decide (dirname fl p <> "") && negb (path_exists fs (dirname fl p)) = false).
  { destruct Hd as [Hd|Hd]; [rewrite bool_decide_eq_false_2; [done|tauto]|].
    rewrite (proj2 (path_exists_true fs _)) by by left. by rewrite andb_false_r. }
  rewrite Hskip. unfold open_write, has_room in *.
  rewrite (bool_decide_eq_true_2 (_ \/ _)) by done. cbn [negb].
  rewrite bool_decide_eq_false_2 by done. rewrite bool_decide_eq_false_2 by done.
  destruct (fs_free fs) as [n|]; [|done]. rewrite decide_False by done. simpl.
  eexists. split; [|auto with pipe]. lia.
Qed.

(** On a device that is not size-limited no write runs out of space:
    [save_json] either stores the dump at the path or leaves every file
    as it was, and the device stays unbounded. *)
Lemma save_json_unbounded (fl : path_flavor) (fs : fsys) (data : json) (p : string) :
  fs_free fs = None ->
  fs_free (save_json fl fs data p).1 = None /\
  (fs_files (save_json fl fs data p).1 = fs_files fs \/
   fs_files (save_json fl fs data p).1 = setitem id (fs_files fs) p (dump 0 data)).
Proof.
  intros Hfree. unfold save_json, save_json_body.
  destruct (ensure_dir fl fs p) as [[fs1 out1] oe] eqn:He.
  apply ensure_dir_frame in He as (Hf & _ & Hfr & _).
  destruct oe as [e|]; simpl; [rewrite Hfr, Hf; auto|].
  unfold open_write. rewrite Hfr, Hfree, <- Hf. repeat case_match; simplify_eq/=; split; auto; congruence.
Qed.

(** C21 ([posix_save_json_in_cwd]): under POSIX a path without ['/'],
    such as the scripts' [r"C:\MongoDB\..."], has no directory part:
    [save_json] creates no directory and, when the current directory is
    writable, the path names no directory and the device has room,
    writes a file whose name is the whole path, backslashes included. *)
Theorem posix_save_json_in_cwd (fs : fsys) (data : json) (p : string) :
  Forall (fun c => c <> "/"%char) (to_chars p) ->
  ""%string ∉ fs_denied fs -> p ∉ fs_dirs fs -> has_room fs p (dump 0 data) ->
  fs_dirs (save_json Posix fs data p).1 = fs_dirs fs /\
  sget (fs_files (save_json Posix fs data p).1) p = Some (dump 0 data).
Proof.
  intros Hp Hcwd Hdir Hroom.
  assert (Hd : dirname Posix p = ""%string).
  { unfold dirname, split_path. simpl. rewrite head_part_no_sep; [done|].
    eapply Forall_impl; [exact Hp|]. intros c Hc. simpl. by apply bool_decide_eq_false_2. }
  unfold save_json, save_json_body, ensure_dir. rewrite Hd. simpl.
  destruct (open_write_ok Posix fs p (dump 0 data)) as [free ->]; rewrite ?Hd; [by left|done|done|done|].
  cbn [fst fs_dirs fs_files]. split; [done|auto with pipe].
Qed.
