(* ===== verification/JsonParse.v ===== *)
(** * Reading the report back

    The spec (section 8) asks that the JSON [save_json] writes, when
    parsed, give back the report.  This file holds a reader for the JSON
    [json.dump(data, indent=4)] produces from the scripts' data: objects,
    non-negative integers, and strings with the escapes of
    [ensure_ascii]: a backslash followed by a quote, a backslash, a slash,
    one of the letters b, f, n, r, t, or u and four hexadecimal digits
    naming a code point below 256.  It is the consumer's side of
    the output file: no line of the scripts parses JSON, so its
    definitions are a specification, not a translation.

    The reader takes fuel; [parse_value_fuel_ge] shows that any fuel
    beyond the input's length gives the same result, so [parse_json],
    which gives one more unit than the text's length, never runs short.
    [parse_value_dump] and [parse_json_complete] show that reading
    [dump 0 j] gives [j] back (what [Main]'s theorem on the output file
    rests on), and
    [report_shape] states the shape section 4 of the spec fixes for the
    report. *)

From S2P Require Import Prelude PyValue PyDict Aggregate Paths SaveJson.
From stdpp Require Import pretty.
From Stdlib Require Import Ascii.

(** ** Lexical helpers *)

Definition is_ws (c : ascii) : bool :=
  let n := nat_of_ascii c in
  bool_decide (n = 32 \/ n = 10 \/ n = 9 \/ n = 13).

Fixpoint skip_ws (s : string) : string :=
  match s with
  | String c s' => if is_ws c then skip_ws s' else s
  | EmptyString => EmptyString
  end.

Definition digit_val (c : ascii) : option N :=
  let n := nat_of_ascii c in
  if decide (48 <= n <= 57) then Some (N.of_nat (n - 48)) else None.

(** All leading digits, read into [acc]. *)
Fixpoint read_num (acc : N) (s : string) : N * string :=
  match s with
  | String c s' =>
      match digit_val c with
      | Some d => read_num (acc * 10 + d)%N s'
      | None => (acc, s)
      end
  | EmptyString => (acc, s)
  end.

Definition hex_val (c : ascii) : option nat :=
  let n := nat_of_ascii c in
  if decide (48 <= n <= 57) then Some (n - 48)
  else if decide (97 <= n <= 102) then Some (n - 87)
  else if decide (65 <= n <= 70) then Some (n - 55)
  else None.

(** The character a [\uXXXX] escape stands for, when it is below 256. *)
Definition hex4 (a b c d : ascii) : option ascii :=
  match hex_val a, hex_val b, hex_val c, hex_val d with
  | Some x1, Some x2, Some x3, Some x4 =>
      let n := ((x1 * 16 + x2) * 16 + x3) * 16 + x4 in
      if decide (n < 256) then Some (ascii_of_nat n) else None
  | _, _, _, _ => None
  end.

(** The one-letter escapes. *)
Definition simple_escape (e : ascii) : option ascii :=
  let n := nat_of_ascii e in
  if decide (e = dq) then Some dq
  else if decide (e = bs) then Some bs
  else if decide (n = 47) then Some "/"%char
  else if decide (n = 98) then Some (ascii_of_nat 8)
  else if decide (n = 102) then Some (ascii_of_nat 12)
  else if decide (n = 110) then Some (ascii_of_nat 10)
  else if decide (n = 114) then Some (ascii_of_nat 13)
  else if decide (n = 116) then Some (ascii_of_nat 9)
  else None.

(** The body of a string literal after its opening quote: the decoded
    text and what follows the closing quote. *)
Fixpoint parse_str (s : string) : option (string * string) :=
  match s with
  | EmptyString => None
  | String c s' =>
      if decide (c = dq) then Some (EmptyString, s')
      else if decide (c = bs) then
        match s' with
        | String e s'' =>
            if decide (nat_of_ascii e = 117) then
              match s'' with
              | String a (String b (String c' (String d r))) =>
                  match hex4 a b c' d, parse_str r with
                  | Some x, Some (t, r') => Some (String x t, r')
                  | _, _ => None
                  end
              | _ => None
              end
            else
              match simple_escape e, parse_str s'' with
              | Some x, Some (t, r') => Some (String x t, r')
              | _, _ => None
              end
        | EmptyString => None
        end
      else
        match parse_str s' with
        | Some (t, r') => Some (String c t, r')
        | None => None
        end
  end.

(** ** Values and objects *)

Fixpoint parse_value (fuel : nat) (s : string) : option (json * string) :=
  match fuel with
  | 0 => None
  | S f =>
      match skip_ws s with
      | String c r =>
          if decide (c = "{"%char) then
            match skip_ws r with
            | String c' r' => if decide (c' = "}"%char) then Some (JObj [], r') else parse_members f r
            | EmptyString => None
            end
          else if decide (c = dq) then
            match parse_str r with
            | Some (t, r') => Some (JStr t, r')
            | None => None
            end
          else
            match digit_val c with
            | Some d => let '(n, r') := read_num d r in Some (JInt (N.to_nat n), r')
            | None => None
            end
      | EmptyString => None
      end
  end
(** [key: value] members up to the closing brace. *)
with parse_members (fuel : nat) (s : string) : option (json * string) :=
  match fuel with
  | 0 => None
  | S f =>
      match skip_ws s with
      | String q r =>
          if decide (q = dq) then
            match parse_str r with
            | Some (k, r1) =>
                match skip_ws r1 with
                | String colon r2 =>
                    if decide (colon = ":"%char) then
                      match parse_value f r2 with
                      | Some (v, r3) =>
                          match skip_ws r3 with
                          | String sep r4 =>
                              if decide (sep = ","%char) then
                                match parse_members f r4 with
                                | Some (JObj fs, r5) => Some (JObj ((k, v) :: fs), r5)
                                | _ => None
                                end
                              else if decide (sep = "}"%char) then Some (JObj [(k, v)], r4)
                              else None
                          | EmptyString => None
                          end
                      | None => None
                      end
                    else None
                | EmptyString => None
                end
            | None => None
            end
          else None
      | EmptyString => None
      end
  end.

(** A whole document: one value and nothing but white space after it. *)
Definition parse_json (s : string) : option json :=
  match parse_value (S (String.length s)) s with
  | Some (j, r) => match skip_ws r with EmptyString => Some j | _ => None end
  | None => None
  end.

(** ** The reader consumes its input *)

Lemma skip_ws_len s : String.length (skip_ws s) <= String.length s.
Proof. induction s as [|c s IH]; simpl; [done|]. destruct (is_ws c); simpl; lia. Qed.

Lemma read_num_len acc s : String.length (read_num acc s).2 <= String.length s.
Proof.
  revert acc. induction s as [|c s IH]; intros acc; simpl; [done|].
  destruct (digit_val c); simpl; [specialize (IH (acc * 10 + n)%N); lia|done].
Qed.

Lemma parse_str_len s t r : parse_str s = Some (t, r) -> String.length r < String.length s.
Proof.
  remember (String.length s) as n eqn:Hn. revert s t r Hn.
  induction n as [n IH] using lt_wf_ind. intros [|c s] t r Hn; simpl; [done|].
  simpl in Hn. case_decide; [intros [= _ <-]; lia|]. case_decide.
  - destruct s as [|e s]; [done|]. case_decide.
    + destruct s as [|a [|b [|c' [|d s]]]]; try done.
      destruct (hex4 a b c' d), (parse_str s) as [[t' r']|] eqn:Hp; try done.
      intros [= _ <-]. simpl in Hn. eapply (IH (String.length s)) in Hp; [|simpl in *; lia|done]. lia.
    + destruct (simple_escape e), (parse_str s) as [[t' r']|] eqn:Hp; try done.
      intros [= _ <-]. simpl in Hn. eapply (IH (String.length s)) in Hp; [|simpl in *; lia|done]. lia.
  - destruct (parse_str s) as [[t' r']|] eqn:Hp; [|done].
    intros [= _ <-]. eapply (IH (String.length s)) in Hp; [|simpl in *; lia|done]. lia.
Qed.

(** [skip_ws s] is [s] or a suffix of it. *)
Lemma skip_ws_cons s c r : skip_ws s = String c r -> String.length r < String.length s.
Proof.
  intros Hs. pose proof (skip_ws_len s) as Hl. rewrite Hs in Hl. simpl in Hl. lia.
Qed.

Lemma parse_len f :
  (forall s j r, parse_value f s = Some (j, r) -> String.length r < String.length s) /\
  (forall s j r, parse_members f s = Some (j, r) -> String.length r < String.length s).
Proof.
  induction f as [|f [IHv IHm]]; [split; intros; done|]. split.
  - intros s j r. simpl. destruct (skip_ws s) as [|c r0] eqn:Hs; [done|].
    pose proof (skip_ws_cons _ _ _ Hs) as Hl0.
    case_decide.
    + destruct (skip_ws r0) as [|c' r'] eqn:Hs'; [done|].
      pose proof (skip_ws_cons _ _ _ Hs') as Hl1. case_decide.
      * intros [= _ <-]. lia.
      * intros Hm. apply IHm in Hm. lia.
    + case_decide.
      * destruct (parse_str r0) as [[t r']|] eqn:Hp; [|done].
        intros [= _ <-]. apply parse_str_len in Hp. lia.
      * destruct (digit_val c); [|done].
        destruct (read_num n r0) as [m r'] eqn:Hn. intros [= _ <-].
        pose proof (read_num_len n r0) as Hr. rewrite Hn in Hr. simpl in Hr. lia.
  - intros s j r. simpl. destruct (skip_ws s) as [|q r0] eqn:Hs; [done|].
    pose proof (skip_ws_cons _ _ _ Hs) as Hl0. case_decide; [|done].
    destruct (parse_str r0) as [[k r1]|] eqn:Hp; [|done]. apply parse_str_len in Hp.
    destruct (skip_ws r1) as [|colon r2] eqn:Hs1; [done|].
    pose proof (skip_ws_cons _ _ _ Hs1). case_decide; [|done].
    destruct (parse_value f r2) as [[v r3]|] eqn:Hv; [|done]. apply IHv in Hv.
    destruct (skip_ws r3) as [|sep r4] eqn:Hs3; [done|].
    pose proof (skip_ws_cons _ _ _ Hs3). case_decide.
    + destruct (parse_members f r4) as [[[| |fs] r5]|] eqn:Hm; try done.
      intros [= _ <-]. apply IHm in Hm. lia.
    + case_decide; [|done]. intros [= _ <-]. lia.
Qed.

(** The bodies of the two readers, with their recursive calls as
    parameters. *)
Definition value_step (members : string -> option (json * string)) (s : string)
  : option (json * string) :=
  match skip_ws s with
  | String c r =>
      if decide (c = "{"%char) then
        match skip_ws r with
        | String c' r' => if decide (c' = "}"%char) then Some (JObj [], r') else members r
        | EmptyString => None
        end
      else if decide (c = dq) then
        match parse_str r with
        | Some (t, r') => Some (JStr t, r')
        | None => None
        end
      else
        match digit_val c with
        | Some d => let '(n, r') := read_num d r in Some (JInt (N.to_nat n), r')
        | None => None
        end
  | EmptyString => None
  end.

Definition members_step (value members : string -> option (json * string)) (s : string)
  : option (json * string) :=
  match skip_ws s with
  | String q r =>
      if decide (q = dq) then
        match parse_str r with
        | Some (k, r1) =>
            match skip_ws r1 with
            | String colon r2 =>
                if decide (colon = ":"%char) then
                  match value r2 with
                  | Some (v, r3) =>
                      match skip_ws r3 with
                      | String sep r4 =>
                          if decide (sep = ","%char) then
                            match members r4 with
                            | Some (JObj fs, r5) => Some (JObj ((k, v) :: fs), r5)
                            | _ => None
                            end
                          else if decide (sep = "}"%char) then Some (JObj [(k, v)], r4)
                          else None
                      | EmptyString => None
                      end
                  | None => None
                  end
                else None
            | EmptyString => None
            end
        | None => None
        end
      else None
  | EmptyString => None
  end.

Lemma parse_value_S f s : parse_value (S f) s = value_step (parse_members f) s.
Proof. reflexivity. Qed.
Lemma parse_members_S f s : parse_members (S f) s = members_step (parse_value f) (parse_members f) s.
Proof. reflexivity. Qed.

Lemma value_step_ext g1 g2 s :
  (forall r, String.length r < String.length s -> g1 r = g2 r) ->
  value_step g1 s = value_step g2 s.
Proof.
  intros Hg. unfold value_step. destruct (skip_ws s) as [|c r0] eqn:Hs; [done|].
  pose proof (skip_ws_cons _ _ _ Hs). case_decide; [|done].
  destruct (skip_ws r0); [done|]. case_decide; [done|]. apply Hg. lia.
Qed.

Lemma members_step_ext v1 v2 g1 g2 s :
  (forall r, String.length r < String.length s -> v1 r = v2 r) ->
  (forall r, String.length r < String.length s -> g1 r = g2 r) ->
  (forall r j r', v1 r = Some (j, r') -> String.length r' < String.length r) ->
  members_step v1 g1 s = members_step v2 g2 s.
Proof.
  intros Hv Hg Hlen. unfold members_step. destruct (skip_ws s) as [|q r0] eqn:Hs; [done|].
  pose proof (skip_ws_cons _ _ _ Hs). case_decide; [|done].
  destruct (parse_str r0) as [[k r1]|] eqn:Hp; [|done]. apply parse_str_len in Hp.
  destruct (skip_ws r1) as [|colon r2] eqn:Hs1; [done|].
  pose proof (skip_ws_cons _ _ _ Hs1). case_decide; [|done].
  rewrite <- Hv by lia. destruct (v1 r2) as [[v r3]|] eqn:Hv1; [|done].
  apply Hlen in Hv1. destruct (skip_ws r3) as [|sep r4] eqn:Hs3; [done|].
  pose proof (skip_ws_cons _ _ _ Hs3). by rewrite Hg by lia.
Qed.

(** One more unit of fuel changes nothing once the fuel exceeds the
    input's length. *)
Lemma parse_fuel_step f :
  (forall s, String.length s < f -> parse_value f s = parse_value (S f) s) /\
  (forall s, String.length s < f -> parse_members f s = parse_members (S f) s).
Proof.
  induction f as [|f [IHv IHm]]; [split; intros; lia|]. split.
  - intros s Hlen. rewrite !parse_value_S. apply value_step_ext. intros r Hr. apply IHm. lia.
  - intros s Hlen. rewrite !parse_members_S. apply members_step_ext.
    + intros r Hr. apply IHv. lia.
    + intros r Hr. apply IHm. lia.
    + apply (parse_len f).
Qed.

Lemma parse_value_fuel_ge s f :
  String.length s < f -> parse_value f s = parse_value (S (String.length s)) s.
Proof.
  induction f as [|f IH]; intros Hf; [lia|].
  destruct (decide (String.length s < f)) as [Hlt|Hge].
  - rewrite <- (proj1 (parse_fuel_step f) s Hlt). by apply IH.
  - by replace f with (String.length s) by lia.
Qed.


(** ** Reading back what [dump] writes *)

(** One escaped character decodes to itself, whatever follows it. *)
Lemma parse_str_escape_char c t :
  parse_str (escape_char c ++ t) =
  match parse_str t with Some (u, r) => Some (String c u, r) | None => None end.
Proof. destruct c as [[] [] [] [] [] [] [] []]; reflexivity. Qed.

Lemma parse_str_escape s rest :
  parse_str (escape s ++ String dq rest) = Some (s, rest).
Proof.
  induction s as [|c s IH]; [reflexivity|].
  simpl. rewrite sapp_assoc, parse_str_escape_char, IH. reflexivity.
Qed.

(** Numbers: [pretty] writes the decimal digits of [x] with
    [pretty_N_go], and [read_num] reads them back. *)
Definition starts_with_digit (s : string) : bool :=
  match s with
  | String c _ => bool_decide (is_Some (digit_val c))
  | EmptyString => false
  end.

Lemma digit_val_pretty_char m : (m < 10)%N -> digit_val (pretty_N_char m) = Some m.
Proof.
  intros Hm.
  assert (m = 0 \/ m = 1 \/ m = 2 \/ m = 3 \/ m = 4 \/ m = 5 \/ m = 6 \/ m = 7 \/ m = 8 \/ m = 9)%N
    as Hcases by lia.
  repeat destruct Hcases as [->|Hcases]; [..|subst]; reflexivity.
Qed.

Lemma digit_val_Some c d :
  digit_val c = Some d -> is_ws c = false /\ c <> "{"%char /\ c <> dq.
Proof.
  unfold digit_val, is_ws. case_decide as Hr; [|done]. intros _.
  split; [apply bool_decide_eq_false; lia|].
  split; intros ->; vm_compute in Hr; lia.
Qed.

Lemma read_num_stop acc s : starts_with_digit s = false -> read_num acc s = (acc, s).
Proof.
  destruct s as [|c s]; [done|]. cbn. intros Hs.
  destruct (digit_val c); [|done]. apply bool_decide_eq_false in Hs. naive_solver.
Qed.

Lemma pretty_N_go_app x s t :
  (pretty_N_go x s ++ t)%string = pretty_N_go x (s ++ t).
Proof.
  revert s. induction (N.lt_wf_0 x) as [x _ IH]; intros s.
  destruct (decide (x = 0)%N) as [->|Hx]; [by rewrite !pretty_N_go_0|].
  rewrite (pretty_N_go_step x s), (pretty_N_go_step x (s ++ t)) by lia.
  rewrite IH by (apply N.div_lt; lia). reflexivity.
Qed.

Lemma read_num_pretty x : forall acc s,
  exists k, read_num acc (pretty_N_go x s) = read_num (acc * 10 ^ k + x)%N s.
Proof.
  induction (N.lt_wf_0 x) as [x _ IH]; intros acc s.
  destruct (decide (x = 0)%N) as [->|Hx].
  { exists 0%N. rewrite pretty_N_go_0. f_equal. lia. }
  rewrite pretty_N_go_step by lia.
  destruct (IH (x / 10)%N ltac:(apply N.div_lt; lia) acc
              (String (pretty_N_char (x mod 10)) s)) as [k ->].
  exists (N.succ k). cbn [read_num]. rewrite digit_val_pretty_char by (apply N.mod_lt; lia).
  f_equal. rewrite N.pow_succ_r'.
  set (q := (x / 10)%N). set (m := (x mod 10)%N).
  assert (x = 10 * q + m)%N as Hx' by (apply N.div_mod; lia).
  clearbody q m. subst x. ring.
Qed.

Lemma pretty_N_go_head x s :
  (0 < x)%N -> exists c r d, pretty_N_go x s = String c r /\ digit_val c = Some d.
Proof.
  revert s. induction (N.lt_wf_0 x) as [x _ IH]; intros s Hx.
  rewrite pretty_N_go_step by lia.
  destruct (decide (x / 10 = 0)%N) as [Hq|Hq].
  - rewrite Hq, pretty_N_go_0. exists (pretty_N_char (x mod 10)), s, (x mod 10)%N. split; [done|].
    apply digit_val_pretty_char, N.mod_lt. lia.
  - apply IH; [apply N.div_lt; lia|]. by apply N.neq_0_lt_0.
Qed.

(** White space: the line breaks and indentation [dump] puts between
    tokens are skipped. *)
Fixpoint all_ws (s : string) : bool :=
  match s with
  | EmptyString => true
  | String c s' => is_ws c && all_ws s'
  end.

Lemma all_ws_app a b : all_ws (a ++ b) = all_ws a && all_ws b.
Proof. induction a as [|c a IH]; [done|]. rewrite sapp_cons. simpl. rewrite IH. apply andb_assoc. Qed.

Lemma all_ws_nl_indent l : all_ws (nl_indent l) = true.
Proof.
  unfold nl_indent. rewrite all_ws_app. apply andb_true_intro. split; [done|].
  induction l as [|[|l] IH]; [reflexivity|reflexivity|].
  change (all_ws ("    " ++ "" ++ String.concat "" (repeat "    " (S l))) = true).
  by rewrite !all_ws_app, IH.
Qed.

Lemma skip_ws_app w x : all_ws w = true -> skip_ws (w ++ x) = skip_ws x.
Proof.
  induction w as [|c w IH]; [done|]. rewrite sapp_cons. simpl.
  intros [-> Hw]%andb_prop. by apply IH.
Qed.

Lemma value_step_ws g w x : all_ws w = true -> value_step g (w ++ x) = value_step g x.
Proof. intros Hw. unfold value_step. by rewrite skip_ws_app. Qed.

Lemma members_step_ws v g w x : all_ws w = true -> members_step v g (w ++ x) = members_step v g x.
Proof. intros Hw. unfold members_step. by rewrite skip_ws_app. Qed.

(** A successful read stays successful with more fuel. *)
Lemma value_step_mono g1 g2 s x :
  (forall r y, g1 r = Some y -> g2 r = Some y) ->
  value_step g1 s = Some x -> value_step g2 s = Some x.
Proof. intros Hg. unfold value_step. repeat case_match; naive_solver. Qed.

Lemma members_step_mono v1 v2 g1 g2 s x :
  (forall r y, v1 r = Some y -> v2 r = Some y) ->
  (forall r y, g1 r = Some y -> g2 r = Some y) ->
  members_step v1 g1 s = Some x -> members_step v2 g2 s = Some x.
Proof.
  intros Hv Hg. unfold members_step.
  destruct (skip_ws s) as [|q r0]; [done|]. case_decide; [|done].
  destruct (parse_str r0) as [[k r1]|]; [|done].
  destruct (skip_ws r1) as [|colon r2]; [done|]. case_decide; [|done].
  destruct (v1 r2) as [[v r3]|] eqn:E1; [|done]. rewrite (Hv _ _ E1).
  destruct (skip_ws r3) as [|sep r4]; [done|]. case_decide; [|done].
  destruct (g1 r4) as [[j r5]|] eqn:E2; [|done]. by rewrite (Hg _ _ E2).
Qed.

Lemma parse_mono f :
  (forall s x, parse_value f s = Some x -> parse_value (S f) s = Some x) /\
  (forall s x, parse_members f s = Some x -> parse_members (S f) s = Some x).
Proof.
  induction f as [|f [IHv IHm]]; [done|]. split; intros s x.
  - rewrite !parse_value_S. by apply value_step_mono.
  - rewrite !parse_members_S. by apply members_step_mono.
Qed.

Lemma parse_value_mono f f' s x :
  f <= f' -> parse_value f s = Some x -> parse_value f' s = Some x.
Proof. induction 1; [done|]. intros. by apply (proj1 (parse_mono _)), IHle. Qed.

Lemma parse_members_mono f f' s x :
  f <= f' -> parse_members f s = Some x -> parse_members f' s = Some x.
Proof. induction 1; [done|]. intros. by apply (proj2 (parse_mono _)), IHle. Qed.

Lemma quote_app s t : (quote s ++ t)%string = String dq (escape s ++ String dq t).
Proof. unfold quote. by str_norm. Qed.

Lemma is_ws_dq : is_ws dq = false.
Proof. reflexivity. Qed.

Lemma value_step_digit g c r d :
  digit_val c = Some d ->
  value_step g (String c r) = Some (JInt (N.to_nat (read_num d r).1), (read_num d r).2).
Proof.
  intros Hd. destruct (digit_val_Some _ _ Hd) as (Hws & Hb & Hq).
  unfold value_step. cbn [skip_ws]. rewrite Hws, !decide_False, Hd by done.
  by destruct (read_num d r).
Qed.

(** [pretty n] reads back as [n] when no digit follows it. *)
Lemma value_step_pretty g (n : nat) t :
  starts_with_digit t = false -> value_step g (pretty n ++ t) = Some (JInt n, t).
Proof.
  intros Ht. unfold pretty, pretty_nat. unfold pretty, pretty_N. cbv beta. case_decide as Hn.
  - change ("0" ++ t)%string with (String "0" t).
    rewrite (value_step_digit _ _ _ 0%N), read_num_stop by done.
    simpl. do 3 f_equal. lia.
  - rewrite pretty_N_go_app, sapp_nil_l.
    destruct (pretty_N_go_head (N.of_nat n) t) as (c & r & d & E & Hd); [lia|].
    destruct (read_num_pretty (N.of_nat n) 0 t) as [k Hk].
    rewrite E in Hk. cbn [read_num] in Hk. rewrite Hd in Hk.
    rewrite E, (value_step_digit _ _ _ d Hd).
    replace (0 * 10 + d)%N with d in Hk by lia. rewrite Hk.
    replace (0 * 10 ^ k + N.of_nat n)%N with (N.of_nat n) by lia.
    rewrite read_num_stop by done. simpl. by rewrite Nat2N.id.
Qed.

Lemma value_step_quote g s t : value_step g (quote s ++ t) = Some (JStr s, t).
Proof.
  unfold value_step. rewrite quote_app. cbn [skip_ws]. rewrite is_ws_dq.
  rewrite decide_False, decide_True, parse_str_escape by done. done.
Qed.

Lemma value_step_empty_obj g t : value_step g ("{}" ++ t) = Some (JObj [], t).
Proof. reflexivity. Qed.

(** What [dump l v] followed by [t] reads back as, from any fuel on. *)
Definition reads_back (v : json) : Prop :=
  forall l w t, all_ws w = true -> starts_with_digit t = false ->
  exists f, parse_value f (w ++ dump l v ++ t) = Some (v, t).

(** The reader's steps over one member, before the rest of the object. *)
Lemma members_step_member v1 g l k v rest :
  v1 (String " " (dump (S l) v ++ rest)) = Some (v, rest) ->
  members_step v1 g (member_text l (k, v) ++ rest) =
  match skip_ws rest with
  | String sep r4 =>
      if decide (sep = ","%char) then
        match g r4 with
        | Some (JObj fs, r5) => Some (JObj ((k, v) :: fs), r5)
        | _ => None
        end
      else if decide (sep = "}"%char) then Some (JObj [(k, v)], r4)
      else None
  | EmptyString => None
  end.
Proof.
  intros Hv. unfold members_step, member_text. simpl fst. simpl snd.
  str_norm. rewrite quote_app. cbn [skip_ws]. rewrite is_ws_dq, decide_True by done.
  rewrite parse_str_escape. str_norm. cbn [skip_ws].
  change (is_ws ":"%char) with false. cbv iota.
  rewrite decide_True by done. by rewrite Hv.
Qed.

Lemma starts_with_digit_nl l x : starts_with_digit (nl_indent l ++ x) = false.
Proof. unfold nl_indent, newline. str_norm. reflexivity. Qed.

Lemma concat_more sep x y l :
  String.concat sep (x :: y :: l) = (x ++ sep ++ String.concat sep (y :: l))%string.
Proof. reflexivity. Qed.

(** The members of a non-empty object, each of which reads back, are
    read back in order. *)
Lemma members_dump l fs : forall kv,
  Forall (fun kv => reads_back kv.2) (kv :: fs) ->
  forall w t, all_ws w = true ->
  exists f, parse_members f
    (w ++ String.concat ("," ++ nl_indent (S l)) (map (member_text l) (kv :: fs))
       ++ nl_indent l ++ "}" ++ t) = Some (JObj (kv :: fs), t).
Proof.
  induction fs as [|kv' fs IH]; intros [k v] Hall w t Hw;
    inversion Hall as [|? ? Hv Hrest]; subst; simpl in Hv.
  - destruct (Hv (S l) " " (nl_indent l ++ "}" ++ t)%string) as [f Hf];
      [done|apply starts_with_digit_nl|].
    exists (S f). rewrite parse_members_S, members_step_ws by done. cbn [map String.concat].
    rewrite (members_step_member _ _ _ _ _ _ Hf).
    rewrite skip_ws_app by apply all_ws_nl_indent. reflexivity.
  - destruct (IH kv' Hrest (nl_indent (S l)) t (all_ws_nl_indent _)) as [f2 Hf2].
    set (sep := ("," ++ nl_indent (S l))%string) in *.
    set (rest := (String.concat sep (map (member_text l) (kv' :: fs)) ++ nl_indent l ++ "}" ++ t)%string).
    destruct (Hv (S l) " " (sep ++ rest)%string) as [f1 Hf1]; [done|reflexivity|].
    exists (S (max f1 f2)). rewrite parse_members_S, members_step_ws by done.
    cbn [map]. rewrite concat_more. fold (map (member_text l) (kv' :: fs)).
    rewrite !sapp_assoc. fold rest.
    rewrite (members_step_member _ _ _ _ _ (sep ++ rest)%string).
    + change (skip_ws (sep ++ rest)%string) with (String "," (nl_indent (S l) ++ rest)%string). cbv iota.
      rewrite decide_True by done.
      rewrite (parse_members_mono f2 (max f1 f2) (nl_indent (S l) ++ rest)%string (JObj (kv' :: fs), t));
        [done|lia|exact Hf2].
    + apply (parse_value_mono f1); [lia|done].
Qed.

Lemma value_step_brace g r :
  value_step g (String "{" r) =
  match skip_ws r with
  | String c' r' => if decide (c' = "}"%char) then Some (JObj [], r') else g r
  | EmptyString => None
  end.
Proof. reflexivity. Qed.

Lemma member_text_app l kv x : exists r, (member_text l kv ++ x)%string = String dq r.
Proof. unfold member_text. rewrite !sapp_assoc, quote_app. eauto. Qed.

Lemma concat_members_head l sep kv fs x :
  exists r, (String.concat sep (map (member_text l) (kv :: fs)) ++ x)%string = String dq r.
Proof.
  destruct fs as [|kv' fs]; [apply member_text_app|].
  cbn [map]. rewrite concat_more, sapp_assoc. apply member_text_app.
Qed.

(** Every JSON value reads back from what [dump] writes for it. *)
Lemma dump_reads_back j : reads_back j.
Proof.
  induction j as [n|s|fs Hfs] using json_ind_nested; intros l w t Hw Ht.
  - exists 1. rewrite parse_value_S, value_step_ws by done. by apply value_step_pretty.
  - exists 1. rewrite parse_value_S, value_step_ws by done. apply value_step_quote.
  - destruct fs as [|kv fs].
    { exists 1. rewrite parse_value_S, value_step_ws by done. apply value_step_empty_obj. }
    destruct (members_dump l fs kv Hfs (nl_indent (S l)) t (all_ws_nl_indent _)) as [f Hf].
    exists (S f). rewrite parse_value_S, value_step_ws by done.
    rewrite dump_obj, !sapp_assoc, (sapp_cons "{"%char EmptyString), sapp_nil_l.
    rewrite value_step_brace, skip_ws_app by apply all_ws_nl_indent.
    destruct (concat_members_head l ("," ++ nl_indent (S l))%string kv fs
                (nl_indent l ++ "}" ++ t)%string) as [r0 Hr0].
    rewrite Hr0 at 1. cbn [skip_ws]. rewrite is_ws_dq, decide_False by done. exact Hf.
Qed.

(** A read that consumes the whole text within some fuel is what
    [parse_json] returns. *)
Lemma parse_json_complete s j f : parse_value f s = Some (j, EmptyString) -> parse_json s = Some j.
Proof.
  intros Hf. unfold parse_json. set (F := max f (S (String.length s))).
  rewrite <- (parse_value_fuel_ge _ F) by lia.
  by rewrite (parse_value_mono f F _ _ ltac:(lia) Hf).
Qed.

Lemma parse_value_dump j : exists f, parse_value f (dump 0 j) = Some (j, EmptyString).
Proof.
  destruct (dump_reads_back j 0 EmptyString EmptyString eq_refl eq_refl) as [f Hf].
  rewrite sapp_nil_l, sapp_nil_r in Hf. eauto.
Qed.

(** ** The shape of the report

    Section 4 of the spec fixes the output's shape: an object with the
    keys [total_identical_ids], [disabled_false_sites_count] (integers)
    and [feature_flags_counts], a mapping from distinct feature names to
    objects [{"true": int, "false": int}]. *)
Definition counts_shape (j : json) : bool :=
  match j with
  | JObj [(kt, JInt _); (kf, JInt _)] => bool_decide (kt = "true" /\ kf = "false")
  | _ => false
  end.

Definition report_shape (j : json) : bool :=
  match j with
  | JObj [(k1, JInt _); (k2, JInt _); (k3, JObj fs)] =>
      bool_decide (k1 = "total_identical_ids" /\ k2 = "disabled_false_sites_count"
                   /\ k3 = "feature_flags_counts")
      && bool_decide (NoDup (map fst fs)) && forallb (fun kv => counts_shape kv.2) fs
  | _ => false
  end.

Lemma report_json_shape total count fc :
  NoDup (map fst fc) -> report_shape (report_json total count fc) = true.
Proof.
  intros Hnd. simpl. rewrite map_map. simpl.
  repeat (rewrite bool_decide_eq_true_2 by done). simpl.
  apply forallb_forall. intros kv Hin. apply in_map_iff in Hin as (fcnt & <- & _). reflexivity.
Qed.

