(* ===== verification/Main.v ===== *)
(** * [main]: the pipeline of both scripts

    [main()] (src/PROD-WTFeaturesFlagsScript.py lines 30-126, the same
    lines of src/PROD-CZFeaturesFlagsScript.py) connects and pings
    (step 1, its own [try] whose handlers print and [return]), builds
    the lookup, queries and aggregates the sites, assembles the report
    and saves it (steps 2-5, one [try] whose handlers print, with a
    [finally] that closes the client).  The two scripts differ only in
    the names of [script_config]: [wt_config] and [cz_config].

    The world [main] acts on is the file system, the client's state and
    the console; the store is any [Store] instance. *)

From S2P Require Import Prelude PyValue PyDict Store Lookup Aggregate Paths FileSys SaveJson JsonParse.
From stdpp Require Import gmap.

Record script_config : Type := mk_config {
  cfg_database : string;      (** [DATABASE_NAME] *)
  cfg_config_coll : string;   (** the configuration collection *)
  cfg_flags_field : string;   (** the flags field of its documents *)
  cfg_site_coll : string;     (** ["site"] *)
  cfg_ref_field : string;     (** the site field referencing a configuration *)
  cfg_output : string         (** [OUTPUT_JSON_FILE] *)
}.

(** src/PROD-WTFeaturesFlagsScript.py lines 17-24, 54, 74 *)
Definition wt_config : script_config :=
  mk_config "controlPanel" "platform_server_api" "WT_FEATURES_FLAGS" "site" "platform_server_api_id"
            "C:\MongoDB\Wt-FF-PROD.json".

(** src/PROD-CZFeaturesFlagsScript.py lines 17-24, 54, 74 *)
Definition cz_config : script_config :=
  mk_config "controlPanel" "server_env" "FEATURES_FLAGS" "site" "server_env_id"
            "C:\MongoDB\combined_analysis_results-PROD.json".

(** [db = client[DATABASE_NAME]] and [db[SERVER_ENV_COLLECTION]]
    (lines 34-35): the configuration collection's namespace. *)
Definition config_ns (cfg : script_config) : namespace := (cfg_database cfg, cfg_config_coll cfg).

(** [db[SITE_COLLECTION]] (line 36). *)
Definition site_ns (cfg : script_config) : namespace := (cfg_database cfg, cfg_site_coll cfg).

Inductive client_state : Type := NoClient | ClientOpen | ClientClosed.

Record world : Type := mk_world {
  w_fs : fsys;
  w_client : client_state;
  w_out : list msg
}.

(** The handlers of step 1, lines 41-49. *)
Definition connect_msg (e : exc) : msg :=
  match e with
  | ConnectionFailure => MsgConnectFailed e
  | OperationFailure => MsgOpFailed e
  | _ => MsgUnexpected e
  end.

(** The handlers of steps 2-5, lines 119-122. *)
Definition processing_msg (e : exc) : msg :=
  match e with
  | OperationFailure => MsgOpFailedProcessing e
  | _ => MsgErrorProcessing e
  end.

Section Main.
Context {S : Type} `{Store S}.
Variable cfg : script_config.
Variable fl : path_flavor.
Variable s : S.

(** The configuration query of line 54. *)
Definition config_cursor : cursor :=
  st_find s (config_ns cfg) [] (config_projection (cfg_flags_field cfg)).

(** The site query of lines 72-78. *)
Definition site_cursor (lk : lookup_dict) : cursor :=
  st_find s (site_ns cfg) (site_filter (cfg_ref_field cfg) lk)
          (site_projection (cfg_ref_field cfg)).

(** Lines 52-117, the body of the second [try], with its handlers
    (lines 119-122): the file system and the lines printed. *)
Definition process (fs : fsys) : fsys * list msg :=
  match build_lookup (cfg_flags_field cfg) config_cursor with
  | Raise e => (fs, [MsgRetrieving; processing_msg e])
  | Ok lk =>
      let total := len lk in
      if decide (total = 0) then (fs, [MsgRetrieving; MsgTotal total; MsgNoIds]) else
      let '(st, oe) := aggregate (cfg_ref_field cfg) lk (site_cursor lk) in
      let out := [MsgRetrieving; MsgTotal total; MsgQuerying; MsgProcessing]
                 ++ map MsgWarning (warnings st) in
      match oe with
      | Some e => (fs, out ++ [processing_msg e])
      | None =>
          let data := report_json total (disabled_false_count st) (feature_counts st) in
          let '(fs', saved) := save_json fl fs data (cfg_output cfg) in
          (fs', out ++ saved ++ [MsgAllSaved (cfg_output cfg)])
      end
  end.

(** Step 1, lines 31-49: [MongoClient(...)], then the ping.  An
    exception goes to the handlers, which print and [return]; the flag
    tells whether a client had been created. *)
Definition connect : option (exc * bool) :=
  match st_connect s with
  | Some e => Some (e, false)
  | None =>
      match st_ping s with
      | Some e => Some (e, true)
      | None => None
      end
  end.

(** Lines 30-126.  A failure of [MongoClient(...)] leaves no client; a
    failure of the ping returns from the first handler with the client
    still open; otherwise the [finally] of line 123 closes it. *)
Definition main (w : world) : world :=
  match connect with
  | Some (e, opened) =>
      mk_world (w_fs w) (if opened then ClientOpen else w_client w) (w_out w ++ [connect_msg e])
  | None =>
      let '(fs', out) := process (w_fs w) in
      mk_world fs' ClientClosed (w_out w ++ [MsgConnected] ++ out ++ [MsgClosed])
  end.
End Main.

(** ** The scripts' entry points *)

(** [main()] of src/PROD-CZFeaturesFlagsScript.py (lines 30-126): the
    code of the WT script's [main] with the CZ names. *)
Definition cz_main {S} `{Store S} (fl : path_flavor) (s : S) (w : world) : world :=
  main cz_config fl s w.

(** Lines 161-162, [if __name__ == "__main__": main()]: run as a script,
    the module calls [main]; imported under another name, it does
    nothing. *)
Definition run_module {S} `{Store S} (run : path_flavor -> S -> world -> world) (name : string)
    (fl : path_flavor) (s : S) (w : world) : world :=
  if bool_decide (name = "__main__") then run fl s w else w.

Definition wt_script {S} `{Store S} : string -> path_flavor -> S -> world -> world :=
  run_module (main wt_config).

Definition cz_script {S} `{Store S} : string -> path_flavor -> S -> world -> world :=
  run_module cz_main.

(** ** The database [main] reads *)

(** [main] depends on the store only through the connection, the ping
    and the finds on the namespaces [config_ns] and [site_ns]. *)
Lemma main_store_congruence {S1 S2 : Type} `{Store S1} `{Store S2}
    (cfg : script_config) (fl : path_flavor) (s1 : S1) (s2 : S2) (w : world) :
  st_connect s1 = st_connect s2 -> st_ping s1 = st_ping s2 ->
  (forall flt p, st_find s1 (config_ns cfg) flt p = st_find s2 (config_ns cfg) flt p) ->
  (forall flt p, st_find s1 (site_ns cfg) flt p = st_find s2 (site_ns cfg) flt p) ->
  main cfg fl s1 w = main cfg fl s2 w.
Proof.
  intros Hc Hp Hcfg Hsite. unfold main, connect, process, config_cursor, site_cursor.
  rewrite Hc, Hp, Hcfg. destruct (st_connect s2), (st_ping s2); try done.
  destruct (build_lookup _ _) as [lk|e]; [|done]. by rewrite Hsite.
Qed.

(** C33 ([main_reads_only_its_database]): both scripts read the store
    only through the connection, the ping and the finds on
    [controlPanel.platform_server_api] and [controlPanel.site] (WT) or
    [controlPanel.server_env] and [controlPanel.site] (CZ): two stores
    that agree on these give the same world, whatever else they hold,
    in any other database or collection. *)
Theorem main_reads_only_its_database {S1 S2 : Type} `{Store S1} `{Store S2}
    (fl : path_flavor) (s1 : S1) (s2 : S2) (w : world) :
  st_connect s1 = st_connect s2 -> st_ping s1 = st_ping s2 ->
  (forall flt p, st_find s1 ("controlPanel", "site") flt p = st_find s2 ("controlPanel", "site") flt p) ->
  ((forall flt p, st_find s1 ("controlPanel", "platform_server_api") flt p
                  = st_find s2 ("controlPanel", "platform_server_api") flt p) ->
   main wt_config fl s1 w = main wt_config fl s2 w) /\
  ((forall flt p, st_find s1 ("controlPanel", "server_env") flt p
                  = st_find s2 ("controlPanel", "server_env") flt p) ->
   cz_main fl s1 w = cz_main fl s2 w).
Proof.
  intros Hc Hp Hsite. split; intros Hcfg; by apply main_store_congruence.
Qed.

(** * End-to-end properties of [main]

    The theorems below follow [main] through its exit paths: the
    connection handlers of step 1, the empty-lookup return of line 68,
    the processing handlers of lines 119-122, and the normal path that
    saves the report.  They hold for every [Store] meeting [StoreSpec]
    and for both scripts. *)

(** ** Projections keep the fields they list *)

Lemma sget_project (p : list string) (doc : document) (k : string) :
  k = "_id"%string \/ k ∈ p -> sget (project p doc) k = sget doc k.
Proof.
  intros Hk. unfold project, sget. induction doc as [|[k' v'] doc IH]; simpl; [done|].
  case_bool_decide as Hkeep; simpl.
  - case_decide; [done|]. apply IH.
  - rewrite decide_False; [apply IH|]. intros ->. simpl in Hkeep. tauto.
Qed.

Lemma filter_true {A} (l : list A) : List.filter (fun _ => true) l = l.
Proof. induction l as [|x l IH]; simpl; [done|by rewrite IH]. Qed.

(** ** The lookup as [main] builds it *)

Lemma add_configs_len_mono ff d0 docs d : add_configs ff d0 docs = Ok d -> len d0 <= len d.
Proof.
  revert d0. induction docs as [|doc docs IH]; intros d0 Hok; simpl in Hok; [by simplify_eq|].
  unfold add_config in Hok. destruct (hash_key _); simpl in Hok; [|done].
  etrans; [apply (len_setitem_ge fst)|]. by apply (IH _ Hok).
Qed.

Lemma add_configs_len_le ff d0 docs d :
  add_configs ff d0 docs = Ok d -> len d <= len d0 + length docs.
Proof.
  revert d0. induction docs as [|doc docs IH]; intros d0 Hok; simpl in Hok; [simplify_eq; lia|].
  unfold add_config in Hok. destruct (hash_key _); simpl in Hok; [|done].
  pose proof (len_setitem_le fst d0 (h, config_id doc) (config_flags ff doc)).
  specialize (IH _ Hok). simpl. lia.
Qed.

Lemma add_configs_nonempty ff d0 doc docs d :
  add_configs ff d0 (doc :: docs) = Ok d -> len d <> 0.
Proof.
  simpl. unfold add_config. destruct (hash_key _); simpl; [|done].
  intros Hok%add_configs_len_mono. pose proof (len_setitem_pos fst d0 (h, config_id doc) (config_flags ff doc)). lia.
Qed.

Lemma add_configs_flags_wf ff d0 docs d :
  Forall (flags_wf ∘ snd) d0 -> Forall (fun doc => flags_wf (config_flags ff doc)) docs ->
  add_configs ff d0 docs = Ok d -> Forall (flags_wf ∘ snd) d.
Proof.
  revert d0. induction docs as [|doc docs IH]; intros d0 H0 Hdocs Hok; simpl in Hok; [by simplify_eq|].
  apply Forall_cons in Hdocs as [Hdoc Hdocs].
  unfold add_config in Hok. destruct (hash_key _); simpl in Hok; [|done].
  eapply IH; [|done|exact Hok]. by apply setitem_Forall_snd.
Qed.

Lemma config_id_project p doc : config_id (project p doc) = config_id doc.
Proof. unfold config_id. rewrite sget_project; [done|by left]. Qed.

Lemma config_flags_project ff doc :
  config_flags ff (project (config_projection ff) doc) = config_flags ff doc.
Proof. unfold config_flags. rewrite sget_project; [done|right; by left]. Qed.

Lemma lookup_spec_project ff docs :
  lookup_spec ff (map (project (config_projection ff)) docs) = lookup_spec ff docs.
Proof.
  unfold lookup_spec. generalize (∅ : gmap hkey value) as m.
  induction docs as [|doc docs IH]; intros m; simpl; [done|].
  rewrite <- IH. unfold spec_step. by rewrite config_id_project, config_flags_project.
Qed.

Lemma site_ref_project ref site :
  site_ref ref (project (site_projection ref) site) = site_ref ref site.
Proof. unfold site_ref. rewrite sget_project; [done|right; by left]. Qed.

Lemma filter_matches_nil (l : list document) : List.filter (matches []) l = l.
Proof. induction l as [|x l IH]; simpl; [done|by rewrite IH]. Qed.

Lemma build_lookup_add_configs ff cur lk :
  failure cur = None -> build_lookup ff cur = Ok lk -> add_configs ff [] (yielded cur) = Ok lk.
Proof.
  intros Hf. unfold build_lookup. rewrite Hf.
  destruct (add_configs ff [] (yielded cur)); simpl; congruence.
Qed.

(** A store whose cursors never raise. *)
Definition store_reliable {S} `{Store S} (s : S) : Prop :=
  forall c flt p, failure (st_find s c flt p) = None.

Section Pipeline.
Context {S : Type} `{StoreSpec S}.
Variable cfg : script_config.
Variable fl : path_flavor.
Variable s : S.

(** C12 ([main_ping_failure_leaves_client_open]): when [MongoClient]
    succeeds but the ping raises, [main] prints the handler's line and
    returns with the client still open and the file system untouched:
    the handlers of lines 41-49 [return] without [client.close()]. *)
Theorem main_ping_failure_leaves_client_open (w : world) (e : exc) :
  st_connect s = None -> st_ping s = Some e ->
  main cfg fl s w = mk_world (w_fs w) ClientOpen (w_out w ++ [connect_msg e]).
Proof. intros Hc Hp. unfold main, connect. by rewrite Hc, Hp. Qed.

(** C13 ([main_closes_after_ping]): once the ping has succeeded, every
    exit path of [main] (early return, handled exception, normal end)
    closes the client, and "MongoDB connection closed." is the last
    line printed. *)
Theorem main_closes_after_ping (w : world) :
  st_connect s = None -> st_ping s = None ->
  w_client (main cfg fl s w) = ClientClosed /\
  exists out, w_out (main cfg fl s w) = w_out w ++ MsgConnected :: out ++ [MsgClosed].
Proof.
  intros Hc Hp. unfold main, connect. rewrite Hc, Hp.
  destruct (process cfg fl s (w_fs w)) as [fs' out]. simpl. split; [done|]. by exists out.
Qed.

(** C14 ([main_empty_config_no_write]): when the configuration
    collection is empty (spec scenario D), [main] writes nothing,
    whatever the cursor does, and still closes the client. *)
Theorem main_empty_config_no_write (w : world) :
  st_connect s = None -> st_ping s = None ->
  st_contents s (config_ns cfg) = [] ->
  w_fs (main cfg fl s w) = w_fs w /\ w_client (main cfg fl s w) = ClientClosed.
Proof.
  intros Hc Hp He. unfold main, connect. rewrite Hc, Hp. unfold process.
  destruct (st_find_prefix s (config_ns cfg) [] (config_projection (cfg_flags_field cfg)))
    as [rest Hpre].
  rewrite He in Hpre. simpl in Hpre. symmetry in Hpre. apply app_eq_nil in Hpre as [Hy _].
  unfold build_lookup, config_cursor. rewrite Hy. simpl.
  destruct (failure _); simpl; [done|]. done.
Qed.

(** The normal path of [process]: a non-empty lookup and a completed
    loop hand the report to [save_json], whatever it does. *)
Lemma process_saves (fs : fsys) (lk : lookup_dict) (st : agg_state) :
  build_lookup (cfg_flags_field cfg) (config_cursor cfg s) = Ok lk -> len lk <> 0 ->
  aggregate (cfg_ref_field cfg) lk (site_cursor cfg s lk) = (st, None) ->
  process cfg fl s fs =
    ((save_json fl fs (report_json (len lk) (disabled_false_count st) (feature_counts st))
        (cfg_output cfg)).1,
     [MsgRetrieving; MsgTotal (len lk); MsgQuerying; MsgProcessing]
     ++ map MsgWarning (warnings st)
     ++ (save_json fl fs (report_json (len lk) (disabled_false_count st) (feature_counts st))
           (cfg_output cfg)).2
     ++ [MsgAllSaved (cfg_output cfg)]).
Proof.
  intros Hlk Hlen Hagg. unfold process. rewrite Hlk. simpl.
  rewrite decide_False by done. rewrite Hagg.
  destruct (save_json _ _ _ _) as [fs' saved]. simpl. done.
Qed.

(** C15 ([main_claims_saved_after_failed_write]): when the output
    directory cannot be written, [main] writes no file, yet prints
    "All results have been saved" (line 117) right after the failure
    line of [save_json], which reports the [OSError] and swallowed it. *)
Theorem main_claims_saved_after_failed_write (w : world) (lk : lookup_dict) (st : agg_state) :
  st_connect s = None -> st_ping s = None ->
  build_lookup (cfg_flags_field cfg) (config_cursor cfg s) = Ok lk -> len lk <> 0 ->
  aggregate (cfg_ref_field cfg) lk (site_cursor cfg s lk) = (st, None) ->
  dirname fl (cfg_output cfg) ∈ fs_denied (w_fs w) ->
  fs_files (w_fs (main cfg fl s w)) = fs_files (w_fs w) /\
  exists pre k, w_out (main cfg fl s w)
    = pre ++ [MsgSaveFailed (cfg_output cfg) (OSError k); MsgAllSaved (cfg_output cfg); MsgClosed].
Proof.
  intros Hc Hp Hlk Hlen Hagg Hden. unfold main, connect. rewrite Hc, Hp.
  rewrite (process_saves _ lk st Hlk Hlen Hagg).
  destruct (save_json_denied fl (w_fs w)
    (report_json (len lk) (disabled_false_count st) (feature_counts st)) (cfg_output cfg) Hden)
    as [Hf (out & k & Ho)].
  simpl. rewrite Ho. split; [done|].
  exists (w_out w ++ MsgConnected :: [MsgRetrieving; MsgTotal (len lk); MsgQuerying; MsgProcessing]
          ++ map MsgWarning (warnings st) ++ out), k.
  rewrite <- ?app_assoc. simpl. by rewrite <- ?app_assoc.
Qed.

(** C18 ([main_disk_full_partial_report]): when the output directory
    exists and is writable but the device cannot hold the report,
    [main] leaves at [OUTPUT_JSON_FILE] a strict prefix of the dump,
    which is not JSON of a report, reports [ENOSPC] and then prints
    "All results have been saved": [open(filepath, "w")] truncated the
    previous report before the write failed.  The spec (section 5) asks
    that a partially written file never be left. *)
Theorem main_disk_full_partial_report (w : world) (lk : lookup_dict) (st : agg_state) :
  st_connect s = None -> st_ping s = None ->
  build_lookup (cfg_flags_field cfg) (config_cursor cfg s) = Ok lk -> len lk <> 0 ->
  aggregate (cfg_ref_field cfg) lk (site_cursor cfg s lk) = (st, None) ->
  dirname fl (cfg_output cfg) = "" \/ dirname fl (cfg_output cfg) ∈ fs_dirs (w_fs w) ->
  dirname fl (cfg_output cfg) ∉ fs_denied (w_fs w) -> cfg_output cfg ∉ fs_dirs (w_fs w) ->
  ~ has_room (w_fs w) (cfg_output cfg)
      (dump 0 (report_json (len lk) (disabled_false_count st) (feature_counts st))) ->
  exists n pre,
    n < length (to_chars (dump 0 (report_json (len lk) (disabled_false_count st) (feature_counts st)))) /\
    sget (fs_files (w_fs (main cfg fl s w))) (cfg_output cfg)
      = Some (of_chars (take n (to_chars
          (dump 0 (report_json (len lk) (disabled_false_count st) (feature_counts st)))))) /\
    w_out (main cfg fl s w)
      = pre ++ [MsgSaveFailed (cfg_output cfg) (OSError NoSpaceLeft); MsgAllSaved (cfg_output cfg); MsgClosed].
Proof.
  intros Hc Hp Hlk Hlen Hagg Hd Hden Hdir Hroom. unfold main, connect. rewrite Hc, Hp.
  rewrite (process_saves _ lk st Hlk Hlen Hagg).
  destruct (save_json_no_room fl (w_fs w)
    (report_json (len lk) (disabled_false_count st) (feature_counts st)) (cfg_output cfg) Hd Hden Hdir Hroom)
    as (n & Hn & Hf & Ho).
  simpl. rewrite Ho. exists n,
    (w_out w ++ MsgConnected :: [MsgRetrieving; MsgTotal (len lk); MsgQuerying; MsgProcessing]
     ++ map MsgWarning (warnings st)).
  split; [done|]. split; [done|]. rewrite <- ?app_assoc. simpl. by rewrite <- ?app_assoc.
Qed.

(** Step 2 of [main] on a reliable store: the lookup is built, is
    non-empty, holds dicts, and is the lookup of [lookup_spec]. *)
Lemma main_lookup :
  store_reliable s ->
  st_contents s (config_ns cfg) <> [] ->
  Forall id_hashable (st_contents s (config_ns cfg)) ->
  Forall (fun doc => flags_wf (config_flags (cfg_flags_field cfg) doc))
         (st_contents s (config_ns cfg)) ->
  exists lk,
    build_lookup (cfg_flags_field cfg) (config_cursor cfg s) = Ok lk /\ len lk <> 0 /\
    lookup_wf lk /\
    to_map fst lk = lookup_spec (cfg_flags_field cfg) (st_contents s (config_ns cfg)) /\
    len lk <= length (st_contents s (config_ns cfg)).
Proof.
  intros Hrel Hne Hids Hflags. set (ff := cfg_flags_field cfg).
  assert (Hy : yielded (config_cursor cfg s)
               = map (project (config_projection ff)) (st_contents s (config_ns cfg))).
  { unfold config_cursor. rewrite st_find_complete by apply Hrel. by rewrite filter_matches_nil. }
  assert (Hh : Forall id_hashable (yielded (config_cursor cfg s))).
  { rewrite Hy, Forall_map. eapply Forall_impl; [exact Hids|].
    intros doc Hd. unfold id_hashable. by rewrite config_id_project. }
  destruct (add_configs_ok ff [] _ Hh) as (lk & Hadd & Hmap & _).
  exists lk. split.
  { unfold build_lookup. rewrite Hadd. simpl. unfold config_cursor. by rewrite (Hrel _ _ _). }
  split.
  { rewrite Hy in Hadd. destruct (st_contents s (config_ns cfg)); [done|].
    by eapply add_configs_nonempty. }
  split.
  { eapply add_configs_flags_wf; [constructor| |exact Hadd].
    rewrite Hy, Forall_map. eapply Forall_impl; [exact Hflags|].
    intros doc Hd. simpl. by rewrite config_flags_project. }
  split; [rewrite Hmap, Hy; exact (lookup_spec_project ff _)|].
  apply add_configs_len_le in Hadd. by rewrite Hy, length_map in Hadd.
Qed.

(** Steps 3-4 of [main] on a reliable store: the loop over the matched
    sites completes with the specified count and tallies. *)
Lemma main_sites (lk : lookup_dict) :
  store_reliable s -> lookup_wf lk ->
  Forall (ref_hashable (cfg_ref_field cfg)) (st_contents s (site_ns cfg)) ->
  exists st,
    aggregate (cfg_ref_field cfg) lk (site_cursor cfg s lk) = (st, None) /\
    disabled_false_count st
      = count_where (matches (site_filter (cfg_ref_field cfg) lk)) (st_contents s (site_ns cfg)) /\
    (forall feature, get id (feature_counts st) feature
       = add_counts None (count_true (cfg_ref_field cfg) lk feature (yielded (site_cursor cfg s lk)))
                         (count_false (cfg_ref_field cfg) lk feature (yielded (site_cursor cfg s lk)))) /\
    disabled_false_count st = length (yielded (site_cursor cfg s lk)).
Proof.
  intros Hrel Hwf Hrefs. set (ref := cfg_ref_field cfg).
  assert (Hys : yielded (site_cursor cfg s lk)
                = map (project (site_projection ref))
                      (List.filter (matches (site_filter ref lk)) (st_contents s (site_ns cfg)))).
  { unfold site_cursor. by rewrite st_find_complete by apply Hrel. }
  assert (Hrs : Forall (ref_hashable ref) (yielded (site_cursor cfg s lk))).
  { rewrite Hys, Forall_map. apply Forall_filterb.
    eapply Forall_impl; [exact Hrefs|]. intros site Hs. unfold ref_hashable.
    by rewrite site_ref_project. }
  destruct (aggregate_ok ref lk _ Hrs (Hrel _ _ _)) as (st & Hagg & Hcount & _ & Htally).
  exists st. split; [done|]. split; [by rewrite Hcount, Hys, length_map|].
  split; [by apply Htally|done].
Qed.

(** Steps 2-4 of [main] on a reliable store. *)
Lemma main_pipeline :
  store_reliable s ->
  st_contents s (config_ns cfg) <> [] ->
  Forall id_hashable (st_contents s (config_ns cfg)) ->
  Forall (fun doc => flags_wf (config_flags (cfg_flags_field cfg) doc))
         (st_contents s (config_ns cfg)) ->
  Forall (ref_hashable (cfg_ref_field cfg)) (st_contents s (site_ns cfg)) ->
  exists lk st,
    build_lookup (cfg_flags_field cfg) (config_cursor cfg s) = Ok lk /\ len lk <> 0 /\
    aggregate (cfg_ref_field cfg) lk (site_cursor cfg s lk) = (st, None) /\
    to_map fst lk = lookup_spec (cfg_flags_field cfg) (st_contents s (config_ns cfg)) /\
    disabled_false_count st
      = count_where (matches (site_filter (cfg_ref_field cfg) lk)) (st_contents s (site_ns cfg)) /\
    (forall feature, get id (feature_counts st) feature
       = add_counts None (count_true (cfg_ref_field cfg) lk feature (yielded (site_cursor cfg s lk)))
                         (count_false (cfg_ref_field cfg) lk feature (yielded (site_cursor cfg s lk)))).
Proof.
  intros Hrel Hne Hids Hflags Hrefs.
  destruct (main_lookup Hrel Hne Hids Hflags) as (lk & Hlk & Hlen & Hwf & Hmap & _).
  destruct (main_sites lk Hrel Hwf Hrefs) as (st & Hagg & Hcount & Htally & _).
  exists lk, st. auto 6.
Qed.

(** C1 ([main_writes_report]): with a store whose cursors do not
    raise, a non-empty configuration collection whose ids are hashable
    and whose flag sets are dicts, and sites with hashable references,
    [main] builds the lookup of [lookup_spec], counts in
    [disabled_false_count] the sites the query matches, tallies every
    feature as [count_true]/[count_false] say, hands exactly that
    report to [save_json], prints the warnings in order and closes the
    client. *)
Theorem main_writes_report (w : world) :
  st_connect s = None -> st_ping s = None -> store_reliable s ->
  st_contents s (config_ns cfg) <> [] ->
  Forall id_hashable (st_contents s (config_ns cfg)) ->
  Forall (fun doc => flags_wf (config_flags (cfg_flags_field cfg) doc))
         (st_contents s (config_ns cfg)) ->
  Forall (ref_hashable (cfg_ref_field cfg)) (st_contents s (site_ns cfg)) ->
  exists lk st,
    to_map fst lk = lookup_spec (cfg_flags_field cfg) (st_contents s (config_ns cfg)) /\
    disabled_false_count st
      = count_where (matches (site_filter (cfg_ref_field cfg) lk)) (st_contents s (site_ns cfg)) /\
    (forall feature, get id (feature_counts st) feature
       = add_counts None (count_true (cfg_ref_field cfg) lk feature (yielded (site_cursor cfg s lk)))
                         (count_false (cfg_ref_field cfg) lk feature (yielded (site_cursor cfg s lk)))) /\
    main cfg fl s w =
      mk_world
        (save_json fl (w_fs w) (report_json (len lk) (disabled_false_count st) (feature_counts st))
           (cfg_output cfg)).1
        ClientClosed
        (w_out w ++ [MsgConnected]
         ++ ([MsgRetrieving; MsgTotal (len lk); MsgQuerying; MsgProcessing]
             ++ map MsgWarning (warnings st)
             ++ (save_json fl (w_fs w)
                   (report_json (len lk) (disabled_false_count st) (feature_counts st))
                   (cfg_output cfg)).2
             ++ [MsgAllSaved (cfg_output cfg)])
         ++ [MsgClosed]).
Proof.
  intros Hc Hp Hrel Hne Hids Hflags Hrefs.
  destruct (main_pipeline Hrel Hne Hids Hflags Hrefs)
    as (lk & st & Hlk & Hlen & Hagg & Hmap & Hcount & Htally).
  exists lk, st. do 3 (split; [done|]).
  unfold main, connect. rewrite Hc, Hp. by rewrite (process_saves _ lk st Hlk Hlen Hagg).
Qed.

(** On the normal path with a writable output directory, the file at
    [OUTPUT_JSON_FILE] holds the dump of the report of steps 2-4. *)
Lemma main_saved_report (w : world) :
  st_connect s = None -> st_ping s = None -> store_reliable s ->
  st_contents s (config_ns cfg) <> [] ->
  Forall id_hashable (st_contents s (config_ns cfg)) ->
  Forall (fun doc => flags_wf (config_flags (cfg_flags_field cfg) doc))
         (st_contents s (config_ns cfg)) ->
  Forall (ref_hashable (cfg_ref_field cfg)) (st_contents s (site_ns cfg)) ->
  Forall (creatable fl (w_fs w)) (missing_dirs fl (w_fs w) (dirname fl (cfg_output cfg))) ->
  dirname fl (cfg_output cfg) ∉ fs_denied (w_fs w) ->
  dirname fl (cfg_output cfg) ∉ map fst (fs_files (w_fs w)) ->
  cfg_output cfg ∉ fs_dirs (w_fs w) -> cfg_output cfg <> dirname fl (cfg_output cfg) ->
  fs_free (w_fs w) = None ->
  exists lk st,
    aggregate (cfg_ref_field cfg) lk (site_cursor cfg s lk) = (st, None) /\
    to_map fst lk = lookup_spec (cfg_flags_field cfg) (st_contents s (config_ns cfg)) /\
    disabled_false_count st
      = count_where (matches (site_filter (cfg_ref_field cfg) lk)) (st_contents s (site_ns cfg)) /\
    (forall feature, get id (feature_counts st) feature
       = add_counts None (count_true (cfg_ref_field cfg) lk feature (yielded (site_cursor cfg s lk)))
                         (count_false (cfg_ref_field cfg) lk feature (yielded (site_cursor cfg s lk)))) /\
    sget (fs_files (w_fs (main cfg fl s w))) (cfg_output cfg)
      = Some (dump 0 (report_json (len lk) (disabled_false_count st) (feature_counts st))).
Proof.
  intros Hc Hp Hrel Hne Hids Hflags Hrefs Hmk Hden Hfile Hdir Hself Hfree.
  destruct (main_pipeline Hrel Hne Hids Hflags Hrefs)
    as (lk & st & Hlk & Hlen & Hagg & Hmap & Hcount & Htally).
  exists lk, st. do 4 (split; [done|]).
  unfold main, connect. rewrite Hc, Hp, (process_saves _ lk st Hlk Hlen Hagg). simpl.
  destruct (save_json_result fl (w_fs w) (report_json (len lk) (disabled_false_count st) (feature_counts st))
              (cfg_output cfg) Hmk Hden Hfile Hdir Hself) as [free ->];
    [by unfold has_room; rewrite Hfree|].
  cbn [fst w_fs fs_files]. auto with pipe.
Qed.


(** C23 ([main_output_parses_to_report]): on the normal path, with an
    output directory that can be written, the file [main] leaves at
    [OUTPUT_JSON_FILE] holds JSON text that a JSON reader reads back as
    the report: [total_identical_ids] the size of the lookup of
    [lookup_spec], [disabled_false_sites_count] the number of sites the
    query matches, and every feature's counts as
    [count_true]/[count_false] say. *)
Theorem main_output_parses_to_report (w : world) :
  st_connect s = None -> st_ping s = None -> store_reliable s ->
  st_contents s (config_ns cfg) <> [] ->
  Forall id_hashable (st_contents s (config_ns cfg)) ->
  Forall (fun doc => flags_wf (config_flags (cfg_flags_field cfg) doc))
         (st_contents s (config_ns cfg)) ->
  Forall (ref_hashable (cfg_ref_field cfg)) (st_contents s (site_ns cfg)) ->
  Forall (creatable fl (w_fs w)) (missing_dirs fl (w_fs w) (dirname fl (cfg_output cfg))) ->
  dirname fl (cfg_output cfg) ∉ fs_denied (w_fs w) ->
  dirname fl (cfg_output cfg) ∉ map fst (fs_files (w_fs w)) ->
  cfg_output cfg ∉ fs_dirs (w_fs w) -> cfg_output cfg <> dirname fl (cfg_output cfg) ->
  fs_free (w_fs w) = None ->
  exists lk st text,
    to_map fst lk = lookup_spec (cfg_flags_field cfg) (st_contents s (config_ns cfg)) /\
    disabled_false_count st
      = count_where (matches (site_filter (cfg_ref_field cfg) lk)) (st_contents s (site_ns cfg)) /\
    (forall feature, get id (feature_counts st) feature
       = add_counts None (count_true (cfg_ref_field cfg) lk feature (yielded (site_cursor cfg s lk)))
                         (count_false (cfg_ref_field cfg) lk feature (yielded (site_cursor cfg s lk)))) /\
    sget (fs_files (w_fs (main cfg fl s w))) (cfg_output cfg) = Some text /\
    parse_json text = Some (report_json (len lk) (disabled_false_count st) (feature_counts st)).
Proof.
  intros Hc Hp Hrel Hne Hids Hflags Hrefs Hmk Hden Hfile Hdir Hself Hfree.
  destruct (main_saved_report w Hc Hp Hrel Hne Hids Hflags Hrefs Hmk Hden Hfile Hdir Hself Hfree)
    as (lk & st & _ & Hmap & Hcount & Htally & Hfile').
  set (r := report_json (len lk) (disabled_false_count st) (feature_counts st)) in *.
  destruct (parse_value_dump r) as [f Hf].
  exists lk, st, (dump 0 r). do 4 (split; [done|]). exact (parse_json_complete _ _ _ Hf).
Qed.

(** C27 ([main_output_report_shape]): on the normal path, with an
    output directory that can be written, the file [main] leaves at
    [OUTPUT_JSON_FILE] reads as a JSON value of the report's fixed shape
    (spec, section 4): the three keys in order, integer totals, and
    [feature_flags_counts] mapping distinct feature names to
    [{"true": int, "false": int}]. *)
Theorem main_output_report_shape (w : world) :
  st_connect s = None -> st_ping s = None -> store_reliable s ->
  st_contents s (config_ns cfg) <> [] ->
  Forall id_hashable (st_contents s (config_ns cfg)) ->
  Forall (fun doc => flags_wf (config_flags (cfg_flags_field cfg) doc))
         (st_contents s (config_ns cfg)) ->
  Forall (ref_hashable (cfg_ref_field cfg)) (st_contents s (site_ns cfg)) ->
  Forall (creatable fl (w_fs w)) (missing_dirs fl (w_fs w) (dirname fl (cfg_output cfg))) ->
  dirname fl (cfg_output cfg) ∉ fs_denied (w_fs w) ->
  dirname fl (cfg_output cfg) ∉ map fst (fs_files (w_fs w)) ->
  cfg_output cfg ∉ fs_dirs (w_fs w) -> cfg_output cfg <> dirname fl (cfg_output cfg) ->
  fs_free (w_fs w) = None ->
  exists text j,
    sget (fs_files (w_fs (main cfg fl s w))) (cfg_output cfg) = Some text /\
    parse_json text = Some j /\ report_shape j = true.
Proof.
  intros Hc Hp Hrel Hne Hids Hflags Hrefs Hmk Hden Hfile Hdir Hself Hfree.
  destruct (main_saved_report w Hc Hp Hrel Hne Hids Hflags Hrefs Hmk Hden Hfile Hdir Hself Hfree)
    as (lk & st & Hagg & _ & _ & _ & Hfile').
  set (r := report_json (len lk) (disabled_false_count st) (feature_counts st)) in *.
  destruct (parse_value_dump r) as [f Hf].
  exists (dump 0 r), r. split; [done|]. split; [exact (parse_json_complete _ _ _ Hf)|].
  apply report_json_shape.
  pose proof (aggregate_wf (cfg_ref_field cfg) lk (site_cursor cfg s lk)) as W.
  rewrite Hagg in W. exact W.
Qed.

(** C24 ([main_report_bounds]): on the normal path the numbers of the
    report are bounded: [total_identical_ids] is at least 1 and at most
    the number of configuration documents, [disabled_false_sites_count]
    at most the number of site documents, and for every feature
    [true + false] at most [disabled_false_sites_count]. *)
Theorem main_report_bounds :
  store_reliable s ->
  st_contents s (config_ns cfg) <> [] ->
  Forall id_hashable (st_contents s (config_ns cfg)) ->
  Forall (fun doc => flags_wf (config_flags (cfg_flags_field cfg) doc))
         (st_contents s (config_ns cfg)) ->
  Forall (ref_hashable (cfg_ref_field cfg)) (st_contents s (site_ns cfg)) ->
  exists lk st,
    build_lookup (cfg_flags_field cfg) (config_cursor cfg s) = Ok lk /\
    aggregate (cfg_ref_field cfg) lk (site_cursor cfg s lk) = (st, None) /\
    1 <= len lk <= length (st_contents s (config_ns cfg)) /\
    disabled_false_count st <= length (st_contents s (site_ns cfg)) /\
    (forall feature c, get id (feature_counts st) feature = Some c ->
       n_true c + n_false c <= disabled_false_count st).
Proof.
  intros Hrel Hne Hids Hflags Hrefs.
  destruct (main_lookup Hrel Hne Hids Hflags) as (lk & Hlk & Hlen & Hwf & _ & Hle).
  destruct (main_sites lk Hrel Hwf Hrefs) as (st & Hagg & Hcount & Htally & Hy).
  exists lk, st. split; [done|]. split; [done|]. split; [lia|].
  split; [rewrite Hcount; apply count_where_le|].
  intros feature c Hget. rewrite Htally in Hget. apply add_counts_None_sum in Hget.
  rewrite Hget, Hy. apply count_true_false_le.
Qed.

(** C31 ([main_type_error_mid_loop]): when the site query yields, after
    sites with hashable references, one whose reference is unhashable,
    [main] prints the warnings of the earlier sites in order, then the
    handler's "An error occurred during processing" line reporting the
    [TypeError], and closes the client; no file is written and "All
    results have been saved" is not printed. *)
Theorem main_type_error_mid_loop (w : world) (lk : lookup_dict) (pre : list document)
    (bad : document) (post : list document) :
  st_connect s = None -> st_ping s = None ->
  build_lookup (cfg_flags_field cfg) (config_cursor cfg s) = Ok lk -> len lk <> 0 ->
  yielded (site_cursor cfg s lk) = pre ++ bad :: post ->
  Forall (ref_hashable (cfg_ref_field cfg)) pre ->
  hash_key (site_ref (cfg_ref_field cfg) bad) = None ->
  main cfg fl s w =
    mk_world (w_fs w) ClientClosed
      (w_out w ++ [MsgConnected; MsgRetrieving; MsgTotal (len lk); MsgQuerying; MsgProcessing]
       ++ map MsgWarning (flat_map (site_warnings (cfg_ref_field cfg) lk) pre)
       ++ [MsgErrorProcessing TypeError; MsgClosed]).
Proof.
  intros Hc Hp Hlk Hlen Hy Hpre Hbad.
  destruct (aggregate_type_error_at (cfg_ref_field cfg) lk _ pre bad post Hy Hpre Hbad)
    as (st & Hagg & Hw).
  unfold main, connect, process. rewrite Hc, Hp, Hlk. simpl. rewrite decide_False by done.
  rewrite Hagg. simpl. rewrite Hw, <- !app_assoc. done.
Qed.

(** C32 ([main_cursor_failure_after_sites]): when the site cursor
    raises [e] once its sites, all with hashable references, are
    consumed, [main] prints every site's warnings in order, then the
    handler's line for [e] ("MongoDB operation failed during processing"
    for [OperationFailure]), and closes the client; no file is written. *)
Theorem main_cursor_failure_after_sites (w : world) (lk : lookup_dict) (e : exc) :
  st_connect s = None -> st_ping s = None ->
  build_lookup (cfg_flags_field cfg) (config_cursor cfg s) = Ok lk -> len lk <> 0 ->
  Forall (ref_hashable (cfg_ref_field cfg)) (yielded (site_cursor cfg s lk)) ->
  failure (site_cursor cfg s lk) = Some e ->
  main cfg fl s w =
    mk_world (w_fs w) ClientClosed
      (w_out w ++ [MsgConnected; MsgRetrieving; MsgTotal (len lk); MsgQuerying; MsgProcessing]
       ++ map MsgWarning (flat_map (site_warnings (cfg_ref_field cfg) lk) (yielded (site_cursor cfg s lk)))
       ++ [processing_msg e; MsgClosed]).
Proof.
  intros Hc Hp Hlk Hlen Hh Hf.
  destruct (process_sites_ok (cfg_ref_field cfg) lk agg_init _ Hh) as (st & Hps & _ & Hw & _).
  unfold main, connect, process. rewrite Hc, Hp, Hlk. simpl. rewrite decide_False by done.
  unfold aggregate. rewrite Hps, Hf. simpl. rewrite Hw, <- !app_assoc. done.
Qed.

End Pipeline.
