(* ===== verification/Witnesses.v ===== *)
(** * Concrete runs

    Fixtures on which the properties are applied: a [wt_config]
    database in the in-memory store (two configuration documents, one
    without flags, and three sites, one of them disabled), variants of
    it whose site cursor raises part way or yields a site with an array
    reference, or that holds a second database with the same collection
    names, configuration documents with repeated ids, file systems
    where the output directory is missing or denied (or only a nested
    directory is), and the lookup the first script builds from that
    database.  Each [*_witness] applies a property to these inputs, its
    hypotheses discharged by evaluation: among them [save_json] where
    [os.makedirs] fails half way ([fs_out_denied]) and [main] on a device
    too full for the report ([fs_full]). *)

From S2P Require Import Prelude PyValue PyDict Store Lookup Aggregate SiteLoop Paths FileSys SaveJson JsonParse Main.
From stdpp Require Import gmap.

(** ** Fixtures *)

Definition wt_configs : list document := [
  [("_id", VStr "id1"); ("WT_FEATURES_FLAGS", VDict [("beta", VBool true); ("x", VInt 1)])];
  [("_id", VStr "id2"); ("name", VStr "n")] ].

Definition wt_sites : list document := [
  [("_id", VOid 1); ("platform_server_api_id", VStr "id1"); ("disabled", VBool false)];
  [("_id", VOid 2); ("platform_server_api_id", VStr "id1"); ("disabled", VBool true)];
  [("_id", VOid 3); ("platform_server_api_id", VStr "id2"); ("disabled", VBool false)] ].

Definition db_ok : mem_db :=
  mk_mem_db [(("controlPanel", "platform_server_api"), wt_configs); (("controlPanel", "site"), wt_sites)] None None [].
Definition db_ping_fails : mem_db :=
  mk_mem_db [(("controlPanel", "platform_server_api"), wt_configs); (("controlPanel", "site"), wt_sites)] None (Some ConnectionFailure) [].
Definition db_no_configs : mem_db := mk_mem_db [(("controlPanel", "site"), wt_sites)] None None [].

Definition fs_c : fsys := mk_fs ["C:\"] [] [] None.
Definition fs_no_write : fsys := mk_fs ["C:\"] [] ["C:\MongoDB"] None.
Definition world0 (fs : fsys) : world := mk_world fs NoClient [].

(** The lookup [wt_config] builds from [db_ok], and the sites its query yields. *)
Definition lk_ok : lookup_dict :=
  [((HStr "id1", VStr "id1"), VDict [("beta", VBool true); ("x", VInt 1)]);
   ((HStr "id2", VStr "id2"), VDict [])].
Definition sites_ok : cursor :=
  mk_cursor [[("_id", VOid 1); ("platform_server_api_id", VStr "id1")];
             [("_id", VOid 3); ("platform_server_api_id", VStr "id2")]] None.
Definition st_ok : agg_state :=
  mk_agg 2 [("beta", mk_counts 1 0)] [WarnNotBool "x" (VStr "id1")].

Definition wt_path : string := "C:\MongoDB\Wt-FF-PROD.json".

(** ** Witnesses *)

Lemma main_writes_report_witness :
  exists lk st,
    to_map fst lk = lookup_spec (cfg_flags_field wt_config) (st_contents db_ok (config_ns wt_config)) /\
    disabled_false_count st
      = count_where (matches (site_filter (cfg_ref_field wt_config) lk)) (st_contents db_ok (site_ns wt_config)) /\
    (forall feature, get id (feature_counts st) feature
       = add_counts None (count_true (cfg_ref_field wt_config) lk feature (yielded (site_cursor wt_config db_ok lk)))
                         (count_false (cfg_ref_field wt_config) lk feature (yielded (site_cursor wt_config db_ok lk)))) /\
    main wt_config Windows db_ok (world0 fs_c) =
      mk_world
        (save_json Windows (w_fs (world0 fs_c))
           (report_json (len lk) (disabled_false_count st) (feature_counts st)) (cfg_output wt_config)).1
        ClientClosed
        (w_out (world0 fs_c) ++ [MsgConnected]
         ++ ([MsgRetrieving; MsgTotal (len lk); MsgQuerying; MsgProcessing]
             ++ map MsgWarning (warnings st)
             ++ (save_json Windows (w_fs (world0 fs_c))
                   (report_json (len lk) (disabled_false_count st) (feature_counts st)) (cfg_output wt_config)).2
             ++ [MsgAllSaved (cfg_output wt_config)])
         ++ [MsgClosed]).
Proof.
  apply (main_writes_report (S := mem_db) wt_config Windows db_ok (world0 fs_c));
    [reflexivity | reflexivity | intros c flt p; reflexivity | discriminate | by_decide.. ].
Defined.

Lemma aggregate_count_witness :
  exists st, aggregate "platform_server_api_id" lk_ok sites_ok = (st, None) /\
             disabled_false_count st = 2.
Proof. apply (aggregate_count "platform_server_api_id" lk_ok sites_ok); [by_decide | reflexivity]. Defined.

Lemma aggregate_tally_witness :
  exists st, aggregate "platform_server_api_id" lk_ok sites_ok = (st, None) /\
    forall feature, get id (feature_counts st) feature
      = add_counts None (count_true "platform_server_api_id" lk_ok feature (yielded sites_ok))
                        (count_false "platform_server_api_id" lk_ok feature (yielded sites_ok)).
Proof. apply aggregate_tally; [by_decide | by_decide | reflexivity]. Defined.

Lemma aggregate_warnings_witness :
  exists st, aggregate "platform_server_api_id" lk_ok sites_ok = (st, None) /\
    warnings st = flat_map (site_warnings "platform_server_api_id" lk_ok) (yielded sites_ok).
Proof. apply aggregate_warnings; [by_decide | reflexivity]. Defined.

Lemma process_sites_bounded_witness :
  tally_bounded (fst (process_sites "platform_server_api_id" lk_ok agg_init (yielded sites_ok))).
Proof.
  apply process_sites_bounded; [by_decide|]. intros feature c Hc. discriminate.
Defined.

Lemma matched_ref_in_lookup_witness :
  is_Some (get fst lk_ok (HStr "id1")).
Proof.
  apply (matched_ref_in_lookup "platform_server_api_id" lk_ok
           [("_id", VOid 1); ("platform_server_api_id", VStr "id1"); ("disabled", VBool false)]);
    [by_decide | reflexivity | reflexivity].
Defined.

Lemma array_ref_raises_witness :
  matches (site_filter "platform_server_api_id" lk_ok)
          [("platform_server_api_id", VList [VStr "id1"; VStr "other"]); ("disabled", VBool false)] = true /\
  snd (process_site "platform_server_api_id" lk_ok agg_init
         [("platform_server_api_id", VList [VStr "id1"; VStr "other"]); ("disabled", VBool false)])
  = Some TypeError.
Proof.
  apply (array_ref_raises _ _ _ (VStr "id1") [VStr "id1"; VStr "other"]);
    [by_decide | by_decide | reflexivity | reflexivity].
Defined.

Lemma build_lookup_refines_witness :
  exists d, build_lookup "WT_FEATURES_FLAGS" (mk_cursor wt_configs None) = Ok d /\
    wf fst d /\ to_map fst d = lookup_spec "WT_FEATURES_FLAGS" wt_configs.
Proof. apply (build_lookup_refines "WT_FEATURES_FLAGS" (mk_cursor wt_configs None)); [by_decide | reflexivity]. Defined.

Lemma build_lookup_len_witness :
  exists d, build_lookup "WT_FEATURES_FLAGS" (mk_cursor wt_configs None) = Ok d /\
    len d = 2 /\ map (fst ∘ fst) d = [HStr "id1"; HStr "id2"].
Proof.
  apply (build_lookup_len "WT_FEATURES_FLAGS" (mk_cursor wt_configs None));
    [reflexivity | repeat constructor | by_decide].
Defined.

Lemma main_output_parses_to_report_witness :
  exists lk st text,
    to_map fst lk = lookup_spec (cfg_flags_field wt_config) (st_contents db_ok (config_ns wt_config)) /\
    disabled_false_count st
      = count_where (matches (site_filter (cfg_ref_field wt_config) lk)) (st_contents db_ok (site_ns wt_config)) /\
    (forall feature, get id (feature_counts st) feature
       = add_counts None (count_true (cfg_ref_field wt_config) lk feature (yielded (site_cursor wt_config db_ok lk)))
                         (count_false (cfg_ref_field wt_config) lk feature (yielded (site_cursor wt_config db_ok lk)))) /\
    sget (fs_files (w_fs (main wt_config Windows db_ok (world0 fs_c)))) (cfg_output wt_config) = Some text /\
    parse_json text = Some (report_json (len lk) (disabled_false_count st) (feature_counts st)).
Proof.
  apply (main_output_parses_to_report (S := mem_db) wt_config Windows db_ok (world0 fs_c));
    [reflexivity | reflexivity | intros c flt p; reflexivity | discriminate | by_decide.. ].
Defined.

Lemma main_report_bounds_witness :
  exists lk st,
    build_lookup (cfg_flags_field wt_config) (config_cursor wt_config db_ok) = Ok lk /\
    aggregate (cfg_ref_field wt_config) lk (site_cursor wt_config db_ok lk) = (st, None) /\
    1 <= len lk <= length (st_contents db_ok (config_ns wt_config)) /\
    disabled_false_count st <= length (st_contents db_ok (site_ns wt_config)) /\
    (forall feature c, get id (feature_counts st) feature = Some c ->
       n_true c + n_false c <= disabled_false_count st).
Proof.
  apply (main_report_bounds (S := mem_db) wt_config db_ok);
    [intros c flt p; reflexivity | discriminate | by_decide.. ].
Defined.

Lemma main_output_report_shape_witness :
  exists text j,
    sget (fs_files (w_fs (main wt_config Windows db_ok (world0 fs_c)))) (cfg_output wt_config) = Some text /\
    parse_json text = Some j /\ report_shape j = true.
Proof.
  apply (main_output_report_shape (S := mem_db) wt_config Windows db_ok (world0 fs_c));
    [reflexivity | reflexivity | intros c flt p; reflexivity | discriminate | by_decide.. ].
Defined.

Lemma main_ping_failure_leaves_client_open_witness :
  main wt_config Windows db_ping_fails (world0 fs_c)
  = mk_world fs_c ClientOpen [MsgConnectFailed ConnectionFailure].
Proof.
  apply (main_ping_failure_leaves_client_open (S := mem_db) wt_config Windows db_ping_fails
           (world0 fs_c) ConnectionFailure); reflexivity.
Defined.

Lemma main_closes_after_ping_witness :
  w_client (main wt_config Windows db_ok (world0 fs_c)) = ClientClosed /\
  exists out, w_out (main wt_config Windows db_ok (world0 fs_c)) = [] ++ MsgConnected :: out ++ [MsgClosed].
Proof. apply (main_closes_after_ping (S := mem_db) wt_config Windows db_ok (world0 fs_c)); reflexivity. Defined.

Lemma main_empty_config_no_write_witness :
  w_fs (main wt_config Windows db_no_configs (world0 fs_c)) = fs_c /\
  w_client (main wt_config Windows db_no_configs (world0 fs_c)) = ClientClosed.
Proof. apply (main_empty_config_no_write (S := mem_db) wt_config Windows db_no_configs (world0 fs_c)); reflexivity. Defined.

Lemma main_claims_saved_after_failed_write_witness :
  fs_files (w_fs (main wt_config Windows db_ok (world0 fs_no_write))) = fs_files fs_no_write /\
  exists pre k, w_out (main wt_config Windows db_ok (world0 fs_no_write))
    = pre ++ [MsgSaveFailed wt_path (OSError k); MsgAllSaved wt_path; MsgClosed].
Proof.
  apply (main_claims_saved_after_failed_write (S := mem_db) wt_config Windows db_ok
           (world0 fs_no_write) lk_ok st_ok);
    [reflexivity | reflexivity | reflexivity | discriminate | reflexivity | by_decide].
Defined.

Lemma save_json_writes_witness :
  sget (fs_files (save_json Windows fs_c (JInt 0) wt_path).1) wt_path = Some (dump 0 (JInt 0)) /\
  (forall q, q <> wt_path ->
     sget (fs_files (save_json Windows fs_c (JInt 0) wt_path).1) q = sget (fs_files fs_c) q) /\
  last (save_json Windows fs_c (JInt 0) wt_path).2 = Some (MsgSavedTo wt_path).
Proof. apply save_json_writes; [by_decide | by_decide | by_decide | by_decide | discriminate | by_decide]. Defined.

Lemma disabled_site_not_matched_witness :
  matches (site_filter "platform_server_api_id" lk_ok)
          [("_id", VOid 2); ("platform_server_api_id", VStr "id1"); ("disabled", VBool true)] = false.
Proof. apply disabled_site_not_matched. reflexivity. Defined.

Lemma posix_save_json_in_cwd_witness :
  fs_dirs (save_json Posix fs_c (JInt 0) (cfg_output wt_config)).1 = fs_dirs fs_c /\
  sget (fs_files (save_json Posix fs_c (JInt 0) (cfg_output wt_config)).1) (cfg_output wt_config)
    = Some (dump 0 (JInt 0)).
Proof. apply posix_save_json_in_cwd; by_decide. Defined.

(** A site whose [disabled] is the array [[True, False]] is returned by
    the query. *)
Definition site_disabled_array : document :=
  [("_id", VOid 4); ("platform_server_api_id", VStr "id2");
   ("disabled", VList [VBool true; VBool false])].

Lemma site_filter_iff_witness :
  matches (site_filter "platform_server_api_id" lk_ok) site_disabled_array = true <->
  site_ref "platform_server_api_id" site_disabled_array ∈ map (fun e : lkey * value => e.1.2) lk_ok /\
  (sget site_disabled_array "disabled" = Some (VBool false) \/
   exists l, sget site_disabled_array "disabled" = Some (VList l) /\ VBool false ∈ l).
Proof. apply (site_filter_iff _ _ _ (HStr "id2")). reflexivity. Defined.

Lemma site_disabled_array_matched :
  matches (site_filter "platform_server_api_id" lk_ok) site_disabled_array = true.
Proof. reflexivity. Qed.

Lemma aggregate_feature_keys_witness :
  keys_inv "platform_server_api_id" lk_ok [] agg_init /\
  keys_inv "platform_server_api_id" lk_ok [List.hd [] (yielded sites_ok)]
    (process_site "platform_server_api_id" lk_ok agg_init (List.hd [] (yielded sites_ok))).1.
Proof.
  destruct (aggregate_feature_keys "platform_server_api_id" lk_ok) as [H0 Hstep].
  split; [exact H0|]. exact (Hstep [] agg_init _ H0).
Defined.

Lemma aggregate_feature_order_witness :
  exists st, aggregate "platform_server_api_id" lk_ok sites_ok = (st, None) /\
    map fst (feature_counts st)
    = fold_left add_key (flat_map (site_bool_features "platform_server_api_id" lk_ok) (yielded sites_ok)) [].
Proof. apply (aggregate_feature_order "platform_server_api_id" lk_ok sites_ok); [by_decide | reflexivity]. Defined.

(** Four configuration documents with two distinct ids: ["a"] twice,
    then [True] and [1], which Python hashes alike. *)
Definition dup_configs : cursor :=
  mk_cursor [[("_id", VStr "a")]; [("_id", VStr "a")]; [("_id", VBool true)]; [("_id", VInt 1)]] None.

Lemma build_lookup_len_distinct_witness :
  exists d, build_lookup "WT_FEATURES_FLAGS" dup_configs = Ok d /\
    len d = size (list_to_set (omap id_key (yielded dup_configs)) : gset hkey).
Proof. apply build_lookup_len_distinct; [by_decide | reflexivity]. Defined.

Lemma dup_configs_total : size (list_to_set (omap id_key (yielded dup_configs)) : gset hkey) = 2.
Proof. vm_compute. reflexivity. Qed.

(** A database whose second matching site has an array reference. *)
Definition site_arr : document :=
  [("_id", VOid 5); ("platform_server_api_id", VList [VStr "id2"; VStr "x"]); ("disabled", VBool false)].
Definition db_arr : mem_db :=
  mk_mem_db [(("controlPanel", "platform_server_api"), wt_configs);
             (("controlPanel", "site"), [List.hd [] wt_sites; site_arr; List.last wt_sites []])] None None [].

Lemma main_type_error_mid_loop_witness :
  main wt_config Windows db_arr (world0 fs_c) =
    mk_world (w_fs (world0 fs_c)) ClientClosed
      (w_out (world0 fs_c) ++ [MsgConnected; MsgRetrieving; MsgTotal (len lk_ok); MsgQuerying; MsgProcessing]
       ++ map MsgWarning (flat_map (site_warnings (cfg_ref_field wt_config) lk_ok)
                            [[("_id", VOid 1); ("platform_server_api_id", VStr "id1")]])
       ++ [MsgErrorProcessing TypeError; MsgClosed]).
Proof.
  apply (main_type_error_mid_loop (S := mem_db) wt_config Windows db_arr (world0 fs_c) lk_ok
           [[("_id", VOid 1); ("platform_server_api_id", VStr "id1")]]
           [("_id", VOid 5); ("platform_server_api_id", VList [VStr "id2"; VStr "x"])]
           [[("_id", VOid 3); ("platform_server_api_id", VStr "id2")]]);
    [reflexivity | reflexivity | reflexivity | by_decide | reflexivity | by_decide | reflexivity].
Defined.

(** The site cursor raises [OperationFailure] after one site. *)
Definition db_site_fault : mem_db :=
  mk_mem_db [(("controlPanel", "platform_server_api"), wt_configs); (("controlPanel", "site"), wt_sites)] None None
            [(("controlPanel", "site"), (1, OperationFailure))].

Lemma main_cursor_failure_after_sites_witness :
  main wt_config Windows db_site_fault (world0 fs_c) =
    mk_world (w_fs (world0 fs_c)) ClientClosed
      (w_out (world0 fs_c) ++ [MsgConnected; MsgRetrieving; MsgTotal (len lk_ok); MsgQuerying; MsgProcessing]
       ++ map MsgWarning (flat_map (site_warnings (cfg_ref_field wt_config) lk_ok)
                            (yielded (site_cursor wt_config db_site_fault lk_ok)))
       ++ [processing_msg OperationFailure; MsgClosed]).
Proof.
  apply (main_cursor_failure_after_sites (S := mem_db) wt_config Windows db_site_fault (world0 fs_c)
           lk_ok OperationFailure);
    [reflexivity | reflexivity | reflexivity | by_decide | by_decide | reflexivity].
Defined.

(** [db_ok] with a second database holding the same collection names. *)
Definition db_two_databases : mem_db :=
  mk_mem_db (db_collections db_ok ++
             [(("staging", "platform_server_api"), []); (("staging", "site"), wt_sites ++ wt_sites)])
            None None [].

Lemma main_reads_only_its_database_witness :
  main wt_config Windows db_ok (world0 fs_c) = main wt_config Windows db_two_databases (world0 fs_c) /\
  cz_main Windows db_ok (world0 fs_c) = cz_main Windows db_two_databases (world0 fs_c).
Proof.
  destruct (main_reads_only_its_database (S1 := mem_db) (S2 := mem_db) Windows db_ok db_two_databases
              (world0 fs_c)) as [Hwt Hcz]; [reflexivity | reflexivity | intros flt p; reflexivity |].
  split; [apply Hwt|apply Hcz]; intros flt p; reflexivity.
Defined.

Lemma loop_reachable_inv_witness :
  count_of (Finished st_ok) + remaining (Finished st_ok) = length (yielded sites_ok) /\
  tally_bounded (agg_of (Finished st_ok)).
Proof.
  apply (loop_reachable_inv "platform_server_api_id" lk_ok sites_ok (Finished st_ok)); [by_decide|].
  exact (loop_run "platform_server_api_id" lk_ok agg_init sites_ok).
Defined.

Lemma loop_site_eventually_counted_witness :
  loop_eventually "platform_server_api_id" lk_ok (fun s => 2 <= count_of s) (Iterating agg_init sites_ok).
Proof. apply (loop_site_eventually_counted _ _ sites_ok 1); [simpl; lia | by_decide]. Defined.

(** [save_json] to [C:\MongoDB\out\r.json] when [C:\MongoDB\out] may
    not be created: [C:\MongoDB] is created and stays, no file is
    written, and the failure line reports [PermissionError]. *)
Definition fs_out_denied : fsys := mk_fs ["C:\"] [] ["C:\MongoDB\out"] None.

Lemma save_json_keeps_partial_dirs_witness :
  missing_dirs Windows fs_out_denied "C:\MongoDB\out" = ["C:\MongoDB"; "C:\MongoDB\out"] /\
  save_json Windows fs_out_denied (JInt 0) "C:\MongoDB\out\r.json"
  = (mk_fs (rev (take 1 ["C:\MongoDB"; "C:\MongoDB\out"]) ++ ["C:\"]) [] ["C:\MongoDB\out"] None,
     [MsgSaveFailed "C:\MongoDB\out\r.json" (OSError PermissionError)]).
Proof.
  split; [vm_compute; reflexivity|].
  apply (save_json_keeps_partial_dirs Windows fs_out_denied (JInt 0) "C:\MongoDB\out\r.json");
    [discriminate | reflexivity | by_decide | by_decide].
Defined.

Lemma save_json_creates_output_dir_witness :
  fs_dirs (save_json Windows fs_c (JInt 0) wt_path).1 = rev (missing_dirs Windows fs_c "C:\MongoDB") ++ ["C:\"] /\
  (save_json Windows fs_c (JInt 0) wt_path).2 = [MsgCreatedDir "C:\MongoDB"; MsgSavedTo wt_path].
Proof.
  apply (save_json_creates_output_dir Windows fs_c (JInt 0) wt_path);
    [by_decide | by_decide | by_decide | by_decide | discriminate | by_decide].
Defined.

(** [C:\MongoDB] holds last run's report and the device has room for 5
    more characters: the new report does not fit. *)
Definition fs_full : fsys :=
  mk_fs ["C:\MongoDB"; "C:\"] [(wt_path, "old report")] [] (Some 5).

Lemma main_disk_full_partial_report_witness :
  exists n pre,
    n < length (to_chars (dump 0 (report_json (len lk_ok) (disabled_false_count st_ok) (feature_counts st_ok)))) /\
    sget (fs_files (w_fs (main wt_config Windows db_ok (world0 fs_full)))) wt_path
      = Some (of_chars (take n (to_chars
          (dump 0 (report_json (len lk_ok) (disabled_false_count st_ok) (feature_counts st_ok)))))) /\
    w_out (main wt_config Windows db_ok (world0 fs_full))
      = pre ++ [MsgSaveFailed wt_path (OSError NoSpaceLeft); MsgAllSaved wt_path; MsgClosed].
Proof.
  apply (main_disk_full_partial_report (S := mem_db) wt_config Windows db_ok (world0 fs_full) lk_ok st_ok);
    [reflexivity | reflexivity | reflexivity | discriminate | reflexivity | by_decide..].
Defined.

